(** * Mapbox map tools: the tool dispatcher and its layer handlers

    A shallow embedding of [class MapboxMapTools] (the library build with ten
    tools): [executeTool], the ten handlers it dispatches to,
    [generateSourceId], [getCustomLayerIds] and [destroy].

    - Arguments are dynamic JavaScript values ([Js]); handlers read them the
      way the source does (destructuring with defaults, truthiness tests,
      property reads that raise a TypeError on [undefined] and [null],
      conversions to text and to a number that raise a TypeError on an
      object that cannot be converted).
    - A handler is a computation over the instance ([this]) that either
      completes normally or throws; what it did to the instance before it
      threw stays done.
    - The map engine is an interface ([MapAPI.t]); every call a handler makes
      on it is also appended to a call log, so that "does not call the
      engine" can be stated. *)

From Stdlib Require Import List String Ascii Bool NArith ZArith QArith Qminmax.
From Stdlib Require Import Lia DecimalString DecimalN.
Import ListNotations.
Local Open Scope string_scope.

(** ** Strings *)

Module Str.

(** The double-quote character, as a one-character string. *)
Definition dq : string := String (ascii_of_nat 34) EmptyString.

(** [s.startsWith(p)] *)
Definition startsWith (s p : string) : bool := String.prefix p s.

(** [s.includes(sub)] *)
Fixpoint includes (s sub : string) : bool :=
  String.prefix sub s
  || match s with
     | EmptyString => false
     | String _ r => includes r sub
     end.

(** [s.endsWith(suf)] *)
Definition endsWith (s suf : string) : bool :=
  let n := String.length s in
  let m := String.length suf in
  (m <=? n)%nat && String.eqb (substring (n - m) m s) suf.

(** Character-wise replacement, [s.replace(/[class]/g, c)]. *)
Fixpoint map (f : ascii -> ascii) (s : string) : string :=
  match s with
  | EmptyString => EmptyString
  | String a r => String (f a) (map f r)
  end.

(** [l.join(sep)] on strings. *)
Fixpoint join (sep : string) (l : list string) : string :=
  match l with
  | [] => ""
  | [x] => x
  | x :: r => x ++ sep ++ join sep r
  end.

(** Decimal numeral of a natural number: what a template literal prints
    for a natural number of at most 2^53. *)
Definition dec (n : N) : string := NilZero.string_of_uint (N.to_uint n).

(** Drop the first [n] characters. *)
Fixpoint drop (n : nat) (s : string) : string :=
  match n, s with
  | O, _ => s
  | S _, EmptyString => EmptyString
  | S k, String _ r => drop k r
  end.

Definition chars (s : string) : list string :=
  List.map (fun a => String a EmptyString) (list_ascii_of_string s).

End Str.

(** ** JavaScript values *)

(** The values of arguments and options: what JSON text denotes, and
    [undefined]. Numbers are rationals: every finite double is one, and the
    handlers do no arithmetic on argument numbers. Strings are sequences of
    code units below 256. An object is its property list; property [k] is
    the first binding of [k]. No value is a function: a property of an
    object or an array is never callable. *)
#[warnings="-register-all"]
Inductive Js : Type :=
| JUndefined
| JNull
| JBool (b : bool)
| JNum (q : Q)
| JStr (s : string)
| JArr (items : list Js)
| JObj (fields : list (string * Js)).

(** The result of a conversion to a number. *)
Inductive Numeric : Type :=
| NaN
| Infinity (negative : bool)
| Finite (q : Q).

(** What the JavaScript runtime provides and this development leaves open:
    the printing of a number that is not a natural number of at most 2^53,
    [toFixed], the conversion of a string to a number, and the messages of
    the TypeErrors that the runtime itself throws:
    - [msg_destructure k v]: [const { k, ... } = args] when [args] is [v],
      which is [undefined] or [null];
    - [msg_read v k]: reading property [k] of [v], which is [undefined] or
      [null];
    - [msg_not_a_function callee]: calling [callee], an expression such as
      [points.map], whose value is not a function;
    - [msg_not_primitive]: converting an object that has no usable
      [toString] and [valueOf] to text or to a number. *)
Record JsRuntime : Type := {
  number_to_string : Q -> string;
  number_toFixed : Q -> nat -> string;
  string_to_number : string -> Numeric;
  msg_destructure : string -> Js -> string;
  msg_read : Js -> string -> string;
  msg_not_a_function : string -> string;
  msg_not_primitive : string
}.

(** Thrown values: [Error] and [TypeError] objects, each with a [message]. *)
Inductive Exn : Type :=
| Error (msg : string)
| TypeError (msg : string).

Definition message (e : Exn) : string :=
  match e with
  | Error m => m
  | TypeError m => m
  end.

(** The outcome of evaluating an expression or a call. *)
Inductive Completion (A : Type) : Type :=
| Normal (a : A)
| Throw (e : Exn).

Arguments Normal {A} a.
Arguments Throw {A} e.

Module JS.

Definition num (n : N) : Js := JNum (inject_Z (Z.of_N n)).

Definition truthy (v : Js) : bool :=
  match v with
  | JUndefined | JNull => false
  | JBool b => b
  | JNum q => negb (Qeq_bool q 0)
  | JStr s => negb (String.eqb s "")
  | JArr _ | JObj _ => true
  end.

Definition nullish (v : Js) : bool :=
  match v with
  | JUndefined | JNull => true
  | _ => false
  end.

Definition is_undefined (v : Js) : bool :=
  match v with
  | JUndefined => true
  | _ => false
  end.

(** [typeof v === 'number'] *)
Definition is_number (v : Js) : bool :=
  match v with
  | JNum _ => true
  | _ => false
  end.

(** [Array.isArray(v)] *)
Definition isArray (v : Js) : bool :=
  match v with
  | JArr _ => true
  | _ => false
  end.

(** [v === 0] *)
Definition is_zero (v : Js) : bool :=
  match v with
  | JNum q => Qeq_bool q 0
  | _ => false
  end.

(** [v === s] for a string literal [s] *)
Definition is_string (s : string) (v : Js) : bool :=
  match v with
  | JStr s' => String.eqb s' s
  | _ => false
  end.

(** [a || b] *)
Definition or (a b : Js) : Js := if truthy a then a else b.

(** A destructuring default, [{ k = d }]: used when the property is
    [undefined]. *)
Definition default (v d : Js) : Js :=
  match v with
  | JUndefined => d
  | _ => v
  end.

Fixpoint lookup (k : string) (fs : list (string * Js)) : Js :=
  match fs with
  | [] => JUndefined
  | (k', v) :: r => if String.eqb k k' then v else lookup k r
  end.

Fixpoint indexed_from (i : N) (l : list Js) : list (string * Js) :=
  match l with
  | [] => []
  | x :: r => (Str.dec i, x) :: indexed_from (N.succ i) r
  end.

Definition indexed (l : list Js) : list (string * Js) := indexed_from 0 l.

Fixpoint first_bindings (fs : list (string * Js)) : list (string * Js) :=
  match fs with
  | [] => []
  | (k, v) :: r =>
      (k, v) :: filter (fun kv => negb (String.eqb k (fst kv))) (first_bindings r)
  end.

(** Own enumerable properties, in order: what [Object.keys] and an object
    spread see. *)
Definition own_props (v : Js) : list (string * Js) :=
  match v with
  | JObj fs => first_bindings fs
  | JArr l => indexed l
  | JStr s => indexed (List.map JStr (Str.chars s))
  | _ => []
  end.

(** [v.k] for a value that is neither [undefined] nor [null]: the own
    properties, for the names the handlers read. None of these names is
    inherited by a plain object, a string, a number or a boolean. An array
    inherits one of them, [filter], from [Array.prototype]: a handler that
    destructures [filter] from an array gets that function, which no value
    here stands for; so whatever is stated below about the [filter] a
    handler passes on is stated for arguments that carry an own property,
    which an array does not. *)
Definition prop (v : Js) (k : string) : Js :=
  match v with
  | JObj fs => lookup k fs
  | JArr l =>
      if String.eqb k "length" then num (N.of_nat (List.length l))
      else lookup k (indexed l)
  | JStr s =>
      if String.eqb k "length" then num (N.of_nat (String.length s))
      else lookup k (own_props v)
  | _ => JUndefined
  end.

(** [v.k], which throws on [undefined] and [null]. *)
Definition get (rt : JsRuntime) (v : Js) (k : string) : Completion Js :=
  if nullish v
  then Throw (TypeError (msg_read rt v k))
  else Normal (prop v k).

(** [const { first, ... } = v] *)
Definition destructure (rt : JsRuntime) (first : string) (v : Js)
  : Completion unit :=
  if nullish v
  then Throw (TypeError (msg_destructure rt first v))
  else Normal tt.

(** Writing property [k]: replaces the binding or appends one. *)
Fixpoint set (k : string) (v : Js) (fs : list (string * Js)) : list (string * Js) :=
  match fs with
  | [] => [(k, v)]
  | (k', v') :: r =>
      if String.eqb k k' then (k, v) :: r else (k', v') :: set k v r
  end.

(** [{ ...into, ...v }] *)
Definition spread (into : list (string * Js)) (v : Js) : list (string * Js) :=
  fold_left (fun acc kv => set (fst kv) (snd kv) acc) (own_props v) into.

End JS.

(** [k in fs]: the object literal [fs] has an own property [k]. *)
Definition binds (k : string) (fs : list (string * Js)) : bool :=
  existsb (fun kv => String.eqb k (fst kv)) fs.

(** ** Conversions that depend on the runtime *)

Section Conversions.

Variable rt : JsRuntime.

(** [String(q)]: a natural number of at most 2^53 prints as its decimal
    numeral; the runtime prints every other number (above 2^53 the digits
    printed are the shortest that read back as the same double). *)
Definition num_str (q : Q) : string :=
  let r := Qred q in
  if (Pos.eqb (Qden r) 1 && (0 <=? Qnum r)%Z && (Qnum r <=? 2 ^ 53)%Z)%bool
  then Str.dec (Z.to_N (Qnum r))
  else number_to_string rt q.

(** The texts of the elements of a list, given the text of one element. *)
Fixpoint texts_of (item : Js -> Completion string) (l : list Js)
  : Completion (list string) :=
  match l with
  | [] => Normal []
  | x :: r =>
      match item x with
      | Throw e => Throw e
      | Normal s =>
          match texts_of item r with
          | Throw e => Throw e
          | Normal ss => Normal (s :: ss)
          end
      end
  end.

(** [String(v)], as a template literal and a property key apply it. An
    array prints its elements joined by commas, [undefined] and [null]
    elements as the empty text. A plain object prints as
    [[object Object]] through the [toString] it inherits; an object with
    an own property [toString] has no callable one (no value is a
    function), [valueOf] returns the object itself or is not callable
    either, and the conversion throws a TypeError. *)
Fixpoint to_string (v : Js) : Completion string :=
  match v with
  | JUndefined => Normal "undefined"
  | JNull => Normal "null"
  | JBool true => Normal "true"
  | JBool false => Normal "false"
  | JNum q => Normal (num_str q)
  | JStr s => Normal s
  | JArr l =>
      match
        (fix each (l : list Js) : Completion (list string) :=
           match l with
           | [] => Normal []
           | x :: r =>
               match (if JS.nullish x then Normal "" else to_string x) with
               | Throw e => Throw e
               | Normal s =>
                   match each r with
                   | Throw e => Throw e
                   | Normal ss => Normal (s :: ss)
                   end
               end
           end) l
      with
      | Throw e => Throw e
      | Normal ss => Normal (Str.join "," ss)
      end
  | JObj fs =>
      if binds "toString" fs
      then Throw (TypeError (msg_not_primitive rt))
      else Normal "[object Object]"
  end.

(** The text of the length [n] of an array or a list. *)
Definition length_text (n : nat) : string :=
  num_str (inject_Z (Z.of_N (N.of_nat n))).

(** The text of one element in [Array.prototype.join]. *)
Definition join_item (v : Js) : Completion string :=
  if JS.nullish v then Normal "" else to_string v.

(** [v.join(sep)], where [callee] is the text of the expression [v.join]:
    only an array has the method. *)
Definition join (callee : string) (v : Js) (sep : string) : Completion string :=
  match v with
  | JArr l =>
      match texts_of join_item l with
      | Throw e => Throw e
      | Normal ss => Normal (Str.join sep ss)
      end
  | JUndefined | JNull => Throw (TypeError (msg_read rt v "join"))
  | _ => Throw (TypeError (msg_not_a_function rt callee))
  end.

(** [Number(v)]. An object is first converted to a primitive value:
    [valueOf] returns the object itself or is not callable, so the
    primitive is the text that [toString] gives, or the conversion
    throws. *)
Definition to_number (v : Js) : Completion Numeric :=
  match v with
  | JUndefined => Normal NaN
  | JNull => Normal (Finite 0%Q)
  | JBool b => Normal (Finite (if b then 1%Q else 0%Q))
  | JNum q => Normal (Finite q)
  | JStr s => Normal (string_to_number rt s)
  | JArr _ | JObj _ =>
      match to_string v with
      | Throw e => Throw e
      | Normal s => Normal (string_to_number rt s)
      end
  end.

(** [v > 0] *)
Definition gt_zero (v : Js) : Completion bool :=
  match to_number v with
  | Throw e => Throw e
  | Normal NaN => Normal false
  | Normal (Infinity negative) => Normal (negb negative)
  | Normal (Finite q) => Normal (negb (Qle_bool q 0))
  end.

(** [l.slice(0, v)]: an [undefined] end is the length of the list; any
    other end is [v] as a number, truncated towards zero (NaN is 0); a
    negative end counts from the end of the list. *)
Definition slice_to {A : Type} (l : list A) (v : Js) : Completion (list A) :=
  match v with
  | JUndefined => Normal l
  | _ =>
      match to_number v with
      | Throw e => Throw e
      | Normal NaN => Normal []
      | Normal (Infinity negative) => Normal (if negative then [] else l)
      | Normal (Finite q) =>
          let e := Z.quot (Qnum q) (Zpos (Qden q)) in
          Normal (if (e <? 0)%Z
                  then firstn (List.length l - Z.to_nat (- e)) l
                  else firstn (Z.to_nat e) l)
      end
  end.

(** [v.toFixed(d)], where [callee] is the text of the expression
    [v.toFixed]: only a number has the method. *)
Definition toFixed (callee : string) (v : Js) (d : nat) : Completion string :=
  match v with
  | JNum q => Normal (number_toFixed rt q d)
  | JUndefined | JNull => Throw (TypeError (msg_read rt v "toFixed"))
  | _ => Throw (TypeError (msg_not_a_function rt callee))
  end.

End Conversions.

(** ** The map engine *)

(** One entry of [map.getStyle().layers], as far as the handlers read it. *)
Record StyleLayer : Type := {
  layer_id : string;
  layer_source : option string
}.

(** [map.getStyle()]: the layers in drawing order and the keys of the
    [sources] object. *)
Record Style : Type := {
  style_layers : list StyleLayer;
  style_sources : list string
}.

(** The calls the handlers make on the engine. [E] is the engine's state;
    a mutator returns the new state or throws, a getter returns a value or
    throws. [LngLatBounds] and [extend] are the bounds class of the engine's
    library ([new mapboxgl.LngLatBounds(sw, ne)], [bounds.extend(c)]). *)
Module MapAPI.

Record t (E : Type) : Type := {
  addSource : string -> Js -> E -> Completion E;
  addLayer : Js -> E -> Completion E;
  removeLayer : Js -> E -> Completion E;
  removeSource : Js -> E -> Completion E;
  getLayer : Js -> E -> Completion Js;
  getSource : Js -> E -> Completion Js;
  getStyle : E -> Completion Style;
  flyTo : Js -> E -> Completion E;
  setCenter : Js -> E -> Completion E;
  setZoom : Js -> E -> Completion E;
  fitBounds : Js -> Js -> E -> Completion E;
  setStyle : string -> E -> Completion E;
  queryRenderedFeatures : Js -> Js -> E -> Completion (list Js);
  querySourceFeatures : Js -> Js -> E -> Completion (list Js);
  on : string -> string -> E -> Completion E;
  LngLatBounds : Js -> Js -> Completion Js;
  extend : Js -> Js -> Completion Js
}.

Arguments addSource {E} _ _ _ _.
Arguments addLayer {E} _ _ _.
Arguments removeLayer {E} _ _ _.
Arguments removeSource {E} _ _ _.
Arguments getLayer {E} _ _ _.
Arguments getSource {E} _ _ _.
Arguments getStyle {E} _ _.
Arguments flyTo {E} _ _ _.
Arguments setCenter {E} _ _ _.
Arguments setZoom {E} _ _ _.
Arguments fitBounds {E} _ _ _ _.
Arguments setStyle {E} _ _ _.
Arguments queryRenderedFeatures {E} _ _ _ _.
Arguments querySourceFeatures {E} _ _ _ _.
Arguments on {E} _ _ _ _.
Arguments LngLatBounds {E} _ _ _.
Arguments extend {E} _ _ _.

End MapAPI.

(** A call on the map, as the log records it. *)
Inductive Call : Type :=
| CallAddSource (id : string) (source : Js)
| CallAddLayer (layer : Js)
| CallRemoveLayer (id : Js)
| CallRemoveSource (id : Js)
| CallGetLayer (id : Js)
| CallGetSource (id : Js)
| CallGetStyle
| CallFlyTo (camera : Js)
| CallSetCenter (center : Js)
| CallSetZoom (zoom : Js)
| CallFitBounds (bounds : Js) (opts : Js)
| CallSetStyle (url : string)
| CallQueryRenderedFeatures (geometry : Js) (opts : Js)
| CallQuerySourceFeatures (id : Js) (opts : Js)
| CallOn (event : string) (layer : string).

(** ** The instance *)

(** [this]: the map, the merged options (the property list of the options
    object) and the layer counter. [calls] is
    the log of the calls made on [map] so far, oldest first; the source has
    no such field, the handlers never read it. The counter is a JavaScript
    number that holds a natural number: the constructor sets it to 0 and
    only [++] changes it, which stops at 2^53 ([next_counter] below). *)
Record MapboxMapTools (E : Type) : Type := {
  map : E;
  calls : list Call;
  options : list (string * Js);
  layerCounter : N
}.

Arguments map {E} _.
Arguments calls {E} _.
Arguments options {E} _.
Arguments layerCounter {E} _.

(** The result envelope every handler returns. *)
Record Content : Type := {
  type_ : string;
  text : string
}.

Record Envelope : Type := {
  content : list Content;
  isError : bool;
  layerId : option string;
  sourceId : option string;
  data : option Js
}.

Definition text_content (s : string) : list Content :=
  [ {| type_ := "text"; text := s |} ].

Definition envelope (s : string) : Envelope :=
  {| content := text_content s; isError := false;
     layerId := None; sourceId := None; data := None |}.

Definition error_envelope (s : string) : Envelope :=
  {| content := text_content s; isError := true;
     layerId := None; sourceId := None; data := None |}.

(** ** Handler computations *)

Definition M (E A : Type) : Type :=
  MapboxMapTools E -> Completion A * MapboxMapTools E.

Definition ret {E A : Type} (a : A) : M E A := fun t => (Normal a, t).

Definition throw {E A : Type} (e : Exn) : M E A := fun t => (Throw e, t).

Definition bind {E A B : Type} (m : M E A) (k : A -> M E B) : M E B :=
  fun t =>
    match m t with
    | (Normal a, t') => k a t'
    | (Throw e, t') => (Throw e, t')
    end.

Definition lift {E A : Type} (c : Completion A) : M E A := fun t => (c, t).

Declare Scope tool_scope.
Delimit Scope tool_scope with tool.
Notation "x <- m ;; k" := (bind m (fun x => k))
  (at level 61, m at next level, right associativity) : tool_scope.
Notation "m ;;; k" := (bind m (fun _ => k))
  (at level 61, right associativity) : tool_scope.

(** [if (b) m] *)
Definition when {E : Type} (b : bool) (m : M E unit) : M E unit :=
  if b then m else ret tt.

(** [l.forEach(f)] *)
Fixpoint forEach {E A : Type} (f : A -> M E unit) (l : list A) : M E unit :=
  match l with
  | [] => ret tt
  | x :: r => bind (f x) (fun _ => forEach f r)
  end.

(** [l.map(f)] for a callback that may throw, called with the element and
    its index. *)
Fixpoint map_from {A B : Type} (f : A -> N -> Completion B) (i : N) (l : list A)
  : Completion (list B) :=
  match l with
  | [] => Normal []
  | x :: r =>
      match f x i with
      | Throw e => Throw e
      | Normal y =>
          match map_from f (N.succ i) r with
          | Throw e => Throw e
          | Normal ys => Normal (y :: ys)
          end
      end
  end.

(** [l.reduce(f, init)] for a callback that may throw. *)
Fixpoint reduce {A B : Type} (f : B -> A -> Completion B) (init : B) (l : list A)
  : Completion B :=
  match l with
  | [] => Normal init
  | x :: r =>
      match f init x with
      | Throw e => Throw e
      | Normal b => reduce f b r
      end
  end.

Definition foldM {E A B : Type} (f : B -> A -> M E B) : B -> list A -> M E B :=
  fix go (acc : B) (l : list A) : M E B :=
    match l with
    | [] => ret acc
    | x :: r => bind (f acc x) (fun acc' => go acc' r)
    end.

(** ** The class *)

Section Tools.

Variable rt : JsRuntime.
Variable E : Type.
Variable eng : MapAPI.t E.

Local Open Scope tool_scope.

Definition default_options : list (string * Js) :=
  [ ("defaultPointColor", JStr "#FF0000");
    ("defaultRouteColor", JStr "#0074D9");
    ("defaultRouteWidth", JS.num 4);
    ("defaultPolygonFillColor", JStr "#FF0000");
    ("defaultPolygonFillOpacity", JNum 0.3);
    ("defaultPolygonStrokeColor", JStr "#FF0000");
    ("defaultPolygonStrokeWidth", JS.num 2);
    ("enablePopups", JBool true);
    ("enableHoverEffects", JBool true) ].

(** [new MapboxMapTools(mapInstance, options)]; [None] is a missing map. *)
Definition constructor (mapInstance : option E) (opts : Js)
  : Completion (MapboxMapTools E) :=
  match mapInstance with
  | None => Throw (Error "Mapbox GL JS map instance is required")
  | Some m =>
      Normal {| map := m; calls := [];
                options := JS.spread default_options opts;
                layerCounter := 0 |}
  end.

(** *** Calls on [this.map] *)

Definition record (c : Call) (t : MapboxMapTools E) : MapboxMapTools E :=
  {| map := map t; calls := calls t ++ [c];
     options := options t; layerCounter := layerCounter t |}.

Definition mutate (c : Call) (f : E -> Completion E) : M E unit :=
  fun t =>
    let t1 := record c t in
    match f (map t) with
    | Normal e =>
        (Normal tt, {| map := e; calls := calls t1;
                       options := options t1; layerCounter := layerCounter t1 |})
    | Throw x => (Throw x, t1)
    end.

Definition query {A : Type} (c : Call) (f : E -> Completion A) : M E A :=
  fun t => (f (map t), record c t).

Definition map_addSource (id : string) (source : Js) : M E unit :=
  mutate (CallAddSource id source) (MapAPI.addSource eng id source).
Definition map_addLayer (layer : Js) : M E unit :=
  mutate (CallAddLayer layer) (MapAPI.addLayer eng layer).
Definition map_removeLayer (id : Js) : M E unit :=
  mutate (CallRemoveLayer id) (MapAPI.removeLayer eng id).
Definition map_removeSource (id : Js) : M E unit :=
  mutate (CallRemoveSource id) (MapAPI.removeSource eng id).
Definition map_getLayer (id : Js) : M E Js :=
  query (CallGetLayer id) (MapAPI.getLayer eng id).
Definition map_getSource (id : Js) : M E Js :=
  query (CallGetSource id) (MapAPI.getSource eng id).
Definition map_getStyle : M E Style :=
  query CallGetStyle (MapAPI.getStyle eng).
Definition map_flyTo (camera : Js) : M E unit :=
  mutate (CallFlyTo camera) (MapAPI.flyTo eng camera).
Definition map_setCenter (c : Js) : M E unit :=
  mutate (CallSetCenter c) (MapAPI.setCenter eng c).
Definition map_setZoom (z : Js) : M E unit :=
  mutate (CallSetZoom z) (MapAPI.setZoom eng z).
Definition map_fitBounds (b o : Js) : M E unit :=
  mutate (CallFitBounds b o) (MapAPI.fitBounds eng b o).
Definition map_setStyle (url : string) : M E unit :=
  mutate (CallSetStyle url) (MapAPI.setStyle eng url).
Definition map_queryRenderedFeatures (g o : Js) : M E (list Js) :=
  query (CallQueryRenderedFeatures g o) (MapAPI.queryRenderedFeatures eng g o).
Definition map_querySourceFeatures (id o : Js) : M E (list Js) :=
  query (CallQuerySourceFeatures id o) (MapAPI.querySourceFeatures eng id o).
Definition map_on (event layer : string) : M E unit :=
  mutate (CallOn event layer) (MapAPI.on eng event layer).

(** [this.options] *)
Definition this_options : M E (list (string * Js)) :=
  fun t => (Normal (options t), t).

(** The counter is a JavaScript number that starts at 0 and moves only by
    [++]: an integer of at most 2^53. Below 2^53 the increment is exact; at
    2^53 the sum 2^53 + 1 is not a double and rounds back to 2^53, so the
    counter stays where it is. *)
Definition next_counter (c : N) : N :=
  if (c <? 2 ^ 53)%N then (c + 1)%N else c.

(** [++this.layerCounter] *)
Definition incr_layerCounter : M E N :=
  fun t =>
    let c := next_counter (layerCounter t) in
    (Normal c, {| map := map t; calls := calls t;
                  options := options t; layerCounter := c |}).

(** The template [`${layerName}-${++this.layerCounter}`]: [layerName] is
    converted to text before the counter is incremented. *)
Definition unique_name (layerName : Js) : M E string :=
  name <- lift (to_string rt layerName) ;;
  c <- incr_layerCounter ;;
  ret (name ++ "-" ++ Str.dec c).

(** [v.map(f)] on an argument value, where [callee] is the text of the
    expression [v.map]. *)
Definition array_map (callee : string) (f : Js -> N -> Completion Js) (v : Js)
  : Completion (list Js) :=
  match v with
  | JArr l => map_from f 0 l
  | JUndefined | JNull => Throw (TypeError (msg_read rt v "map"))
  | _ => Throw (TypeError (msg_not_a_function rt callee))
  end.

(** [v.reduce(f, init)] on an argument value, where [init] has been
    evaluated. *)
Definition array_reduce (callee : string) (f : Js -> Js -> Completion Js)
  (init : Js) (v : Js) : Completion Js :=
  match v with
  | JArr l => reduce f init l
  | JUndefined | JNull => Throw (TypeError (msg_read rt v "reduce"))
  | _ => Throw (TypeError (msg_not_a_function rt callee))
  end.

Definition quoted (s : string) : string := Str.dq ++ s ++ Str.dq.

(** *** add_points_to_map *)

(** The callback of [points.map]: one GeoJSON feature per point. *)
Definition point_feature (opts : list (string * Js)) (point : Js) (index : N)
  : Completion Js :=
  match JS.get rt point "longitude" with
  | Throw e => Throw e
  | Normal longitude =>
      Normal (JObj
        [ ("type", JStr "Feature");
          ("geometry", JObj
             [ ("type", JStr "Point");
               ("coordinates", JArr [longitude; JS.prop point "latitude"]) ]);
          ("properties", JObj
             [ ("title", JS.or (JS.prop point "title")
                           (JStr ("Point " ++ Str.dec (index + 1))));
               ("description", JS.or (JS.prop point "description") (JStr ""));
               ("color", JS.or (JS.prop point "color")
                           (JS.lookup "defaultPointColor" opts)) ]) ])
  end.

Definition addPointsToMap (args : Js) : M E Envelope :=
  lift (JS.destructure rt "points" args) ;;;
  let points := JS.prop args "points" in
  let layerName := JS.default (JS.prop args "layerName") (JStr "points-layer") in
  uniqueLayerName <- unique_name layerName ;;
  opts <- this_options ;;
  features <- lift (array_map "points.map" (point_feature opts) points) ;;
  let geojson :=
    JObj [ ("type", JStr "FeatureCollection"); ("features", JArr features) ] in
  map_addSource uniqueLayerName
    (JObj [ ("type", JStr "geojson"); ("data", geojson) ]) ;;;
  map_addLayer
    (JObj [ ("id", JStr uniqueLayerName);
            ("type", JStr "circle");
            ("source", JStr uniqueLayerName);
            ("paint", JObj
               [ ("circle-radius", JS.num 8);
                 ("circle-color", JArr [JStr "get"; JStr "color"]);
                 ("circle-stroke-width", JS.num 2);
                 ("circle-stroke-color", JStr "#ffffff") ]) ]) ;;;
  when (JS.truthy (JS.lookup "enablePopups" opts))
    (map_on "click" uniqueLayerName) ;;;
  when (JS.truthy (JS.lookup "enableHoverEffects" opts))
    (map_on "mouseenter" uniqueLayerName ;;;
     map_on "mouseleave" uniqueLayerName) ;;;
  count <- lift (to_string rt (JS.prop points "length")) ;;
  ret {| content :=
           text_content ("Added " ++ count
                         ++ " points to map layer " ++ quoted uniqueLayerName);
         isError := false;
         layerId := Some uniqueLayerName;
         sourceId := None;
         data := None |}.

(** *** add_route_to_map *)

Definition addRouteToMap (args : Js) : M E Envelope :=
  lift (JS.destructure rt "coordinates" args) ;;;
  opts <- this_options ;;
  let coordinates := JS.prop args "coordinates" in
  let color :=
    JS.default (JS.prop args "color") (JS.lookup "defaultRouteColor" opts) in
  let width :=
    JS.default (JS.prop args "width") (JS.lookup "defaultRouteWidth" opts) in
  let layerName := JS.default (JS.prop args "layerName") (JStr "route-layer") in
  uniqueLayerName <- unique_name layerName ;;
  let geojson :=
    JObj [ ("type", JStr "Feature");
           ("geometry", JObj
              [ ("type", JStr "LineString"); ("coordinates", coordinates) ]) ] in
  map_addSource uniqueLayerName
    (JObj [ ("type", JStr "geojson"); ("data", geojson) ]) ;;;
  map_addLayer
    (JObj [ ("id", JStr uniqueLayerName);
            ("type", JStr "line");
            ("source", JStr uniqueLayerName);
            ("paint", JObj
               [ ("line-color", color);
                 ("line-width", width);
                 ("line-opacity", JNum 0.8) ]) ]) ;;;
  len <- lift (JS.get rt coordinates "length") ;;
  count <- lift (to_string rt len) ;;
  ret {| content :=
           text_content ("Added route with " ++ count
                         ++ " points to map layer " ++ quoted uniqueLayerName);
         isError := false;
         layerId := Some uniqueLayerName;
         sourceId := None;
         data := None |}.

(** *** pan_map_to_location *)

Definition panMapToLocation (args : Js) : M E Envelope :=
  lift (JS.destructure rt "longitude" args) ;;;
  let longitude := JS.prop args "longitude" in
  let latitude := JS.prop args "latitude" in
  let zoom := JS.default (JS.prop args "zoom") (JS.num 12) in
  let animate := JS.default (JS.prop args "animate") (JBool true) in
  (if JS.truthy animate
   then map_flyTo (JObj [ ("center", JArr [longitude; latitude]);
                          ("zoom", zoom);
                          ("duration", JS.num 2000) ])
   else map_setCenter (JArr [longitude; latitude]) ;;; map_setZoom zoom) ;;;
  lat <- lift (toFixed rt "latitude.toFixed" latitude 4) ;;
  lon <- lift (toFixed rt "longitude.toFixed" longitude 4) ;;
  level <- lift (to_string rt zoom) ;;
  ret (envelope ("Map centered on " ++ lat ++ ", " ++ lon
                 ++ " at zoom level " ++ level)).

(** *** fit_map_to_bounds *)

Definition fitMapToBounds (args : Js) : M E Envelope :=
  lift (JS.destructure rt "coordinates" args) ;;;
  let coordinates := JS.prop args "coordinates" in
  let padding := JS.default (JS.prop args "padding") (JS.num 50) in
  len <- lift (JS.get rt coordinates "length") ;;
  if JS.is_zero len then throw (Error "No coordinates provided")
  else
    let first := JS.prop coordinates "0" in
    init <- lift (MapAPI.LngLatBounds eng first first) ;;
    bounds <- lift (array_reduce "coordinates.reduce" (MapAPI.extend eng) init
                      coordinates) ;;
    map_fitBounds bounds (JObj [ ("padding", padding) ]) ;;;
    count <- lift (to_string rt len) ;;
    ret (envelope ("Map view adjusted to fit " ++ count ++ " coordinates")).

(** *** add_polygon_to_map *)

Definition addPolygonToMap (args : Js) : M E Envelope :=
  lift (JS.destructure rt "coordinates" args) ;;;
  opts <- this_options ;;
  let coordinates := JS.prop args "coordinates" in
  let fillColor :=
    JS.default (JS.prop args "fillColor")
      (JS.lookup "defaultPolygonFillColor" opts) in
  let fillOpacity :=
    JS.default (JS.prop args "fillOpacity")
      (JS.lookup "defaultPolygonFillOpacity" opts) in
  let strokeColor :=
    JS.default (JS.prop args "strokeColor")
      (JS.lookup "defaultPolygonStrokeColor" opts) in
  let strokeWidth :=
    JS.default (JS.prop args "strokeWidth")
      (JS.lookup "defaultPolygonStrokeWidth" opts) in
  let layerName := JS.default (JS.prop args "layerName") (JStr "polygon-layer") in
  uniqueLayerName <- unique_name layerName ;;
  let geojson :=
    JObj [ ("type", JStr "Feature");
           ("geometry", JObj
              [ ("type", JStr "Polygon"); ("coordinates", coordinates) ]) ] in
  map_addSource uniqueLayerName
    (JObj [ ("type", JStr "geojson"); ("data", geojson) ]) ;;;
  map_addLayer
    (JObj [ ("id", JStr (uniqueLayerName ++ "-fill"));
            ("type", JStr "fill");
            ("source", JStr uniqueLayerName);
            ("paint", JObj
               [ ("fill-color", fillColor); ("fill-opacity", fillOpacity) ]) ]) ;;;
  map_addLayer
    (JObj [ ("id", JStr (uniqueLayerName ++ "-stroke"));
            ("type", JStr "line");
            ("source", JStr uniqueLayerName);
            ("paint", JObj
               [ ("line-color", strokeColor); ("line-width", strokeWidth) ]) ]) ;;;
  ret {| content :=
           text_content ("Added polygon to map layer " ++ quoted uniqueLayerName);
         isError := false;
         layerId := Some uniqueLayerName;
         sourceId := None;
         data := None |}.

(** *** clear_map_layers *)

(** The naming convention by which a layer counts as created here. *)
Definition is_custom_layer_id (id : string) : bool :=
  Str.includes id "-layer-"
  || Str.endsWith id "-fill"
  || Str.endsWith id "-stroke".

(** [new Set(layers.map(l => l.source).filter(Boolean))], as the list of
    its members. *)
Definition usedSources (layers : list StyleLayer) : list string :=
  flat_map
    (fun l =>
       match layer_source l with
       | Some s => if String.eqb s "" then [] else [s]
       | None => []
       end)
    layers.

Definition has (set : list string) (s : string) : bool :=
  existsb (String.eqb s) set.

(** The body of the sweep of orphaned vector sources. *)
Definition remove_orphaned (used : list string) (sourceId : string) : M E unit :=
  if Str.endsWith sourceId "-vector-source" && negb (has used sourceId)
  then
    source <- map_getSource (JStr sourceId) ;;
    when (JS.truthy source) (map_removeSource (JStr sourceId))
  else ret tt.

(** [if (this.map.getLayer(id)) { this.map.removeLayer(id); removedCount++; }] *)
Definition remove_layer_if_present (removedCount : N) (id : Js) : M E N :=
  layer <- map_getLayer id ;;
  if JS.truthy layer
  then map_removeLayer id ;;; ret (removedCount + 1)%N
  else ret removedCount.

(** The branch for an empty [layerNames]. *)
Definition clear_all_custom : M E N :=
  style <- map_getStyle ;;
  let customLayers :=
    filter (fun l => is_custom_layer_id (layer_id l)) (style_layers style) in
  removedCount <-
    foldM (fun n l => remove_layer_if_present n (JStr (layer_id l)))
      0%N customLayers ;;
  style' <- map_getStyle ;;
  let sources := style_sources style' in
  forEach
    (fun sourceId =>
       when (Str.includes sourceId "-layer-") (map_removeSource (JStr sourceId)))
    sources ;;;
  remaining <- map_getStyle ;;
  let used := usedSources (style_layers remaining) in
  forEach (remove_orphaned used) sources ;;;
  ret removedCount.

(** The branch for given names. *)
Definition clear_named (layerNames : list Js) : M E N :=
  removedCount <-
    foldM
      (fun n layerName =>
         n' <- remove_layer_if_present n layerName ;;
         source <- map_getSource layerName ;;
         when (JS.truthy source) (map_removeSource layerName) ;;;
         ret n')
      0%N layerNames ;;
  remaining <- map_getStyle ;;
  let used := usedSources (style_layers remaining) in
  style <- map_getStyle ;;
  forEach (remove_orphaned used) (style_sources style) ;;;
  ret removedCount.

Definition clearMapLayers (args : Js) : M E Envelope :=
  lift (JS.destructure rt "layerNames" args) ;;;
  let layerNames := JS.default (JS.prop args "layerNames") (JArr []) in
  len <- lift (JS.get rt layerNames "length") ;;
  removedCount <-
    (if JS.is_zero len then clear_all_custom
     else
       match layerNames with
       | JArr names => clear_named names
       | _ => throw (TypeError (msg_not_a_function rt "layerNames.forEach"))
       end) ;;
  ret (envelope ("Removed " ++ Str.dec removedCount ++ " layers from the map")).

(** *** set_map_style *)

Definition setMapStyle (args : Js) : M E Envelope :=
  lift (JS.destructure rt "style" args) ;;;
  let style := JS.prop args "style" in
  name <- lift (to_string rt style) ;;
  let styleUrl := "mapbox://styles/mapbox/" ++ name in
  map_setStyle styleUrl ;;;
  name' <- lift (to_string rt style) ;;
  ret (envelope ("Changed map style to " ++ name')).

(** *** add_vector_tileset_layer *)

(** The prefix that [/^(mapbox:\/\/|https?:\/\/)/] matches, if any. *)
Definition scheme_prefix (url : string) : option string :=
  if Str.startsWith url "mapbox://" then Some "mapbox://"
  else if Str.startsWith url "https://" then Some "https://"
  else if Str.startsWith url "http://" then Some "http://"
  else None.

Definition in_range (lo hi : nat) (a : ascii) : bool :=
  (lo <=? nat_of_ascii a)%nat && (nat_of_ascii a <=? hi)%nat.

(** Membership in the class [a-zA-Z0-9-_.]: letters, digits, hyphen,
    underscore and dot. *)
Definition kept_in_source_id (a : ascii) : bool :=
  in_range 97 122 a || in_range 65 90 a || in_range 48 57 a
  || Ascii.eqb a "-" || Ascii.eqb a "_" || Ascii.eqb a ".".

Definition generateSourceId (tilesetUrl : string) : string :=
  let cleanUrl :=
    Str.map (fun a => if kept_in_source_id a then a else "-"%char)
      (match scheme_prefix tilesetUrl with
       | Some p => Str.drop (String.length p) tilesetUrl
       | None => tilesetUrl
       end) in
  cleanUrl ++ "-vector-source".

Definition defaultPaintByType : list (string * Js) :=
  [ ("line", JObj [ ("line-color", JStr "#0074D9");
                    ("line-width", JS.num 2);
                    ("line-opacity", JNum 0.8) ]);
    ("fill", JObj [ ("fill-color", JStr "#FF0000");
                    ("fill-opacity", JNum 0.3) ]);
    ("circle", JObj [ ("circle-radius", JS.num 6);
                      ("circle-color", JStr "#FF0000");
                      ("circle-opacity", JNum 0.8) ]);
    ("fill-extrusion", JObj [ ("fill-extrusion-color", JStr "#0074D9");
                              ("fill-extrusion-height", JS.num 10);
                              ("fill-extrusion-opacity", JNum 0.8) ]);
    ("symbol", JObj [ ("text-color", JStr "#000000");
                      ("text-halo-color", JStr "#FFFFFF");
                      ("text-halo-width", JS.num 2) ]) ].

(** [if (c) config.k = v] *)
Definition set_if (c : bool) (k : string) (v : Js) (fs : list (string * Js))
  : list (string * Js) :=
  if c then JS.set k v fs else fs.

Definition invalid_tileset_url : string :=
  "Invalid tileset URL format. Must start with " ++ quoted "mapbox://"
  ++ " or " ++ quoted "http(s)://".

(** [tilesetUrl.match(/^(mapbox:\/\/|https?:\/\/)/)]: only a string has
    the method; the result is the URL when it matches. *)
Definition match_scheme (tilesetUrl : Js) : Completion (option string) :=
  match tilesetUrl with
  | JStr url =>
      Normal (match scheme_prefix url with
              | Some _ => Some url
              | None => None
              end)
  | JUndefined | JNull => Throw (TypeError (msg_read rt tilesetUrl "match"))
  | _ => Throw (TypeError (msg_not_a_function rt "tilesetUrl.match"))
  end.

Definition addVectorTilesetLayer (args : Js) : M E Envelope :=
  lift (JS.destructure rt "tilesetUrl" args) ;;;
  let tilesetUrl := JS.prop args "tilesetUrl" in
  let sourceLayer := JS.prop args "sourceLayer" in
  let layerType := JS.prop args "layerType" in
  let layerName :=
    JS.default (JS.prop args "layerName") (JStr "vector-tileset-layer") in
  let paint := JS.default (JS.prop args "paint") (JObj []) in
  let layout := JS.default (JS.prop args "layout") (JObj []) in
  let filter := JS.prop args "filter" in
  let minzoom := JS.prop args "minzoom" in
  let maxzoom := JS.prop args "maxzoom" in
  matched <- lift (match_scheme tilesetUrl) ;;
  match matched with
  | None => throw (Error invalid_tileset_url)
  | Some url =>
      uniqueLayerName <- unique_name layerName ;;
      let sourceId := generateSourceId url in
      existing <- map_getSource (JStr sourceId) ;;
      when (negb (JS.truthy existing))
        (map_addSource sourceId
           (if Str.startsWith url "mapbox://"
            then JObj [ ("type", JStr "vector"); ("url", JStr url) ]
            else JObj [ ("type", JStr "vector"); ("tiles", JArr [JStr url]) ])) ;;;
      key <- lift (to_string rt layerType) ;;
      let finalPaint :=
        JS.spread (JS.spread [] (JS.lookup key defaultPaintByType)) paint in
      let layerConfig :=
        set_if (negb (JS.is_undefined maxzoom)) "maxzoom" maxzoom
          (set_if (negb (JS.is_undefined minzoom)) "minzoom" minzoom
             (set_if (JS.truthy filter) "filter" filter
                (set_if (JS.truthy layout
                         && negb (Nat.eqb (List.length (JS.own_props layout)) 0))
                   "layout" layout
                   [ ("id", JStr uniqueLayerName);
                     ("type", layerType);
                     ("source", JStr sourceId);
                     ("source-layer", sourceLayer);
                     ("paint", JObj finalPaint) ]))) in
      map_addLayer (JObj layerConfig) ;;;
      layerText <- lift (to_string rt sourceLayer) ;;
      ret {| content :=
               text_content ("Added vector tileset layer " ++ quoted uniqueLayerName
                             ++ " from source " ++ quoted sourceId
                             ++ " (source layer: " ++ quoted layerText ++ ")");
             isError := false;
             layerId := Some uniqueLayerName;
             sourceId := Some sourceId;
             data := None |}
  end.

(** *** query_rendered_features *)

Definition plural (n : nat) : string := if Nat.eqb n 1 then "" else "s".

Definition count_str (n : nat) : string := Str.dec (N.of_nat n).

Definition feature_collection (features : list Js) : Js :=
  JObj [ ("type", JStr "FeatureCollection"); ("features", JArr features) ].

(** The callback that strips the geometry of a rendered feature. *)
Definition strip_rendered (f : Js) (_ : N) : Completion Js :=
  match JS.get rt f "properties" with
  | Throw e => Throw e
  | Normal properties =>
      Normal (JObj [ ("type", JStr "Feature");
                     ("properties", properties);
                     ("layer", JS.prop f "layer");
                     ("source", JS.prop f "source");
                     ("sourceLayer", JS.prop f "sourceLayer") ])
  end.

(** The geometry to query: a point, a box given by two corners, or
    [undefined] for the whole viewport. *)
Definition query_geometry (point bbox : Js) : Completion Js :=
  if JS.truthy point then
    if negb (JS.is_number (JS.prop point "x"))
       || negb (JS.is_number (JS.prop point "y"))
    then Throw (Error "Invalid point coordinates. Expected {x: number, y: number}.")
    else Normal (JArr [JS.prop point "x"; JS.prop point "y"])
  else if JS.truthy bbox then
    match bbox with
    | JArr [x1; y1; x2; y2] => Normal (JArr [JArr [x1; y1]; JArr [x2; y2]])
    | _ => Throw (Error "Invalid bbox format. Expected [x1, y1, x2, y2].")
    end
  else Normal JUndefined.

(** [if (layers && layers.length > 0)] *)
Definition listed (layers : Js) : Completion bool :=
  if JS.truthy layers then gt_zero rt (JS.prop layers "length") else Normal false.

Definition query_description (point bbox : Js) : Completion string :=
  if JS.truthy point then
    match to_string rt (JS.prop point "x") with
    | Throw e => Throw e
    | Normal x =>
        match to_string rt (JS.prop point "y") with
        | Throw e => Throw e
        | Normal y => Normal ("at point (" ++ x ++ ", " ++ y ++ ")")
        end
    end
  else if JS.truthy bbox then
    match join rt "bbox.join" bbox ", " with
    | Throw e => Throw e
    | Normal s => Normal ("in bbox [" ++ s ++ "]")
    end
  else Normal "in viewport".

Definition queryRenderedFeatures (args : Js) : M E Envelope :=
  lift (JS.destructure rt "point" args) ;;;
  let point := JS.prop args "point" in
  let bbox := JS.prop args "bbox" in
  let layers := JS.prop args "layers" in
  let filter := JS.prop args "filter" in
  let limit := JS.default (JS.prop args "limit") (JS.num 100) in
  let includeGeometry := JS.default (JS.prop args "includeGeometry") (JBool true) in
  if JS.truthy point && JS.truthy bbox
  then throw (Error "Cannot specify both point and bbox parameters. Use one or the other.")
  else
    queryGeometry <- lift (query_geometry point bbox) ;;
    withLayers <- lift (listed layers) ;;
    let opts :=
      set_if (JS.truthy filter) "filter" filter
        (set_if withLayers "layers" layers []) in
    found <- map_queryRenderedFeatures queryGeometry (JObj opts) ;;
    limited <- lift (slice_to rt found limit) ;;
    features <-
      (if JS.truthy includeGeometry then ret limited
       else lift (map_from strip_rendered 0 limited)) ;;
    queryDescription <- lift (query_description point bbox) ;;
    inLayers <-
      (if JS.truthy layers
       then joined <- lift (join rt "layers.join" layers ", ") ;;
            ret (" in layers: " ++ joined)
       else ret "") ;;
    ret {| content :=
             text_content ("Found " ++ count_str (List.length features)
                           ++ " rendered feature" ++ plural (List.length features)
                           ++ " " ++ queryDescription ++ inLayers);
           isError := false;
           layerId := None;
           sourceId := None;
           data := Some (feature_collection features) |}.

(** *** query_source_features *)

(** The callback that strips the geometry of a source feature. *)
Definition strip_source (f : Js) (_ : N) : Completion Js :=
  match JS.get rt f "properties" with
  | Throw e => Throw e
  | Normal properties =>
      Normal (JObj [ ("type", JStr "Feature");
                     ("properties", properties);
                     ("source", JS.prop f "source");
                     ("sourceLayer", JS.prop f "sourceLayer") ])
  end.

(** The message for a source that the map does not have, given the text
    of [sourceId]. *)
Definition source_not_found (sourceId : string) (available : list string) : string :=
  "Source " ++ quoted sourceId ++ " not found. Available sources: "
  ++ (if String.eqb (Str.join ", " available) "" then "none"
      else Str.join ", " available)
  ++ ". Make sure you're using the correct source ID from layer creation.".

Definition querySourceFeatures (args : Js) : M E Envelope :=
  lift (JS.destructure rt "sourceId" args) ;;;
  let sourceId := JS.prop args "sourceId" in
  let sourceLayer := JS.prop args "sourceLayer" in
  let filter := JS.prop args "filter" in
  let limit := JS.default (JS.prop args "limit") (JS.num 1000) in
  let includeGeometry := JS.default (JS.prop args "includeGeometry") (JBool true) in
  source <- map_getSource sourceId ;;
  if negb (JS.truthy source) then
    style <- map_getStyle ;;
    idText <- lift (to_string rt sourceId) ;;
    throw (Error (source_not_found idText (style_sources style)))
  else if JS.is_string "vector" (JS.prop source "type") && negb (JS.truthy sourceLayer)
  then throw (Error "sourceLayer parameter is required for vector tile sources")
  else
    let opts :=
      set_if (JS.truthy filter) "filter" filter
        (set_if (JS.truthy sourceLayer) "sourceLayer" sourceLayer []) in
    found <- map_querySourceFeatures sourceId (JObj opts) ;;
    limited <- lift (slice_to rt found limit) ;;
    features <-
      (if JS.truthy includeGeometry then ret limited
       else lift (map_from strip_source 0 limited)) ;;
    idText <- lift (to_string rt sourceId) ;;
    layerText <-
      (if JS.truthy sourceLayer
       then shown <- lift (to_string rt sourceLayer) ;;
            ret (" (layer: " ++ shown ++ ")")
       else ret "") ;;
    ret {| content :=
             text_content ("Found " ++ count_str (List.length features)
                           ++ " feature" ++ plural (List.length features)
                           ++ " from source " ++ quoted idText ++ layerText);
           isError := false;
           layerId := None;
           sourceId := None;
           data := Some (feature_collection features) |}.

(** *** The catalog, introspection and teardown *)

(** The names of the tool descriptors that [initializeTools] builds, in
    order. The descriptions and input schemas are data for the caller; no
    handler reads them. *)
Definition tool_names : list string :=
  [ "add_points_to_map"; "add_route_to_map"; "pan_map_to_location";
    "fit_map_to_bounds"; "add_polygon_to_map"; "clear_map_layers";
    "set_map_style"; "add_vector_tileset_layer";
    "query_rendered_features"; "query_source_features" ].

Definition getCustomLayerIds : M E (list string) :=
  style <- map_getStyle ;;
  ret (List.map layer_id
         (List.filter (fun l => is_custom_layer_id (layer_id l))
            (style_layers style))).

Definition destroy : M E unit :=
  clearMapLayers (JObj []) ;;; ret tt.

(** *** executeTool *)

(** The [switch] inside the [try] block. *)
Definition dispatch (toolName : string) (args : Js) : M E Envelope :=
  if String.eqb toolName "add_points_to_map" then addPointsToMap args
  else if String.eqb toolName "add_route_to_map" then addRouteToMap args
  else if String.eqb toolName "pan_map_to_location" then panMapToLocation args
  else if String.eqb toolName "fit_map_to_bounds" then fitMapToBounds args
  else if String.eqb toolName "add_polygon_to_map" then addPolygonToMap args
  else if String.eqb toolName "clear_map_layers" then clearMapLayers args
  else if String.eqb toolName "set_map_style" then setMapStyle args
  else if String.eqb toolName "add_vector_tileset_layer" then addVectorTilesetLayer args
  else if String.eqb toolName "query_rendered_features" then queryRenderedFeatures args
  else if String.eqb toolName "query_source_features" then querySourceFeatures args
  else throw (Error ("Unknown tool: " ++ toolName)).

(** The resolved value of [executeTool(toolName, args)] and the instance
    afterwards. *)
Definition executeTool (toolName : string) (args : Js)
  : MapboxMapTools E -> Envelope * MapboxMapTools E :=
  fun t =>
    match dispatch toolName args t with
    | (Normal result, t') => (result, t')
    | (Throw error, t') => (error_envelope ("Error: " ++ message error), t')
    end.

End Tools.

Arguments constructor {E} mapInstance opts.
Arguments record {E} c t.
Arguments mutate {E} c f _.
Arguments query {E A} c f _.
Arguments this_options {E} _.
Arguments incr_layerCounter {E} _.
Arguments unique_name rt {E} layerName _.
Arguments addPointsToMap rt {E} eng args _.
Arguments addRouteToMap rt {E} eng args _.
Arguments panMapToLocation rt {E} eng args _.
Arguments fitMapToBounds rt {E} eng args _.
Arguments addPolygonToMap rt {E} eng args _.
Arguments remove_orphaned {E} eng used sourceId _.
Arguments remove_layer_if_present {E} eng removedCount id _.
Arguments clear_all_custom {E} eng _.
Arguments clear_named {E} eng layerNames _.
Arguments clearMapLayers rt {E} eng args _.
Arguments setMapStyle rt {E} eng args _.
Arguments addVectorTilesetLayer rt {E} eng args _.
Arguments queryRenderedFeatures rt {E} eng args _.
Arguments querySourceFeatures rt {E} eng args _.
Arguments getCustomLayerIds {E} eng _.
Arguments destroy rt {E} eng _.
Arguments dispatch rt {E} eng toolName args _.
Arguments executeTool rt {E} eng toolName args _.

(** ** An in-memory map engine *)

(** The map engine is an external library, outside the repository. This
    module is the in-memory double of the capability interface addSource,
    addLayer, removeSource, removeLayer, getStyle, querySourceFeatures,
    queryRenderedFeatures, setCenter, setZoom, flyTo, fitBounds, setStyle. *)
Module MemMap.

(** Modelled from the spec: the state of the external map engine, as the
    in-memory double keeps it: a table of sources, a list of layers, the
    camera commands received, the style and the listeners registered. The
    operations below reject a duplicate identifier, a layer on an unknown
    source and the removal of an unknown identifier; they keep a source that
    a layer still uses; a style swap discards every source and layer. *)
Record state : Type := {
  sources : list (string * Js);
  layers : list (string * Js);
  camera : list Call;
  style : string;
  listeners : list (string * string)
}.

Definition empty : state :=
  {| sources := []; layers := []; camera := [];
     style := "mapbox://styles/mapbox/streets-v12"; listeners := [] |}.

Definition has_key {A : Type} (id : string) (l : list (string * A)) : bool :=
  existsb (fun kv => String.eqb id (fst kv)) l.

Definition without {A : Type} (id : string) (l : list (string * A))
  : list (string * A) :=
  filter (fun kv => negb (String.eqb id (fst kv))) l.

Definition uses (id : string) (layer : string * Js) : bool :=
  JS.is_string id (JS.prop (snd layer) "source").

Definition with_sources (s : list (string * Js)) (st : state) : state :=
  {| sources := s; layers := layers st; camera := camera st;
     style := style st; listeners := listeners st |}.

Definition with_layers (l : list (string * Js)) (st : state) : state :=
  {| sources := sources st; layers := l; camera := camera st;
     style := style st; listeners := listeners st |}.

Definition with_camera (c : Call) (st : state) : state :=
  {| sources := sources st; layers := layers st; camera := camera st ++ [c];
     style := style st; listeners := listeners st |}.

Definition addSource (id : string) (source : Js) (st : state) : Completion state :=
  if has_key id (sources st)
  then Throw (Error ("There is already a source with ID " ++ id))
  else Normal (with_sources (sources st ++ [(id, source)]) st).

Definition addLayer (layer : Js) (st : state) : Completion state :=
  match JS.prop layer "id" with
  | JStr id =>
      if has_key id (layers st)
      then Throw (Error ("Layer with id " ++ id ++ " already exists on this map"))
      else
        match JS.prop layer "source" with
        | JStr src =>
            if has_key src (sources st)
            then Normal (with_layers (layers st ++ [(id, layer)]) st)
            else Throw (Error ("Source " ++ src ++ " not found"))
        | _ => Normal (with_layers (layers st ++ [(id, layer)]) st)
        end
  | _ => Throw (Error "layers.id: string expected")
  end.

Definition removeLayer (id : Js) (st : state) : Completion state :=
  match id with
  | JStr s =>
      if has_key s (layers st)
      then Normal (with_layers (without s (layers st)) st)
      else Throw (Error ("The layer " ++ s ++ " does not exist in the map's style"))
  | _ => Throw (Error "The layer does not exist in the map's style")
  end.

Definition removeSource (id : Js) (st : state) : Completion state :=
  match id with
  | JStr s =>
      if has_key s (sources st)
      then
        if existsb (uses s) (layers st)
        then Normal st
        else Normal (with_sources (without s (sources st)) st)
      else Throw (Error "There is no source with this ID")
  | _ => Throw (Error "There is no source with this ID")
  end.

Definition getLayer (id : Js) (st : state) : Completion Js :=
  match id with
  | JStr s =>
      Normal (match find (fun kv => String.eqb s (fst kv)) (layers st) with
              | Some kv => snd kv
              | None => JUndefined
              end)
  | _ => Normal JUndefined
  end.

(** The source object: its identifier and its type. *)
Definition getSource (id : Js) (st : state) : Completion Js :=
  match id with
  | JStr s =>
      Normal (match find (fun kv => String.eqb s (fst kv)) (sources st) with
              | Some kv =>
                  JObj [ ("id", JStr s); ("type", JS.prop (snd kv) "type") ]
              | None => JUndefined
              end)
  | _ => Normal JUndefined
  end.

Definition style_layer (layer : string * Js) : StyleLayer :=
  {| layer_id := fst layer;
     layer_source := match JS.prop (snd layer) "source" with
                     | JStr s => Some s
                     | _ => None
                     end |}.

Definition getStyle (st : state) : Completion Style :=
  Normal {| style_layers := List.map style_layer (layers st);
            style_sources := List.map fst (sources st) |}.

Definition setStyle (url : string) (st : state) : Completion state :=
  Normal {| sources := []; layers := []; camera := camera st;
            style := url; listeners := listeners st |}.

Definition on (event layer : string) (st : state) : Completion state :=
  Normal {| sources := sources st; layers := layers st; camera := camera st;
            style := style st; listeners := listeners st ++ [(event, layer)] |}.

(** The features of a GeoJSON source: those of a FeatureCollection, or
    the single Feature. *)
Definition source_features (source : Js) : list Js :=
  if JS.is_string "geojson" (JS.prop source "type") then
    let d := JS.prop source "data" in
    if JS.is_string "FeatureCollection" (JS.prop d "type") then
      match JS.prop d "features" with
      | JArr l => l
      | _ => []
      end
    else if JS.is_string "Feature" (JS.prop d "type") then [d]
    else []
  else [].

(** Modelled from the spec: the engine's querySourceFeatures, which the
    repository only calls. The double returns the stored GeoJSON features
    of the source as they are; filters are not evaluated. *)
Definition querySourceFeatures (id opts : Js) (st : state) : Completion (list Js) :=
  match id with
  | JStr s =>
      Normal (match find (fun kv => String.eqb s (fst kv)) (sources st) with
              | Some kv => source_features (snd kv)
              | None => []
              end)
  | _ => Normal []
  end.

(** Every layer renders the features of its source; the geometry and the
    filter of the query are not evaluated. *)
Definition queryRenderedFeatures (geometry opts : Js) (st : state)
  : Completion (list Js) :=
  Normal (flat_map
            (fun layer =>
               match JS.prop (snd layer) "source" with
               | JStr s =>
                   match find (fun kv => String.eqb s (fst kv)) (sources st) with
                   | Some kv => source_features (snd kv)
                   | None => []
                   end
               | _ => []
               end)
            (layers st)).

(** Modelled from the spec: the bounds class of the engine's library,
    which the repository only calls. The double knows one kind of
    coordinate, an array of two or three elements whose first two are
    numbers, and treats it as the class does: a latitude outside -90 to 90
    is rejected with the message of the class. Every other value is
    rejected here with the message the class has for a value that is no
    coordinate; the class itself converts some of those values and ignores
    others. *)
Definition not_a_coordinate : string :=
  "`LngLatLike` argument must be specified as a LngLat instance, "
  ++ "an object {lng: <lng>, lat: <lat>}, an object {lon: <lng>, lat: <lat>}, "
  ++ "or an array of [<lng>, <lat>]".

Definition lngLat (c : Js) : Completion (Q * Q) :=
  match c with
  | JArr [JNum lng; JNum lat] | JArr [JNum lng; JNum lat; _] =>
      if Qle_bool (-90) lat && Qle_bool lat 90
      then Normal (lng, lat)
      else Throw (Error "Invalid LngLat latitude value: must be between -90 and 90")
  | _ => Throw (Error not_a_coordinate)
  end.

Definition bounds (w s e n : Q) : Js :=
  JArr [ JArr [JNum w; JNum s]; JArr [JNum e; JNum n] ].

Definition LngLatBounds (sw ne : Js) : Completion Js :=
  match lngLat sw with
  | Throw x => Throw x
  | Normal (w, s) =>
      match lngLat ne with
      | Throw x => Throw x
      | Normal (e, n) => Normal (bounds w s e n)
      end
  end.

Definition extend (b c : Js) : Completion Js :=
  match b with
  | JArr [ JArr [JNum w; JNum s]; JArr [JNum e; JNum n] ] =>
      match lngLat c with
      | Throw x => Throw x
      | Normal (lng, lat) =>
          Normal (bounds (Qmin w lng) (Qmin s lat) (Qmax e lng) (Qmax n lat))
      end
  | _ => Throw (Error not_a_coordinate)
  end.

Definition api : MapAPI.t state :=
  {| MapAPI.addSource := addSource;
     MapAPI.addLayer := addLayer;
     MapAPI.removeLayer := removeLayer;
     MapAPI.removeSource := removeSource;
     MapAPI.getLayer := getLayer;
     MapAPI.getSource := getSource;
     MapAPI.getStyle := getStyle;
     MapAPI.flyTo := fun c st => Normal (with_camera (CallFlyTo c) st);
     MapAPI.setCenter := fun c st => Normal (with_camera (CallSetCenter c) st);
     MapAPI.setZoom := fun z st => Normal (with_camera (CallSetZoom z) st);
     MapAPI.fitBounds := fun b o st => Normal (with_camera (CallFitBounds b o) st);
     MapAPI.setStyle := setStyle;
     MapAPI.queryRenderedFeatures := queryRenderedFeatures;
     MapAPI.querySourceFeatures := querySourceFeatures;
     MapAPI.on := on;
     MapAPI.LngLatBounds := LngLatBounds;
     MapAPI.extend := extend |}.

(** A runtime for evaluating examples. The messages are those of the V8
    engine. The printing of numbers is that of JavaScript for the numbers
    that examples use: decimal fractions of at most 15 significant digits,
    of magnitude between 10^-6 and 10^21. [fixed] rounds the rational
    itself, half away from zero, where JavaScript rounds the double
    nearest to it. Of the texts that JavaScript converts to a number, only
    the decimal numerals of natural numbers and the empty text convert
    here; every other text gives NaN. *)
Definition zeros (n : nat) : string := String.concat "" (List.repeat "0" n).

(** The decimal numeral of [n], with zeros in front up to [d] digits. *)
Definition padded (d : nat) (n : N) : string :=
  zeros (d - String.length (Str.dec n)) ++ Str.dec n.

Definition sign (q : Q) : string := if (Qnum q <? 0)%Z then "-" else "".

(** [q.toFixed(d)] *)
Definition fixed (q : Q) (d : nat) : string :=
  let scale := (10 ^ Z.of_nat d)%Z in
  let n := ((2 * Z.abs (Qnum q) * scale + Zpos (Qden q)) / (2 * Zpos (Qden q)))%Z in
  sign q ++ Str.dec (Z.to_N (n / scale))
  ++ (if Nat.eqb d 0 then "" else "." ++ padded d (Z.to_N (n mod scale))).

(** The least number of decimals, up to [fuel], that write [q] exactly. *)
Fixpoint decimals (fuel d : nat) (q : Q) : option nat :=
  if ((Qnum q * 10 ^ Z.of_nat d) mod Zpos (Qden q) =? 0)%Z then Some d
  else match fuel with
       | O => None
       | S fuel' => decimals fuel' (S d) q
       end.

(** [String(q)]: a decimal fraction prints with the decimals it has; a
    rational that is none is the value of no JSON number, and prints
    rounded to six decimals. *)
Definition printed (q : Q) : string :=
  match decimals 30 0 q with
  | Some d => fixed q d
  | None => fixed q 6
  end.

Definition which (v : Js) : string :=
  match v with
  | JNull => "null"
  | _ => "undefined"
  end.

Definition runtime : JsRuntime :=
  {| number_to_string := printed;
     number_toFixed := fixed;
     string_to_number := fun s =>
       if String.eqb s "" then Finite 0
       else match NilZero.uint_of_string s with
            | Some d => Finite (inject_Z (Z.of_N (N.of_uint d)))
            | None => NaN
            end;
     msg_destructure := fun k v =>
       "Cannot destructure property '" ++ k ++ "' of 'args' as it is "
       ++ which v ++ ".";
     msg_read := fun v k =>
       "Cannot read properties of " ++ which v ++ " (reading '" ++ k ++ "')";
     msg_not_a_function := fun callee => callee ++ " is not a function";
     msg_not_primitive := "Cannot convert object to primitive value" |}.

(** A fresh instance on a map in state [st], with the default options. *)
Definition instance (st : state) : MapboxMapTools state :=
  {| map := st; calls := []; options := default_options; layerCounter := 0 |}.

End MemMap.

(** ** Vocabulary of the statements *)

(** A caller that invokes [executeTool] once per element of [invocations],
    in order, on the same instance: the envelopes returned and the instance
    at the end. *)
Fixpoint run {E : Type} (rt : JsRuntime) (eng : MapAPI.t E)
  (invocations : list (string * Js)) (t : MapboxMapTools E)
  : list Envelope * MapboxMapTools E :=
  match invocations with
  | [] => ([], t)
  | (toolName, args) :: rest =>
      let (env, t1) := executeTool rt eng toolName args t in
      let (envs, t2) := run rt eng rest t1 in
      (env :: envs, t2)
  end.

(** The default layer name of a layer-creating tool. *)
Definition default_layer_name (toolName : string) : string :=
  if String.eqb toolName "add_points_to_map" then "points-layer"
  else if String.eqb toolName "add_route_to_map" then "route-layer"
  else if String.eqb toolName "add_polygon_to_map" then "polygon-layer"
  else "vector-tileset-layer".

(** The name an invocation asks for: [layerName], or the default. *)
Definition requested_layer (toolName : string) (args : Js) : Js :=
  JS.default (JS.prop args "layerName") (JStr (default_layer_name toolName)).

(** A conversion that gives a value. *)
Definition converts {A : Type} (c : Completion A) : bool :=
  match c with
  | Normal _ => true
  | Throw _ => false
  end.

(** The layer handles among a list of envelopes. *)
Definition handles (envs : list Envelope) : list string :=
  flat_map (fun env => match layerId env with
                       | Some h => [h]
                       | None => []
                       end) envs.

(** The tools whose handler derives a layer handle. *)
Definition creates_layer (toolName : string) : bool :=
  String.eqb toolName "add_points_to_map"
  || String.eqb toolName "add_route_to_map"
  || String.eqb toolName "add_polygon_to_map"
  || String.eqb toolName "add_vector_tileset_layer".

(** Along a run that starts at counter value [c]: every invocation of a
    layer-creating tool that did not fail returned a handle, which is the
    requested name as text, a hyphen and a counter value above [c] and
    above every earlier one; every other invocation returned none. *)
Fixpoint handles_follow_ticks (rt : JsRuntime) (c : N)
  (run : list ((string * Js) * Envelope)) : Prop :=
  match run with
  | [] => True
  | ((toolName, args), env) :: rest =>
      if creates_layer toolName && negb (isError env)
      then
        exists (name : string) (k : N),
          (c < k)%N
          /\ to_string rt (requested_layer toolName args) = Normal name
          /\ layerId env = Some (name ++ "-" ++ Str.dec k)
          /\ handles_follow_ticks rt k rest
      else layerId env = None /\ handles_follow_ticks rt c rest
  end.

(** [tilesetUrl] is a string that starts with an accepted scheme. *)
Definition accepted_url (tilesetUrl : Js) : bool :=
  match tilesetUrl with
  | JStr url => match scheme_prefix url with
                | Some _ => true
                | None => false
                end
  | _ => false
  end.

(** Whether an invocation reaches [++this.layerCounter]: the arguments can
    be destructured, for the vector tileset tool the URL check passed, and
    the requested name can be converted to text. *)
Definition consumes_tick (rt : JsRuntime) (toolName : string) (args : Js) : bool :=
  negb (JS.nullish args)
  && (String.eqb toolName "add_points_to_map"
      || String.eqb toolName "add_route_to_map"
      || String.eqb toolName "add_polygon_to_map"
      || (String.eqb toolName "add_vector_tileset_layer"
          && accepted_url (JS.prop args "tilesetUrl")))
  && converts (to_string rt (requested_layer toolName args)).

(** The source identifiers that the logged calls asked the map to add. *)
Definition added_sources (cs : list Call) : list string :=
  flat_map (fun c => match c with
                     | CallAddSource id _ => [id]
                     | _ => []
                     end) cs.

(** The layer identifiers that the logged calls asked the map to remove. *)
Definition removed_layers (cs : list Call) : list Js :=
  flat_map (fun c => match c with
                     | CallRemoveLayer id => [id]
                     | _ => []
                     end) cs.

Definition is_alphanumeric (a : ascii) : bool :=
  in_range 97 122 a || in_range 65 90 a || in_range 48 57 a.

(** The source identifier as the specification words it: scheme prefix
    stripped, every non-alphanumeric character replaced, suffixed. *)
Definition source_id_replacing_non_alphanumerics (tilesetUrl : string) : string :=
  Str.map (fun a => if is_alphanumeric a then a else "-"%char)
    (match scheme_prefix tilesetUrl with
     | Some p => Str.drop (String.length p) tilesetUrl
     | None => tilesetUrl
     end)
  ++ "-vector-source".

(** The URL without its scheme prefix, if it has one of the three. *)
Definition without_scheme (tilesetUrl : string) : string :=
  if Str.startsWith tilesetUrl "mapbox://" then Str.drop 9 tilesetUrl
  else if Str.startsWith tilesetUrl "https://" then Str.drop 8 tilesetUrl
  else if Str.startsWith tilesetUrl "http://" then Str.drop 7 tilesetUrl
  else tilesetUrl.

(** A letter, a digit, a hyphen, an underscore or a dot. *)
Definition is_kept (a : ascii) : bool :=
  is_alphanumeric a || Ascii.eqb a "-" || Ascii.eqb a "_" || Ascii.eqb a ".".

(** The source identifier as the amended claim words it: the scheme
    prefix stripped, every character other than a letter, a digit, a hyphen,
    an underscore or a dot replaced by a hyphen, and "-vector-source"
    appended. *)
Definition amended_source_id (tilesetUrl : string) : string :=
  Str.map (fun a => if is_kept a then a else "-"%char) (without_scheme tilesetUrl)
  ++ "-vector-source".

(** Membership of a name in the catalog. *)
Definition known_tool (toolName : string) : bool :=
  existsb (String.eqb toolName) tool_names.

(** An envelope that reports success. *)
Definition not_an_error (env : Envelope) : Prop := isError env = false.

(** An envelope without a layer handle. *)
Definition no_handle (env : Envelope) : Prop := layerId env = None.

(** A string without a hyphen, as every decimal numeral is. *)
Fixpoint no_dash (s : string) : bool :=
  match s with
  | EmptyString => true
  | String a r => negb (Ascii.eqb a "-") && no_dash r
  end.

(** A computation that leaves the layer counter as it found it. *)
Definition keeps {E A : Type} (m : M E A) : Prop :=
  forall t, layerCounter (snd (m t)) = layerCounter t.

(** A computation whose normal results all satisfy [P]. *)
Definition yields {E A : Type} (P : A -> Prop) (m : M E A) : Prop :=
  forall t a, fst (m t) = Normal a -> P a.

(** A computation whose calls on the map all satisfy [P]. *)
Definition logs {E A : Type} (P : Call -> Prop) (m : M E A) : Prop :=
  forall t, exists delta : list Call,
    calls (snd (m t)) = (calls t ++ delta)%list /\ Forall P delta.

(** A call that, if it removes a layer, removes one whose identifier the
    naming convention recognises. *)
Definition removes_custom_only (c : Call) : Prop :=
  match c with
  | CallRemoveLayer id =>
      exists s : string, id = JStr s /\ is_custom_layer_id s = true
  | _ => True
  end.

(** A call that, if it removes a layer, removes one of [names]. *)
Definition removes_only (names : list Js) (c : Call) : Prop :=
  match c with
  | CallRemoveLayer id => In id names
  | _ => True
  end.

(** The instance after a tick. *)
Definition ticked {E : Type} (t : MapboxMapTools E) : MapboxMapTools E :=
  {| map := map t; calls := calls t;
     options := options t; layerCounter := next_counter (layerCounter t) |}.

(** The GeoJSON source and the layer that [addRouteToMap] builds. *)
Definition route_source (coordinates : Js) : Js :=
  JObj [ ("type", JStr "geojson");
         ("data", JObj
            [ ("type", JStr "Feature");
              ("geometry", JObj
                 [ ("type", JStr "LineString"); ("coordinates", coordinates) ]) ]) ].

Definition route_layer (name : string) (color width : Js) : Js :=
  JObj [ ("id", JStr name);
         ("type", JStr "line");
         ("source", JStr name);
         ("paint", JObj
            [ ("line-color", color);
              ("line-width", width);
              ("line-opacity", JNum 0.8) ]) ].

(** The feature that [addPolygonToMap] stores for [coordinates]. *)
Definition polygon_feature (coordinates : Js) : Js :=
  JObj [ ("type", JStr "Feature");
         ("geometry", JObj
            [ ("type", JStr "Polygon"); ("coordinates", coordinates) ]) ].

(** ** Example inputs *)

Module Ex.

(** A fresh instance on an empty in-memory map. *)
Definition fresh : MapboxMapTools MemMap.state := MemMap.instance MemMap.empty.

Definition exec := executeTool MemMap.runtime MemMap.api.

Definition runs := run MemMap.runtime MemMap.api.

Definition one_point : Js :=
  JArr [ JObj [ ("longitude", JNum 13.4); ("latitude", JNum 52.5) ] ].

Definition cities : Js :=
  JObj [ ("points", one_point); ("layerName", JStr "cities") ].

Definition default_points : Js := JObj [ ("points", one_point) ].

Definition triangle : Js :=
  JArr [ JArr [ JArr [JNum 0; JNum 0]; JArr [JNum 1; JNum 0];
                JArr [JNum 1; JNum 1]; JArr [JNum 0; JNum 0] ] ].

Definition polygon : Js := JObj [ ("coordinates", triangle) ].

Definition streets : string := "mapbox://mapbox.mapbox-streets-v8".

Definition roads : Js :=
  JObj [ ("tilesetUrl", JStr streets); ("sourceLayer", JStr "road");
         ("layerType", JStr "line"); ("layerName", JStr "roads") ].

Definition labels : Js :=
  JObj [ ("tilesetUrl", JStr streets); ("sourceLayer", JStr "place_label");
         ("layerType", JStr "symbol"); ("layerName", JStr "labels") ].

Definition ftp_tiles : Js :=
  JObj [ ("tilesetUrl", JStr "ftp://tiles.example.com/roads");
         ("sourceLayer", JStr "road"); ("layerType", JStr "line") ].

Definition point_and_bbox : Js :=
  JObj [ ("point", JObj [ ("x", JNum 0); ("y", JNum 0) ]);
         ("bbox", JArr [JNum 0; JNum 0; JNum 1; JNum 1]) ].

Definition no_coordinates : Js := JObj [ ("coordinates", JArr []) ].

Definition two_corners : Js :=
  JObj [ ("coordinates", JArr [ JArr [JNum 1; JNum 2]; JArr [JNum (-3); JNum 5] ]) ].

Definition lone_pair : Js :=
  JObj [ ("coordinates", JArr [ JArr [JNum 1; JNum 2] ]) ].

(** A host application's own layer on its own source, present before the
    library is used. *)
Definition host_map : MemMap.state :=
  {| MemMap.sources :=
       [ ("parcels", JObj [ ("type", JStr "geojson");
                            ("data", JObj [ ("type", JStr "FeatureCollection");
                                            ("features", JArr []) ]) ]) ];
     MemMap.layers :=
       [ ("parcels-fill", JObj [ ("id", JStr "parcels-fill");
                                 ("type", JStr "fill");
                                 ("source", JStr "parcels") ]) ];
     MemMap.camera := [];
     MemMap.style := "mapbox://styles/mapbox/streets-v12";
     MemMap.listeners := [] |}.

Definition layer_ids (t : MapboxMapTools MemMap.state) : list string :=
  List.map fst (MemMap.layers (map t)).

Definition source_ids (t : MapboxMapTools MemMap.state) : list string :=
  List.map fst (MemMap.sources (map t)).

Definition texts (envs : list Envelope) : list string :=
  List.map text (flat_map content envs).

End Ex.

(** ** Vocabulary of the further statements *)

(** A computation that leaves a component of the instance as it found it. *)
Definition preserves {E A X : Type} (proj : MapboxMapTools E -> X) (m : M E A) : Prop :=
  forall t, proj (snd (m t)) = proj t.

(** The methods of the map a tool may call. *)
Definition may_call (toolName : string) (c : Call) : bool :=
  match c with
  | CallAddSource _ _ =>
      String.eqb toolName "add_points_to_map"
      || String.eqb toolName "add_route_to_map"
      || String.eqb toolName "add_polygon_to_map"
      || String.eqb toolName "add_vector_tileset_layer"
  | CallAddLayer _ =>
      String.eqb toolName "add_points_to_map"
      || String.eqb toolName "add_route_to_map"
      || String.eqb toolName "add_polygon_to_map"
      || String.eqb toolName "add_vector_tileset_layer"
  | CallOn _ _ => String.eqb toolName "add_points_to_map"
  | CallFlyTo _ | CallSetCenter _ | CallSetZoom _ =>
      String.eqb toolName "pan_map_to_location"
  | CallFitBounds _ _ => String.eqb toolName "fit_map_to_bounds"
  | CallSetStyle _ => String.eqb toolName "set_map_style"
  | CallRemoveLayer _ | CallRemoveSource _ | CallGetLayer _ =>
      String.eqb toolName "clear_map_layers"
  | CallGetStyle =>
      String.eqb toolName "clear_map_layers"
      || String.eqb toolName "query_source_features"
  | CallGetSource _ =>
      String.eqb toolName "clear_map_layers"
      || String.eqb toolName "add_vector_tileset_layer"
      || String.eqb toolName "query_source_features"
  | CallQueryRenderedFeatures _ _ => String.eqb toolName "query_rendered_features"
  | CallQuerySourceFeatures _ _ => String.eqb toolName "query_source_features"
  end.

(** A call, read as a proposition about the tool that made it. *)
Definition allowed (toolName : string) (c : Call) : Prop :=
  may_call toolName c = true.

(** [bbox] is an array of exactly four elements. *)
Definition four_elements (v : Js) : bool :=
  match v with
  | JArr [_; _; _; _] => true
  | _ => false
  end.

(** The listeners the options allow a points layer to register. *)
Definition listener_allowed (opts : list (string * Js)) (c : Call) : bool :=
  match c with
  | CallOn event _ =>
      if String.eqb event "click" then JS.truthy (JS.lookup "enablePopups" opts)
      else JS.truthy (JS.lookup "enableHoverEffects" opts)
  | _ => true
  end.

(** A feature and what is left of it without its geometry. *)
Definition stripped (f f' : Js) : Prop :=
  JS.prop f' "type" = JStr "Feature"
  /\ JS.prop f' "geometry" = JUndefined
  /\ JS.prop f' "properties" = JS.prop f "properties"
  /\ JS.prop f' "source" = JS.prop f "source"
  /\ JS.prop f' "sourceLayer" = JS.prop f "sourceLayer".

(** The feature that [addPointsToMap] builds for the point at position
    [index], counted from 0. *)
Definition is_point_feature (opts : list (string * Js)) (index : N) (point f : Js)
  : Prop :=
  JS.prop f "type" = JStr "Feature"
  /\ JS.prop (JS.prop f "geometry") "type" = JStr "Point"
  /\ JS.prop (JS.prop f "geometry") "coordinates"
     = JArr [JS.prop point "longitude"; JS.prop point "latitude"]
  /\ JS.prop (JS.prop f "properties") "title"
     = (if JS.truthy (JS.prop point "title") then JS.prop point "title"
        else JStr ("Point " ++ Str.dec (index + 1)))
  /\ JS.prop (JS.prop f "properties") "description"
     = (if JS.truthy (JS.prop point "description") then JS.prop point "description"
        else JStr "")
  /\ JS.prop (JS.prop f "properties") "color"
     = (if JS.truthy (JS.prop point "color") then JS.prop point "color"
        else JS.lookup "defaultPointColor" opts).

(** A call that, if it queries the rendered features, passes the options
    [o]. *)
Definition queries_with (o : Js) (c : Call) : Prop :=
  match c with
  | CallQueryRenderedFeatures _ opts => opts = o
  | _ => True
  end.

(** A call that, if it adds a layer, gives it the paint property [k] with
    value [v], on source [source]. *)
Definition paints (source k : string) (v : Js) (c : Call) : Prop :=
  match c with
  | CallAddLayer layer =>
      JS.prop layer "source" = JStr source
      /\ JS.prop (JS.prop layer "paint") k = v
  | _ => True
  end.

(** The two layers that [addPolygonToMap] builds on its source. *)
Definition polygon_fill_layer (name : string) (color opacity : Js) : Js :=
  JObj [ ("id", JStr (name ++ "-fill"));
         ("type", JStr "fill");
         ("source", JStr name);
         ("paint", JObj [ ("fill-color", color); ("fill-opacity", opacity) ]) ].

Definition polygon_stroke_layer (name : string) (color width : Js) : Js :=
  JObj [ ("id", JStr (name ++ "-stroke"));
         ("type", JStr "line");
         ("source", JStr name);
         ("paint", JObj [ ("line-color", color); ("line-width", width) ]) ].

(** The number of layer removals among the calls [cs]. *)
Definition removals (cs : list Call) : nat :=
  List.length (filter (fun c => match c with
                                | CallRemoveLayer _ => true
                                | _ => false
                                end) cs).

(** A computation whose normal result is [n0] plus the number of layer
    removals it asked for. *)
Definition counts {E : Type} (n0 : N) (m : M E N) : Prop :=
  forall t, exists delta : list Call,
    calls (snd (m t)) = (calls t ++ delta)%list
    /\ forall n, fst (m t) = Normal n -> n = (n0 + N.of_nat (removals delta))%N.

(** A call that removes no layer. *)
Definition removes_no_layer (c : Call) : Prop :=
  match c with
  | CallRemoveLayer _ => False
  | _ => True
  end.

(** A call that, if it removes a source, removes one of [names] or one
    whose identifier the conventions recognise: it contains "-layer-", or
    it ends with "-vector-source". *)
Definition removes_sources_of (names : list Js) (c : Call) : Prop :=
  match c with
  | CallRemoveSource id =>
      In id names
      \/ exists s : string,
           id = JStr s
           /\ Str.includes s "-layer-" || Str.endsWith s "-vector-source" = true
  | _ => True
  end.

(** The names that [clearMapLayers] was given. *)
Definition given_names (args : Js) : list Js :=
  match JS.default (JS.prop args "layerNames") (JArr []) with
  | JArr names => names
  | _ => []
  end.

(** ** Further example inputs *)

Module Cases.

Definition berlin : Js :=
  JObj [ ("latitude", JNum 52.5); ("longitude", JNum 13.4) ].

Definition berlin_at_once : Js :=
  JObj [ ("latitude", JNum 52.5); ("longitude", JNum 13.4);
         ("zoom", JS.num 9); ("animate", JBool false) ].

(** The latitude as text, as a model may well send it. *)
Definition berlin_as_text : Js :=
  JObj [ ("latitude", JStr "52.5"); ("longitude", JNum 13.4) ].

(** A style outside the list of the tool's schema. *)
Definition own_style : Js := JObj [ ("style", JStr "someone/custom") ].

Definition half_point : Js := JObj [ ("point", JObj [ ("x", JNum 10) ]) ].

Definition short_bbox : Js := JObj [ ("bbox", JArr [JNum 0; JNum 0; JNum 1]) ].

Definition text_bbox : Js :=
  JObj [ ("bbox", JArr [JStr "a"; JStr "b"; JStr "c"; JStr "d"]) ].

Definition three_points : Js :=
  JObj [ ("points",
          JArr [ JObj [ ("longitude", JNum 13.4); ("latitude", JNum 52.5);
                        ("title", JStr "Berlin") ];
                 JObj [ ("longitude", JNum 2.35); ("latitude", JNum 48.85) ];
                 JObj [ ("longitude", JNum 12.5); ("latitude", JNum 41.9);
                        ("color", JStr "#00FF00") ] ]) ].

Definition points_with_a_gap : Js :=
  JObj [ ("points",
          JArr [ JObj [ ("longitude", JNum 13.4); ("latitude", JNum 52.5) ];
                 JNull ]) ].

(** The instance after the three points were added. *)
Definition with_points : MapboxMapTools MemMap.state :=
  snd (Ex.exec "add_points_to_map" three_points Ex.fresh).

(** What the in-memory map holds for the source of the three points. *)
Definition stored_points : list Js :=
  match MemMap.querySourceFeatures (JStr "points-layer-1") (JObj []) (map with_points) with
  | Normal l => l
  | Throw _ => []
  end.

Definition first_two : Js :=
  JObj [ ("sourceId", JStr "points-layer-1"); ("limit", JS.num 2) ].

Definition properties_only : Js :=
  JObj [ ("sourceId", JStr "points-layer-1"); ("includeGeometry", JBool false) ].

Definition nowhere : Js := JObj [ ("sourceId", JStr "nowhere") ].

(** The instance after the vector layer of [Ex.roads] was added. *)
Definition with_roads : MapboxMapTools MemMap.state :=
  snd (Ex.exec "add_vector_tileset_layer" Ex.roads Ex.fresh).

Definition all_of_streets : Js :=
  JObj [ ("sourceId", JStr "mapbox.mapbox-streets-v8-vector-source") ].

Definition green_roads : Js :=
  JObj [ ("tilesetUrl", JStr Ex.streets); ("sourceLayer", JStr "road");
         ("layerType", JStr "line");
         ("paint", JObj [ ("line-color", JStr "#00FF00") ]) ].

(** A map on which the identifier of the next polygon's outline is taken. *)
Definition taken : MemMap.state :=
  {| MemMap.sources :=
       [ ("border", JObj [ ("type", JStr "geojson");
                           ("data", JObj [ ("type", JStr "FeatureCollection");
                                           ("features", JArr []) ]) ]) ];
     MemMap.layers :=
       [ ("polygon-layer-1-stroke",
          JObj [ ("id", JStr "polygon-layer-1-stroke");
                 ("type", JStr "line");
                 ("source", JStr "border") ]) ];
     MemMap.camera := [];
     MemMap.style := "mapbox://styles/mapbox/streets-v12";
     MemMap.listeners := [] |}.

(** A second coordinate with a latitude that the bounds class rejects. *)
Definition corner_and_pole : Js :=
  JObj [ ("coordinates", JArr [ JArr [JNum 1; JNum 2]; JArr [JNum 0; JNum 100] ]) ].

Definition beyond_the_pole : Js :=
  JObj [ ("coordinates", JArr [ JArr [JNum 0; JNum 100] ]) ].

(** An instance whose counter has reached 2^53. *)
Definition at_the_limit : MapboxMapTools MemMap.state :=
  {| map := MemMap.empty; calls := []; options := default_options;
     layerCounter := 2 ^ 53 |}.

(** A route whose layer name is the object [{"toString": null}]. *)
Definition unnamed_route : Js :=
  JObj [ ("coordinates", JArr [ JArr [JNum 1; JNum 2]; JArr [JNum 3; JNum 4] ]);
         ("layerName", JObj [ ("toString", JNull) ]) ].

(** The instance after a points layer was added under the default name. *)
Definition with_default_points : MapboxMapTools MemMap.state :=
  snd (Ex.exec "add_points_to_map" Ex.default_points Ex.fresh).

(** The in-memory map before its style has loaded: [getStyle()] gives
    [undefined], and the read of its layers, the first thing the sweep
    does, throws. *)
Definition unloaded : MapAPI.t MemMap.state :=
  {| MapAPI.addSource := MemMap.addSource;
     MapAPI.addLayer := MemMap.addLayer;
     MapAPI.removeLayer := MemMap.removeLayer;
     MapAPI.removeSource := MemMap.removeSource;
     MapAPI.getLayer := MemMap.getLayer;
     MapAPI.getSource := MemMap.getSource;
     MapAPI.getStyle := fun _ =>
       Throw (TypeError "Cannot read properties of undefined (reading 'layers')");
     MapAPI.flyTo := MapAPI.flyTo MemMap.api;
     MapAPI.setCenter := MapAPI.setCenter MemMap.api;
     MapAPI.setZoom := MapAPI.setZoom MemMap.api;
     MapAPI.fitBounds := MapAPI.fitBounds MemMap.api;
     MapAPI.setStyle := MemMap.setStyle;
     MapAPI.queryRenderedFeatures := MemMap.queryRenderedFeatures;
     MapAPI.querySourceFeatures := MemMap.querySourceFeatures;
     MapAPI.on := MemMap.on;
     MapAPI.LngLatBounds := MemMap.LngLatBounds;
     MapAPI.extend := MemMap.extend |}.

End Cases.

(** * Proofs *)

(** ** Computations and the layer counter *)

Section Computations.

Context {E : Type}.

Lemma keeps_ret (A : Type) (a : A) : keeps (@ret E A a).
Proof. intro t. reflexivity. Qed.

Lemma keeps_throw (A : Type) (e : Exn) : keeps (@throw E A e).
Proof. intro t. reflexivity. Qed.

Lemma keeps_lift (A : Type) (c : Completion A) : keeps (@lift E A c).
Proof. intro t. reflexivity. Qed.

Lemma keeps_bind (A B : Type) (m : M E A) (k : A -> M E B) :
  keeps m -> (forall a, keeps (k a)) -> keeps (bind m k).
Proof.
  intros Hm Hk t. unfold bind.
  specialize (Hm t). destruct (m t) as [[a | e] t']; simpl in *.
  - rewrite Hk. exact Hm.
  - exact Hm.
Qed.

Lemma keeps_when (b : bool) (m : M E unit) : keeps m -> keeps (when b m).
Proof. intros Hm. destruct b; simpl; [exact Hm | apply keeps_ret]. Qed.

Lemma keeps_forEach (A : Type) (f : A -> M E unit) (l : list A) :
  (forall x, keeps (f x)) -> keeps (forEach f l).
Proof.
  intros Hf. induction l as [| x r IH]; simpl.
  - apply keeps_ret.
  - apply keeps_bind; [apply Hf | intros _; exact IH].
Qed.

Lemma keeps_foldM (A B : Type) (f : B -> A -> M E B) (acc : B) (l : list A) :
  (forall b x, keeps (f b x)) -> keeps (foldM f acc l).
Proof.
  intros Hf. revert acc. induction l as [| x r IH]; intros acc; simpl.
  - apply keeps_ret.
  - apply keeps_bind; [apply Hf | intros b; apply IH].
Qed.

Lemma keeps_mutate (c : Call) (f : E -> Completion E) : keeps (mutate c f).
Proof. intro t. unfold mutate. destruct (f (map t)); reflexivity. Qed.

Lemma keeps_query (A : Type) (c : Call) (f : E -> Completion A) :
  keeps (query c f).
Proof. intro t. reflexivity. Qed.

Lemma keeps_this_options : keeps (@this_options E).
Proof. intro t. reflexivity. Qed.

Lemma yields_ret (A : Type) (P : A -> Prop) (a : A) :
  P a -> yields P (@ret E A a).
Proof. intros H t b [= <-]. exact H. Qed.

Lemma yields_throw (A : Type) (P : A -> Prop) (e : Exn) :
  yields P (@throw E A e).
Proof. intros t b [=]. Qed.

Lemma yields_bind (A B : Type) (P : B -> Prop) (m : M E A) (k : A -> M E B) :
  (forall a, yields P (k a)) -> yields P (bind m k).
Proof.
  intros Hk t b. unfold bind.
  destruct (m t) as [[a | e] t']; simpl.
  - apply Hk.
  - intros [=].
Qed.

(** *** One step of a computation *)

Lemma bind_ret (A B : Type) (a : A) (k : A -> M E B) (t : MapboxMapTools E) :
  bind (ret a) k t = k a t.
Proof. reflexivity. Qed.

Lemma bind_throw (A B : Type) (e : Exn) (k : A -> M E B) (t : MapboxMapTools E) :
  bind (throw e) k t = (Throw e, t).
Proof. reflexivity. Qed.

Lemma bind_lift (A B : Type) (c : Completion A) (k : A -> M E B) (t : MapboxMapTools E) :
  bind (lift c) k t
  = match c with
    | Normal a => k a t
    | Throw e => (Throw e, t)
    end.
Proof. unfold bind, lift. destruct c; reflexivity. Qed.

Lemma bind_this_options (B : Type) (k : list (string * Js) -> M E B) (t : MapboxMapTools E) :
  bind this_options k t = k (options t) t.
Proof. reflexivity. Qed.

Lemma bind_incr (B : Type) (k : N -> M E B) (t : MapboxMapTools E) :
  bind incr_layerCounter k t = k (next_counter (layerCounter t)) (ticked t).
Proof. reflexivity. Qed.

Lemma bind_mutate (B : Type) (c : Call) (f : E -> Completion E)
  (k : unit -> M E B) (t : MapboxMapTools E) :
  bind (mutate c f) k t
  = match f (map t) with
    | Normal m =>
        k tt {| map := m; calls := calls t ++ [c];
                options := options t; layerCounter := layerCounter t |}
    | Throw e => (Throw e, record c t)
    end.
Proof. unfold bind, mutate. destruct (f (map t)); reflexivity. Qed.

Lemma bind_query (A B : Type) (c : Call) (f : E -> Completion A)
  (k : A -> M E B) (t : MapboxMapTools E) :
  bind (query c f) k t
  = match f (map t) with
    | Normal a => k a (record c t)
    | Throw e => (Throw e, record c t)
    end.
Proof. unfold bind, query. destruct (f (map t)); reflexivity. Qed.

Lemma bind_bind (A B C : Type) (m : M E A) (k : A -> M E B) (k' : B -> M E C)
  (t : MapboxMapTools E) :
  bind (bind m k) k' t = bind m (fun a => bind (k a) k') t.
Proof. unfold bind. destruct (m t) as [[a | e] t']; reflexivity. Qed.

End Computations.

(** *** The call log after two and three calls *)

Lemma log2 (l : list Call) (a b : Call) :
  ((l ++ [a]) ++ [b] = l ++ [a; b])%list.
Proof. now rewrite <- List.app_assoc. Qed.

Lemma log3 (l : list Call) (a b c : Call) :
  (((l ++ [a]) ++ [b]) ++ [c] = l ++ [a; b; c])%list.
Proof. now rewrite <- !List.app_assoc. Qed.


Create HintDb tools.

#[local] Hint Unfold map_addSource map_addLayer map_removeLayer map_removeSource
  map_getLayer map_getSource map_getStyle map_flyTo map_setCenter map_setZoom
  map_fitBounds map_setStyle map_queryRenderedFeatures map_querySourceFeatures
  map_on remove_orphaned remove_layer_if_present clear_all_custom clear_named
  : tools.

(** One step of a proof that a computation keeps the counter. *)
Ltac keeps_step :=
  lazymatch goal with
  | |- keeps (bind _ _) => apply keeps_bind; [ | intro ]
  | |- keeps (ret _) => apply keeps_ret
  | |- keeps (throw _) => apply keeps_throw
  | |- keeps (lift _) => apply keeps_lift
  | |- keeps (when _ _) => apply keeps_when
  | |- keeps (forEach _ _) => apply keeps_forEach; intro
  | |- keeps (foldM _ _ _) => apply keeps_foldM; intros
  | |- keeps (mutate _ _) => apply keeps_mutate
  | |- keeps (query _ _) => apply keeps_query
  | |- keeps this_options => apply keeps_this_options
  | |- keeps (if ?b then _ else _) => destruct b
  | |- keeps (match ?x with _ => _ end) => destruct x
  | |- keeps _ => progress (cbv zeta; autounfold with tools)
  end.

Ltac keeps_auto := repeat keeps_step.

(** One step of a proof about the normal results of a computation. *)
Ltac yields_step :=
  lazymatch goal with
  | |- yields _ (bind _ _) => apply yields_bind; intro
  | |- yields _ (ret _) => apply yields_ret
  | |- yields _ (throw _) => apply yields_throw
  | |- yields _ (if ?b then _ else _) => destruct b
  | |- yields _ (match ?x with _ => _ end) => destruct x
  | |- yields _ _ => progress (cbv zeta)
  end.

Ltac yields_auto := repeat yields_step.

(** ** Layer handles as strings *)

Lemma no_dash_app_dash (a b : string) : no_dash (a ++ String "-" b) = false.
Proof.
  induction a as [| x a IH]; simpl.
  - reflexivity.
  - rewrite IH. apply andb_false_r.
Qed.

Lemma no_dash_digits (d : Decimal.uint) : no_dash (NilEmpty.string_of_uint d) = true.
Proof. induction d; simpl; auto. Qed.

Lemma no_dash_dec (n : N) : no_dash (Str.dec n) = true.
Proof.
  unfold Str.dec, NilZero.string_of_uint.
  destruct (N.to_uint n); try reflexivity; apply (no_dash_digits (_ _)).
Qed.

Lemma dec_inj (n m : N) : Str.dec n = Str.dec m -> n = m.
Proof.
  unfold Str.dec. intros H.
  assert (Hn : N.to_uint n <> Decimal.Nil).
  { destruct n; simpl; [discriminate | apply DecimalPos.Unsigned.to_uint_nonnil]. }
  assert (Hm : N.to_uint m <> Decimal.Nil).
  { destruct m; simpl; [discriminate | apply DecimalPos.Unsigned.to_uint_nonnil]. }
  apply DecimalN.Unsigned.to_uint_inj.
  apply NilZero.usu in Hn, Hm. rewrite H in Hn. rewrite Hn in Hm. now injection Hm.
Qed.

Lemma suffix_after_dash (a b d d' : string) :
  no_dash d = true -> no_dash d' = true ->
  a ++ "-" ++ d = b ++ "-" ++ d' -> d = d'.
Proof.
  intros Hd Hd'. revert b.
  induction a as [| x a IH]; intros [| y b]; simpl; intros H.
  - now injection H.
  - injection H as _ H. rewrite H, no_dash_app_dash in Hd. discriminate.
  - injection H as _ H. rewrite <- H, no_dash_app_dash in Hd'. discriminate.
  - injection H as _ H. eauto.
Qed.

Lemma handle_tick_inj (a b : string) (n m : N) :
  a ++ "-" ++ Str.dec n = b ++ "-" ++ Str.dec m -> n = m.
Proof.
  intros H. apply dec_inj.
  exact (suffix_after_dash a b _ _ (no_dash_dec n) (no_dash_dec m) H).
Qed.

(** ** Values *)

Lemma prop_nullish (v : Js) (k : string) :
  JS.nullish v = true -> JS.prop v k = JUndefined.
Proof. destruct v; simpl; intros; try discriminate; reflexivity. Qed.

Lemma prop_defined (v : Js) (k : string) :
  JS.prop v k <> JUndefined -> JS.nullish v = false.
Proof.
  intros H. destruct (JS.nullish v) eqn:Hn; [ | reflexivity].
  now rewrite prop_nullish in H.
Qed.

Lemma is_zero_num (n : N) : JS.is_zero (JS.num n) = N.eqb n 0.
Proof.
  unfold JS.is_zero, JS.num, Qeq_bool, inject_Z. simpl.
  rewrite Z.mul_1_r. destruct n; reflexivity.
Qed.

(** ** Object literals and the spread *)

Lemma lookup_set (k k' : string) (v : Js) (fs : list (string * Js)) :
  JS.lookup k (JS.set k' v fs) = if String.eqb k k' then v else JS.lookup k fs.
Proof.
  induction fs as [| [k0 v0] r IH]; simpl.
  - reflexivity.
  - destruct (String.eqb_spec k' k0); simpl.
    + subst. destruct (String.eqb_spec k k0); reflexivity.
    + rewrite IH.
      destruct (String.eqb_spec k k0); destruct (String.eqb_spec k k');
        subst; try reflexivity; congruence.
Qed.

Lemma binds_In (k : string) (fs : list (string * Js)) :
  binds k fs = true -> In k (List.map fst fs).
Proof.
  unfold binds. intros H. apply existsb_exists in H. destruct H as ([k' v] & Hin & He).
  apply String.eqb_eq in He. subst. now apply (in_map fst) in Hin.
Qed.

Lemma lookup_fold_set (k : string) (ps into : list (string * Js)) :
  NoDup (List.map fst ps) ->
  JS.lookup k (fold_left (fun acc kv => JS.set (fst kv) (snd kv) acc) ps into)
  = if binds k ps then JS.lookup k ps else JS.lookup k into.
Proof.
  revert into. induction ps as [| [k0 v0] r IH]; intros into Hnd; simpl.
  - reflexivity.
  - inversion Hnd as [| ? ? Hnotin Hr]; subst. rewrite (IH _ Hr), lookup_set.
    destruct (String.eqb_spec k k0) as [-> | Hne]; simpl.
    + destruct (binds k0 r) eqn:Hb; [ | reflexivity].
      exfalso. apply Hnotin. now apply binds_In.
    + reflexivity.
Qed.

Lemma keys_filter (p : string * Js -> bool) (k : string) (l : list (string * Js)) :
  In k (List.map fst (filter p l)) -> In k (List.map fst l).
Proof.
  induction l as [| x r IH]; simpl; [auto | ].
  destruct (p x); simpl; intuition.
Qed.

Lemma keys_filter_NoDup (p : string * Js -> bool) (l : list (string * Js)) :
  NoDup (List.map fst l) -> NoDup (List.map fst (filter p l)).
Proof.
  induction l as [| x r IH]; simpl; intros H; [constructor | ].
  inversion H as [| ? ? Hx Hr]; subst. destruct (p x); simpl; auto.
  constructor; auto. intros Hin. apply Hx. eapply keys_filter; eauto.
Qed.

Lemma keys_filter_out (k : string) (l : list (string * Js)) :
  ~ In k (List.map fst (filter (fun kv => negb (String.eqb k (fst kv))) l)).
Proof.
  induction l as [| [k' v] r IH]; simpl; [auto | ].
  destruct (String.eqb_spec k k'); simpl; [exact IH | intuition].
Qed.

Lemma first_bindings_NoDup (fs : list (string * Js)) :
  NoDup (List.map fst (JS.first_bindings fs)).
Proof.
  induction fs as [| [k v] r IH]; simpl; constructor.
  - apply keys_filter_out.
  - now apply keys_filter_NoDup.
Qed.

Lemma lookup_filter_other (k k0 : string) (l : list (string * Js)) :
  k <> k0 ->
  JS.lookup k (filter (fun kv => negb (String.eqb k0 (fst kv))) l) = JS.lookup k l.
Proof.
  intros Hne. induction l as [| [k' v] r IH]; simpl; [reflexivity | ].
  destruct (String.eqb_spec k0 k'); simpl.
  - subst. destruct (String.eqb_spec k k'); [congruence | exact IH].
  - rewrite IH. reflexivity.
Qed.

Lemma lookup_first_bindings (k : string) (fs : list (string * Js)) :
  JS.lookup k (JS.first_bindings fs) = JS.lookup k fs.
Proof.
  induction fs as [| [k0 v0] r IH]; simpl; [reflexivity | ].
  destruct (String.eqb_spec k k0); [reflexivity | ].
  now rewrite lookup_filter_other.
Qed.

Lemma binds_filter_other (k k0 : string) (l : list (string * Js)) :
  k <> k0 ->
  binds k (filter (fun kv => negb (String.eqb k0 (fst kv))) l) = binds k l.
Proof.
  intros Hne. induction l as [| [k' v] r IH]; simpl; [reflexivity | ].
  destruct (String.eqb_spec k0 k'); simpl.
  - subst. destruct (String.eqb_spec k k'); [congruence | exact IH].
  - now rewrite IH.
Qed.

Lemma binds_first_bindings (k : string) (fs : list (string * Js)) :
  binds k (JS.first_bindings fs) = binds k fs.
Proof.
  induction fs as [| [k0 v0] r IH]; simpl; [reflexivity | ].
  destruct (String.eqb_spec k k0); [reflexivity | ]. simpl.
  now rewrite binds_filter_other.
Qed.

Lemma lookup_spread (k : string) (into fs : list (string * Js)) :
  JS.lookup k (JS.spread into (JObj fs))
  = if binds k fs then JS.lookup k fs else JS.lookup k into.
Proof.
  unfold JS.spread, JS.own_props.
  rewrite lookup_fold_set by apply first_bindings_NoDup.
  now rewrite binds_first_bindings, lookup_first_bindings.
Qed.

Lemma lookup_unbound (k : string) (fs : list (string * Js)) :
  binds k fs = false -> JS.lookup k fs = JUndefined.
Proof.
  induction fs as [| [k0 v0] r IH]; simpl; [reflexivity | ].
  destruct (String.eqb k k0); simpl; [discriminate | exact IH].
Qed.

Lemma lookup_set_if (k k' : string) (c : bool) (v : Js) (fs : list (string * Js)) :
  String.eqb k k' = false ->
  JS.lookup k (set_if c k' v fs) = JS.lookup k fs.
Proof.
  intros H. unfold set_if. destruct c; [ | reflexivity].
  now rewrite lookup_set, H.
Qed.

(** ** The handlers and the layer counter *)

(** Case analysis on the tool name, along the [switch] of [dispatch]. *)
Ltac tool_cases name :=
  unfold dispatch;
  repeat match goal with
         | |- context [String.eqb name ?s] =>
             destruct (String.eqb_spec name s) as [-> | ?]
         end.

Section Handlers.

Variable rt : JsRuntime.
Context {E : Type}.
Variable eng : MapAPI.t E.

Lemma after_destructure (A : Type) (first : string) (args : Js) (m : M E A)
  (t : MapboxMapTools E) :
  bind (lift (JS.destructure rt first args)) (fun _ => m) t
  = if JS.nullish args
    then (Throw (TypeError (msg_destructure rt first args)), t)
    else m t.
Proof.
  unfold bind at 1, lift at 1, JS.destructure.
  destruct (JS.nullish args); reflexivity.
Qed.

(** The template of the layer handle: the conversion of the name, then
    the tick. *)
Lemma bind_unique_name (B : Type) (layerName : Js) (k : string -> M E B)
  (t : MapboxMapTools E) :
  bind (unique_name rt layerName) k t
  = match to_string rt layerName with
    | Normal name =>
        k (name ++ "-" ++ Str.dec (next_counter (layerCounter t))) (ticked t)
    | Throw e => (Throw e, t)
    end.
Proof.
  unfold unique_name. rewrite bind_bind, bind_lift.
  destruct (to_string rt layerName); reflexivity.
Qed.

(** After the handle was derived, a computation that keeps the counter
    leaves it where the tick put it. *)
Lemma named_then (A : Type) (layerName : Js) (body : string -> M E A) :
  (forall name, keeps (body name)) ->
  forall t,
    layerCounter (snd (bind (unique_name rt layerName) body t))
    = if converts (to_string rt layerName)
      then next_counter (layerCounter t)
      else layerCounter t.
Proof.
  intros Hb t. rewrite bind_unique_name.
  destruct (to_string rt layerName); simpl; [ | reflexivity].
  now rewrite Hb.
Qed.

Lemma named_yields (A : Type) (P : string -> A -> Prop) (layerName : Js)
  (body : string -> M E A) :
  (forall name, yields (P name) (body name)) ->
  forall t a,
    fst (bind (unique_name rt layerName) body t) = Normal a ->
    exists name : string,
      to_string rt layerName = Normal name
      /\ P (name ++ "-" ++ Str.dec (next_counter (layerCounter t))) a.
Proof.
  intros Hb t a. rewrite bind_unique_name.
  destruct (to_string rt layerName) as [name | e]; [ | discriminate].
  intros H. exists name. split; [reflexivity | ]. eapply Hb, H.
Qed.

Lemma addPointsToMap_counter (args : Js) (t : MapboxMapTools E) :
  layerCounter (snd (addPointsToMap rt eng args t))
  = if consumes_tick rt "add_points_to_map" args
    then next_counter (layerCounter t)
    else layerCounter t.
Proof.
  unfold addPointsToMap, consumes_tick. rewrite after_destructure.
  destruct (JS.nullish args); [reflexivity | ].
  cbv zeta. rewrite named_then; [reflexivity | ]. intro name. keeps_auto.
Qed.

Lemma addRouteToMap_counter (args : Js) (t : MapboxMapTools E) :
  layerCounter (snd (addRouteToMap rt eng args t))
  = if consumes_tick rt "add_route_to_map" args
    then next_counter (layerCounter t)
    else layerCounter t.
Proof.
  unfold addRouteToMap, consumes_tick. rewrite after_destructure.
  destruct (JS.nullish args); [reflexivity | ].
  rewrite bind_this_options. cbv zeta.
  rewrite named_then; [reflexivity | ]. intro name. keeps_auto.
Qed.

Lemma addPolygonToMap_counter (args : Js) (t : MapboxMapTools E) :
  layerCounter (snd (addPolygonToMap rt eng args t))
  = if consumes_tick rt "add_polygon_to_map" args
    then next_counter (layerCounter t)
    else layerCounter t.
Proof.
  unfold addPolygonToMap, consumes_tick. rewrite after_destructure.
  destruct (JS.nullish args); [reflexivity | ].
  rewrite bind_this_options. cbv zeta.
  rewrite named_then; [reflexivity | ]. intro name. keeps_auto.
Qed.

Lemma addVectorTilesetLayer_counter (args : Js) (t : MapboxMapTools E) :
  layerCounter (snd (addVectorTilesetLayer rt eng args t))
  = if consumes_tick rt "add_vector_tileset_layer" args
    then next_counter (layerCounter t)
    else layerCounter t.
Proof.
  unfold addVectorTilesetLayer, consumes_tick. rewrite after_destructure.
  destruct (JS.nullish args); [reflexivity | ].
  cbv zeta. rewrite bind_lift. unfold match_scheme, accepted_url.
  destruct (JS.prop args "tilesetUrl"); try reflexivity.
  destruct (scheme_prefix s); [ | reflexivity].
  rewrite named_then; [reflexivity | ]. intro name. keeps_auto.
Qed.

Lemma panMapToLocation_keeps (args : Js) : keeps (panMapToLocation rt eng args).
Proof. unfold panMapToLocation. keeps_auto. Qed.

Lemma fitMapToBounds_keeps (args : Js) : keeps (fitMapToBounds rt eng args).
Proof. unfold fitMapToBounds. keeps_auto. Qed.

Lemma clearMapLayers_keeps (args : Js) : keeps (clearMapLayers rt eng args).
Proof. unfold clearMapLayers. keeps_auto. Qed.

Lemma setMapStyle_keeps (args : Js) : keeps (setMapStyle rt eng args).
Proof. unfold setMapStyle. keeps_auto. Qed.

Lemma queryRenderedFeatures_keeps (args : Js) :
  keeps (queryRenderedFeatures rt eng args).
Proof. unfold queryRenderedFeatures. keeps_auto. Qed.

Lemma querySourceFeatures_keeps (args : Js) :
  keeps (querySourceFeatures rt eng args).
Proof. unfold querySourceFeatures. keeps_auto. Qed.

(** The handle a layer-creating handler returns is the one derived from
    the tick it consumed. *)
Lemma addPointsToMap_handle (args : Js) (t : MapboxMapTools E) (env : Envelope) :
  fst (addPointsToMap rt eng args t) = Normal env ->
  exists name : string,
    to_string rt (requested_layer "add_points_to_map" args) = Normal name
    /\ layerId env
       = Some (name ++ "-" ++ Str.dec (next_counter (layerCounter t))).
Proof.
  unfold addPointsToMap. rewrite after_destructure.
  destruct (JS.nullish args); [discriminate | ]. cbv zeta.
  apply (named_yields _ (fun h env => layerId env = Some h)).
  intro name. yields_auto. reflexivity.
Qed.

Lemma addRouteToMap_handle (args : Js) (t : MapboxMapTools E) (env : Envelope) :
  fst (addRouteToMap rt eng args t) = Normal env ->
  exists name : string,
    to_string rt (requested_layer "add_route_to_map" args) = Normal name
    /\ layerId env
       = Some (name ++ "-" ++ Str.dec (next_counter (layerCounter t))).
Proof.
  unfold addRouteToMap. rewrite after_destructure.
  destruct (JS.nullish args); [discriminate | ].
  rewrite bind_this_options. cbv zeta.
  apply (named_yields _ (fun h env => layerId env = Some h)).
  intro name. yields_auto. reflexivity.
Qed.

Lemma addPolygonToMap_handle (args : Js) (t : MapboxMapTools E) (env : Envelope) :
  fst (addPolygonToMap rt eng args t) = Normal env ->
  exists name : string,
    to_string rt (requested_layer "add_polygon_to_map" args) = Normal name
    /\ layerId env
       = Some (name ++ "-" ++ Str.dec (next_counter (layerCounter t))).
Proof.
  unfold addPolygonToMap. rewrite after_destructure.
  destruct (JS.nullish args); [discriminate | ].
  rewrite bind_this_options. cbv zeta.
  apply (named_yields _ (fun h env => layerId env = Some h)).
  intro name. yields_auto. reflexivity.
Qed.

Lemma addVectorTilesetLayer_handle
  (args : Js) (t : MapboxMapTools E) (env : Envelope) :
  fst (addVectorTilesetLayer rt eng args t) = Normal env ->
  exists name : string,
    to_string rt (requested_layer "add_vector_tileset_layer" args) = Normal name
    /\ layerId env
       = Some (name ++ "-" ++ Str.dec (next_counter (layerCounter t))).
Proof.
  unfold addVectorTilesetLayer. rewrite after_destructure.
  destruct (JS.nullish args); [discriminate | ].
  cbv zeta. rewrite bind_lift. unfold match_scheme.
  destruct (JS.prop args "tilesetUrl"); try discriminate.
  destruct (scheme_prefix s); [ | discriminate].
  apply (named_yields _ (fun h env => layerId env = Some h)).
  intro name. yields_auto. reflexivity.
Qed.

Lemma panMapToLocation_idle (args : Js) :
  yields no_handle (panMapToLocation rt eng args).
Proof. unfold panMapToLocation. yields_auto. reflexivity. Qed.

Lemma fitMapToBounds_idle (args : Js) :
  yields no_handle (fitMapToBounds rt eng args).
Proof. unfold fitMapToBounds. yields_auto. reflexivity. Qed.

Lemma clearMapLayers_idle (args : Js) :
  yields no_handle (clearMapLayers rt eng args).
Proof. unfold clearMapLayers. yields_auto. reflexivity. Qed.

Lemma setMapStyle_idle (args : Js) :
  yields no_handle (setMapStyle rt eng args).
Proof. unfold setMapStyle. yields_auto. reflexivity. Qed.

Lemma queryRenderedFeatures_idle (args : Js) :
  yields no_handle (queryRenderedFeatures rt eng args).
Proof. unfold queryRenderedFeatures. yields_auto. reflexivity. Qed.

Lemma querySourceFeatures_idle (args : Js) :
  yields no_handle (querySourceFeatures rt eng args).
Proof. unfold querySourceFeatures. yields_auto. reflexivity. Qed.

(** *** executeTool *)

Lemma executeTool_snd (toolName : string) (args : Js) (t : MapboxMapTools E) :
  snd (executeTool rt eng toolName args t) = snd (dispatch rt eng toolName args t).
Proof.
  unfold executeTool.
  destruct (dispatch rt eng toolName args t) as [[r | e] t']; reflexivity.
Qed.

(** The counter after any invocation: ticked exactly when the invocation
    reached the tick. *)
Lemma executeTool_counter (toolName : string) (args : Js) (t : MapboxMapTools E) :
  layerCounter (snd (executeTool rt eng toolName args t))
  = if consumes_tick rt toolName args
    then next_counter (layerCounter t)
    else layerCounter t.
Proof.
  rewrite executeTool_snd.
  tool_cases toolName.
  - apply addPointsToMap_counter.
  - apply addRouteToMap_counter.
  - rewrite panMapToLocation_keeps. unfold consumes_tick. cbn [String.eqb Ascii.eqb Bool.eqb orb andb].
    now rewrite andb_false_r.
  - rewrite fitMapToBounds_keeps. unfold consumes_tick. cbn [String.eqb Ascii.eqb Bool.eqb orb andb].
    now rewrite andb_false_r.
  - apply addPolygonToMap_counter.
  - rewrite clearMapLayers_keeps. unfold consumes_tick. cbn [String.eqb Ascii.eqb Bool.eqb orb andb].
    now rewrite andb_false_r.
  - rewrite setMapStyle_keeps. unfold consumes_tick. cbn [String.eqb Ascii.eqb Bool.eqb orb andb].
    now rewrite andb_false_r.
  - apply addVectorTilesetLayer_counter.
  - rewrite queryRenderedFeatures_keeps. unfold consumes_tick. cbn [String.eqb Ascii.eqb Bool.eqb orb andb].
    now rewrite andb_false_r.
  - rewrite querySourceFeatures_keeps. unfold consumes_tick. cbn [String.eqb Ascii.eqb Bool.eqb orb andb].
    now rewrite andb_false_r.
  - unfold consumes_tick.
    repeat match goal with
           | H : toolName <> _ |- _ => apply String.eqb_neq in H; rewrite H; clear H
           end.
    cbn [orb andb]. now rewrite andb_false_r.
Qed.

(** No handler returns an envelope flagged as an error: errors are thrown. *)
Lemma dispatch_not_an_error (toolName : string) (args : Js) :
  yields not_an_error (dispatch rt eng toolName args).
Proof.
  unfold dispatch, addPointsToMap, addRouteToMap, panMapToLocation,
    fitMapToBounds, addPolygonToMap, clearMapLayers, setMapStyle,
    addVectorTilesetLayer, queryRenderedFeatures, querySourceFeatures,
    unique_name.
  yields_auto; reflexivity.
Qed.

(** What an invocation returns for a layer handle: a layer-creating tool
    that did not fail returns the handle derived from its tick; every other
    invocation returns none. *)
Lemma executeTool_handle (toolName : string) (args : Js) (t : MapboxMapTools E) :
  let env := fst (executeTool rt eng toolName args t) in
  if creates_layer toolName && negb (isError env)
  then
    exists name : string,
      to_string rt (requested_layer toolName args) = Normal name
      /\ layerId env
         = Some (name ++ "-" ++ Str.dec (next_counter (layerCounter t)))
      /\ layerCounter (snd (executeTool rt eng toolName args t))
         = next_counter (layerCounter t)
  else layerId env = None.
Proof.
  intros env.
  pose proof (executeTool_counter toolName args t) as Hc.
  pose proof (dispatch_not_an_error toolName args t) as Hok.
  subst env. revert Hc Hok. unfold executeTool.
  destruct (dispatch rt eng toolName args t) as [[r | e] t'] eqn:Hd;
    cbn [fst snd error_envelope isError layerId negb];
    [ | intros; now rewrite andb_false_r].
  intros Hc Hok. rewrite (Hok r eq_refl). cbn [negb]. rewrite andb_true_r.
  assert (Hf : fst (dispatch rt eng toolName args t) = Normal r) by now rewrite Hd.
  clear Hd Hok. revert Hc Hf. unfold creates_layer, consumes_tick.
  tool_cases toolName; cbn [String.eqb Ascii.eqb Bool.eqb orb andb]; intros Hc Hf.
  - destruct (addPointsToMap_handle _ _ _ Hf) as (name & Hn & Hl).
    exists name. rewrite Hn in Hc.
    destruct (JS.nullish args) eqn:Ha.
    { unfold addPointsToMap in Hf. rewrite after_destructure, Ha in Hf. discriminate. }
    auto.
  - destruct (addRouteToMap_handle _ _ _ Hf) as (name & Hn & Hl).
    exists name. rewrite Hn in Hc.
    destruct (JS.nullish args) eqn:Ha.
    { unfold addRouteToMap in Hf. rewrite after_destructure, Ha in Hf. discriminate. }
    auto.
  - destruct (addPolygonToMap_handle _ _ _ Hf) as (name & Hn & Hl).
    exists name. rewrite Hn in Hc.
    destruct (JS.nullish args) eqn:Ha.
    { unfold addPolygonToMap in Hf. rewrite after_destructure, Ha in Hf. discriminate. }
    auto.
  - destruct (addVectorTilesetLayer_handle _ _ _ Hf) as (name & Hn & Hl).
    exists name. rewrite Hn in Hc.
    assert (Hu : negb (JS.nullish args) && accepted_url (JS.prop args "tilesetUrl")
                 = true).
    { revert Hf. unfold addVectorTilesetLayer. rewrite after_destructure.
      destruct (JS.nullish args); [discriminate | ].
      cbv zeta. rewrite bind_lift. unfold match_scheme, accepted_url.
      destruct (JS.prop args "tilesetUrl"); try discriminate.
      destruct (scheme_prefix s); [reflexivity | discriminate]. }
    rewrite Hu in Hc. auto.
  - apply panMapToLocation_idle in Hf. exact Hf.
  - apply fitMapToBounds_idle in Hf. exact Hf.
  - apply clearMapLayers_idle in Hf. exact Hf.
  - apply setMapStyle_idle in Hf. exact Hf.
  - apply queryRenderedFeatures_idle in Hf. exact Hf.
  - apply querySourceFeatures_idle in Hf. exact Hf.
  - discriminate.
Qed.

(** *** Runs of invocations *)

Lemma next_counter_below (c : N) : (c < 2 ^ 53)%N -> next_counter c = (c + 1)%N.
Proof.
  intros H. unfold next_counter. apply N.ltb_lt in H. now rewrite H.
Qed.

Lemma next_counter_bounds (c : N) : (c <= next_counter c <= c + 1)%N.
Proof. unfold next_counter. destruct (c <? 2 ^ 53)%N; lia. Qed.

Lemma handles_follow_ticks_weaken (c c' : N) (l : list ((string * Js) * Envelope)) :
  (c <= c')%N -> handles_follow_ticks rt c' l -> handles_follow_ticks rt c l.
Proof.
  revert c c'. induction l as [| [[toolName args] env] r IH]; intros c c' Hc; simpl.
  - trivial.
  - destruct (creates_layer toolName && negb (isError env)).
    + intros (name & k & Hk & Hn & Hh & Hr). exists name, k. repeat split; auto. lia.
    + intros [Hn Hr]. split; [exact Hn | ]. now apply IH with (c' := c').
Qed.

Lemma run_length (invocations : list (string * Js)) (t : MapboxMapTools E) :
  List.length (fst (run rt eng invocations t)) = List.length invocations.
Proof.
  revert t. induction invocations as [| [toolName args] r IH]; intros t; simpl.
  - reflexivity.
  - destruct (executeTool rt eng toolName args t) as [env t1].
    specialize (IH t1). destruct (run rt eng r t1) as [envs t2].
    simpl in *. now rewrite IH.
Qed.

Lemma run_counter (invocations : list (string * Js)) (t : MapboxMapTools E) :
  (layerCounter t <= layerCounter (snd (run rt eng invocations t))
   <= layerCounter t + N.of_nat (List.length invocations))%N.
Proof.
  revert t. induction invocations as [| [toolName args] r IH]; intros t.
  - simpl. lia.
  - cbn [run List.length].
    pose proof (executeTool_counter toolName args t) as Hc.
    destruct (executeTool rt eng toolName args t) as [env t1].
    specialize (IH t1). destruct (run rt eng r t1) as [envs t2].
    cbn [fst snd] in *.
    pose proof (next_counter_bounds (layerCounter t)) as Hb.
    destruct (consumes_tick rt toolName args); lia.
Qed.

Lemma run_follows (invocations : list (string * Js)) (t : MapboxMapTools E) :
  (layerCounter t + N.of_nat (List.length invocations) <= 2 ^ 53)%N ->
  handles_follow_ticks rt (layerCounter t)
    (combine invocations (fst (run rt eng invocations t))).
Proof.
  revert t. induction invocations as [| [toolName args] r IH]; intros t Hb.
  - exact I.
  - cbn [run List.length] in *.
    pose proof (executeTool_counter toolName args t) as Hc.
    pose proof (executeTool_handle toolName args t) as Hh.
    destruct (executeTool rt eng toolName args t) as [env t1].
    specialize (IH t1). destruct (run rt eng r t1) as [envs t2].
    cbn [fst snd combine handles_follow_ticks] in *.
    assert (Hn : next_counter (layerCounter t) = (layerCounter t + 1)%N)
      by (apply next_counter_below; lia).
    assert (Hle : (layerCounter t <= layerCounter t1 <= layerCounter t + 1)%N).
    { rewrite Hc. destruct (consumes_tick rt toolName args); lia. }
    assert (Hr : handles_follow_ticks rt (layerCounter t1) (combine r envs))
      by (apply IH; lia).
    destruct (creates_layer toolName && negb (isError env)).
    + destruct Hh as (name & Hname & Hl & Ht1).
      exists name, (layerCounter t + 1)%N. rewrite <- Hn.
      repeat split; [lia | exact Hname | exact Hl | ].
      now rewrite <- Ht1.
    + split; [exact Hh | ].
      now apply handles_follow_ticks_weaken with (c' := layerCounter t1).
Qed.

Lemma follows_above (c : N) (l : list ((string * Js) * Envelope)) (h : string) :
  handles_follow_ticks rt c l -> In h (handles (List.map snd l)) ->
  exists (a : string) (k : N), (c < k)%N /\ h = a ++ "-" ++ Str.dec k.
Proof.
  revert c. induction l as [| [[toolName args] env] r IH]; intros c; simpl.
  - intros _ [].
  - destruct (creates_layer toolName && negb (isError env)).
    + intros (name & k & Hk & Hn & Hh & Hr). rewrite Hh. simpl.
      intros [<- | Hin].
      * eauto.
      * destruct (IH k Hr Hin) as (a & k' & Hk' & ->).
        exists a, k'. split; [lia | reflexivity].
    + intros [Hn Hr]. rewrite Hn. simpl. now apply IH.
Qed.

Lemma follows_NoDup (c : N) (l : list ((string * Js) * Envelope)) :
  handles_follow_ticks rt c l -> NoDup (handles (List.map snd l)).
Proof.
  revert c. induction l as [| [[toolName args] env] r IH]; intros c; simpl.
  - intros _. constructor.
  - destruct (creates_layer toolName && negb (isError env)).
    + intros (name & k & Hk & Hn & Hh & Hr). rewrite Hh. simpl.
      constructor; [ | eauto].
      intros Hin. destruct (follows_above k r _ Hr Hin) as (a & k' & Hk' & Heq).
      apply handle_tick_inj in Heq. lia.
    + intros [Hn Hr]. rewrite Hn. simpl. eauto.
Qed.

Lemma map_snd_combine (A B : Type) (l : list A) (l' : list B) :
  List.length l' = List.length l -> List.map snd (combine l l') = l'.
Proof.
  revert l'. induction l as [| x l IH]; intros [| y l']; simpl; try discriminate.
  - reflexivity.
  - intros [= H]. now rewrite IH.
Qed.

End Handlers.

(** ** Computations and the call log *)

Section Logs.
Context {E : Type}.
Variable P : Call -> Prop.

Lemma logs_ret (A : Type) (a : A) : logs P (@ret E A a).
Proof. intro t. exists []. split; [symmetry; apply List.app_nil_r | constructor]. Qed.

Lemma logs_throw (A : Type) (e : Exn) : logs P (@throw E A e).
Proof. intro t. exists []. split; [symmetry; apply List.app_nil_r | constructor]. Qed.

Lemma logs_lift (A : Type) (c : Completion A) : logs P (@lift E A c).
Proof. intro t. exists []. split; [symmetry; apply List.app_nil_r | constructor]. Qed.

Lemma logs_bind (A B : Type) (m : M E A) (k : A -> M E B) :
  logs P m -> (forall a, logs P (k a)) -> logs P (bind m k).
Proof.
  intros Hm Hk t. unfold bind. destruct (Hm t) as (d & Hd & HP).
  destruct (m t) as [[a | e] t']; simpl in *.
  - destruct (Hk a t') as (d' & Hd' & HP'). exists (d ++ d')%list. split.
    + rewrite Hd', Hd. symmetry. apply List.app_assoc.
    + apply Forall_app. auto.
  - exists d. auto.
Qed.

Lemma logs_when (b : bool) (m : M E unit) : logs P m -> logs P (when b m).
Proof. intros Hm. destruct b; simpl; [exact Hm | apply logs_ret]. Qed.

Lemma logs_forEach (A : Type) (f : A -> M E unit) (l : list A) :
  (forall x, In x l -> logs P (f x)) -> logs P (forEach f l).
Proof.
  induction l as [| x r IH]; intros Hf; simpl.
  - apply logs_ret.
  - apply logs_bind; [apply Hf; now left | intros _; apply IH].
    intros y Hy. apply Hf. now right.
Qed.

Lemma logs_foldM (A B : Type) (f : B -> A -> M E B) (acc : B) (l : list A) :
  (forall b x, In x l -> logs P (f b x)) -> logs P (foldM f acc l).
Proof.
  revert acc. induction l as [| x r IH]; intros acc Hf; simpl.
  - apply logs_ret.
  - apply logs_bind; [apply Hf; now left | intros b; apply IH].
    intros b' y Hy. apply Hf. now right.
Qed.

Lemma logs_mutate (c : Call) (f : E -> Completion E) : P c -> logs P (mutate c f).
Proof.
  intros Hc t. exists [c]. unfold mutate.
  destruct (f (map t)); simpl; split; auto.
Qed.

Lemma logs_query (A : Type) (c : Call) (f : E -> Completion A) :
  P c -> logs P (query c f).
Proof. intros Hc t. exists [c]. simpl. split; auto. Qed.

End Logs.

Ltac logs_step :=
  lazymatch goal with
  | |- logs _ (bind _ _) => apply logs_bind; [ | intro ]
  | |- logs _ (ret _) => apply logs_ret
  | |- logs _ (throw _) => apply logs_throw
  | |- logs _ (lift _) => apply logs_lift
  | |- logs _ (when _ _) => apply logs_when
  | |- logs _ (forEach _ _) => apply logs_forEach; intros ? ?
  | |- logs _ (mutate _ _) => apply logs_mutate
  | |- logs _ (query _ _) => apply logs_query
  | |- logs _ (if ?b then _ else _) => destruct b
  | |- logs _ _ => progress (cbv zeta; autounfold with tools)
  end.

Section Clearing.
Context {E : Type}.
Variable eng : MapAPI.t E.

(** The sweep of all custom layers asks the engine to remove only layers
    whose identifier matches the naming convention. *)
Lemma clear_all_custom_removals : logs removes_custom_only (clear_all_custom eng).
Proof.
  unfold clear_all_custom.
  apply logs_bind; [apply logs_query; exact I | intro style].
  cbv zeta. apply logs_bind.
  - apply logs_foldM. intros n l Hl. apply filter_In in Hl. destruct Hl as [_ Hl].
    unfold remove_layer_if_present, map_getLayer, map_removeLayer.
    repeat logs_step; simpl; eauto.
  - intro n. repeat logs_step; simpl; auto.
Qed.

(** The removal by name asks the engine to remove only the names given. *)
Lemma clear_named_removals (names : list Js) :
  logs (removes_only names) (clear_named eng names).
Proof.
  unfold clear_named. apply logs_bind.
  - apply logs_foldM. intros n name Hn.
    unfold remove_layer_if_present, map_getLayer, map_removeLayer, map_getSource,
      map_removeSource.
    repeat logs_step; simpl; auto.
  - intro n. repeat logs_step; simpl; auto.
Qed.
End Clearing.

(** ** Properties that hold on every engine *)

Section AnyEngine.

Variable rt : JsRuntime.
Context {E : Type}.
Variable eng : MapAPI.t E.

(** C1. [executeTool] never lets an exception out: its value is the
    handler's envelope when the handler returns, and otherwise the
    envelope with the text "Error: " followed by the message of what was
    thrown and [isError: true], with the instance as the handler left it;
    the envelope is flagged as an error exactly when something was thrown;
    and for a name outside the catalog the text names the unknown tool and
    the instance, the engine and the call log are unchanged. *)
Theorem executeTool_never_throws
  (toolName : string) (args : Js) (t : MapboxMapTools E) :
  executeTool rt eng toolName args t
  = (match fst (dispatch rt eng toolName args t) with
     | Normal result => result
     | Throw error =>
         {| content := [ {| type_ := "text"; text := "Error: " ++ message error |} ];
            isError := true; layerId := None; sourceId := None; data := None |}
     end,
     snd (dispatch rt eng toolName args t))
  /\ isError (fst (executeTool rt eng toolName args t))
     = match fst (dispatch rt eng toolName args t) with
       | Normal _ => false
       | Throw _ => true
       end
  /\ (known_tool toolName = false ->
      executeTool rt eng toolName args t
      = ({| content :=
              [ {| type_ := "text"; text := "Error: Unknown tool: " ++ toolName |} ];
            isError := true; layerId := None; sourceId := None; data := None |},
         t)).
Proof.
  split; [ | split].
  - unfold executeTool.
    destruct (dispatch rt eng toolName args t) as [[r | e] t']; reflexivity.
  - pose proof (dispatch_not_an_error rt eng toolName args t) as H.
    unfold executeTool.
    destruct (dispatch rt eng toolName args t) as [[r | e] t']; simpl in *.
    + now apply H.
    + reflexivity.
  - unfold known_tool, tool_names, executeTool. simpl existsb.
    tool_cases toolName; simpl; try discriminate. reflexivity.
Qed.

(** C2, as amended. Along any sequence of invocations on one instance
    that keeps the counter within 2^53: every invocation of a
    layer-creating tool that does not fail returns a layer handle, which is
    the requested name as text, a hyphen and a counter value, and those
    values strictly increase along the sequence, whatever names are
    requested (two successful requests for "cities" give "cities-" followed
    by two increasing numbers); no other invocation returns a handle; the
    handles returned are pairwise distinct; and the counter at the end is
    never below the counter at the start. *)
Theorem layer_handles_never_repeat
  (invocations : list (string * Js)) (t : MapboxMapTools E) :
  (layerCounter t + N.of_nat (List.length invocations) <= 2 ^ 53)%N ->
  let envs := fst (run rt eng invocations t) in
  handles_follow_ticks rt (layerCounter t) (combine invocations envs)
  /\ NoDup (handles envs)
  /\ (layerCounter t <= layerCounter (snd (run rt eng invocations t)))%N.
Proof.
  intros Hb envs. pose proof (run_follows rt eng invocations t Hb) as Hf.
  repeat split.
  - exact Hf.
  - rewrite <- (map_snd_combine _ _ invocations envs (run_length rt eng invocations t)).
    exact (follows_NoDup rt _ _ Hf).
  - apply run_counter.
Qed.

(** C4, as amended. An invocation ticks the layer counter when it reaches
    the tick and leaves it unchanged otherwise, whatever fails afterwards.
    Add points, add route and add polygon reach the tick when the
    arguments can be destructured and the requested layer name can be
    converted to text, because the name is converted first; add vector
    tileset layer reaches it only when, in addition, [tilesetUrl] is a
    string with an accepted scheme prefix, because that check comes first.
    A tick advances the counter by exactly one as long as it is below
    2^53. No invocation lowers the counter. *)
Theorem tick_follows_validation
  (toolName : string) (args : Js) (t : MapboxMapTools E) :
  layerCounter (snd (executeTool rt eng toolName args t))
  = (if consumes_tick rt toolName args
     then next_counter (layerCounter t)
     else layerCounter t)
  /\ ((layerCounter t < 2 ^ 53)%N ->
      next_counter (layerCounter t) = (layerCounter t + 1)%N)
  /\ (layerCounter t <= layerCounter (snd (executeTool rt eng toolName args t)))%N.
Proof.
  rewrite executeTool_counter. split; [reflexivity | ].
  split; [apply next_counter_below | ].
  pose proof (next_counter_bounds (layerCounter t)).
  destruct (consumes_tick rt toolName args); lia.
Qed.

(** C6. When [point] and [bbox] are both present (each carries a truthy
    value, as every object and every array does), the handler throws the
    error about mutually exclusive inputs before any call on the engine:
    [executeTool] returns the error envelope and the instance, with its
    engine and its call log, is unchanged. *)
Theorem point_and_bbox_exclude_each_other (args : Js) (t : MapboxMapTools E) :
  JS.truthy (JS.prop args "point") = true ->
  JS.truthy (JS.prop args "bbox") = true ->
  queryRenderedFeatures rt eng args t
  = (Throw (Error "Cannot specify both point and bbox parameters. Use one or the other."),
     t)
  /\ executeTool rt eng "query_rendered_features" args t
     = (error_envelope
          "Error: Cannot specify both point and bbox parameters. Use one or the other.",
        t).
Proof.
  intros Hp Hb.
  assert (Hq : queryRenderedFeatures rt eng args t
               = (Throw (Error "Cannot specify both point and bbox parameters. Use one or the other."),
                  t)).
  { unfold queryRenderedFeatures. rewrite after_destructure.
    destruct (JS.nullish args) eqn:Hn.
    - rewrite (prop_nullish _ _ Hn) in Hp. discriminate.
    - cbv zeta. rewrite Hp, Hb. reflexivity. }
  split; [exact Hq | ].
  unfold executeTool.
  change (dispatch rt eng "query_rendered_features" args t)
    with (queryRenderedFeatures rt eng args t).
  rewrite Hq. reflexivity.
Qed.

(** C7, as amended. With an empty [coordinates] array, [executeTool]
    returns the error envelope "Error: No coordinates provided" and the
    instance, engine and call log are unchanged, so no camera call is made.
    With a non-empty array, the handler starts from the bounds of the first
    coordinate and extends them by every coordinate of the array in order,
    through the bounds class of the engine's library. When the class
    rejects a coordinate, the result is the error envelope with its
    message, and again nothing has changed. Otherwise the handler makes
    exactly one call on the engine: [fitBounds] with those bounds and the
    padding given, or 50. *)
Theorem fit_to_bounds (args : Js) (t : MapboxMapTools E) :
  (JS.prop args "coordinates" = JArr [] ->
   executeTool rt eng "fit_map_to_bounds" args t
   = (error_envelope "Error: No coordinates provided", t))
  /\ (forall (first : Js) (rest : list Js),
        JS.prop args "coordinates" = JArr (first :: rest) ->
        let opts :=
          JObj [ ("padding", JS.default (JS.prop args "padding") (JS.num 50)) ] in
        executeTool rt eng "fit_map_to_bounds" args t
        = match MapAPI.LngLatBounds eng first first with
          | Throw e => (error_envelope ("Error: " ++ message e), t)
          | Normal b0 =>
              match reduce (MapAPI.extend eng) b0 (first :: rest) with
              | Throw e => (error_envelope ("Error: " ++ message e), t)
              | Normal b =>
                  match MapAPI.fitBounds eng b opts (map t) with
                  | Normal m =>
                      (envelope
                         ("Map view adjusted to fit "
                          ++ length_text rt (S (List.length rest))
                          ++ " coordinates"),
                       {| map := m; calls := calls t ++ [CallFitBounds b opts];
                          options := options t; layerCounter := layerCounter t |})
                  | Throw e =>
                      (error_envelope ("Error: " ++ message e),
                       record (CallFitBounds b opts) t)
                  end
              end
          end).
Proof.
  split.
  - intros Hc.
    assert (Hn : JS.nullish args = false).
    { apply prop_defined with (k := "coordinates"). rewrite Hc. discriminate. }
    unfold executeTool.
    change (dispatch rt eng "fit_map_to_bounds" args t)
      with (fitMapToBounds rt eng args t).
    unfold fitMapToBounds. rewrite after_destructure, Hn. cbv zeta.
    rewrite Hc, bind_lift. reflexivity.
  - intros first rest Hc opts.
    assert (Hn : JS.nullish args = false).
    { apply prop_defined with (k := "coordinates"). rewrite Hc. discriminate. }
    unfold executeTool.
    change (dispatch rt eng "fit_map_to_bounds" args t)
      with (fitMapToBounds rt eng args t).
    unfold fitMapToBounds. rewrite after_destructure, Hn. cbv zeta.
    rewrite Hc, bind_lift.
    change (JS.get rt (JArr (first :: rest)) "length")
      with (Normal (JS.num (N.of_nat (S (List.length rest))))).
    cbv iota beta. rewrite is_zero_num.
    change (JS.prop (JArr (first :: rest)) "0") with first.
    replace (N.of_nat (S (List.length rest)) =? 0)%N with false
      by (symmetry; apply N.eqb_neq; lia).
    rewrite bind_lift.
    destruct (MapAPI.LngLatBounds eng first first) as [b0 | e]; [ | reflexivity].
    rewrite bind_lift.
    change (array_reduce rt "coordinates.reduce" (MapAPI.extend eng) b0
              (JArr (first :: rest)))
      with (reduce (MapAPI.extend eng) b0 (first :: rest)).
    destruct (reduce (MapAPI.extend eng) b0 (first :: rest)) as [b | e];
      [ | reflexivity].
    unfold map_fitBounds. rewrite bind_mutate. fold opts.
    destruct (MapAPI.fitBounds eng b opts (map t)); reflexivity.
Qed.

(** C10, as amended. For every [coordinates] array, of any length, the
    route handler checks nothing about it. It first converts the requested
    layer name to text; a name that cannot be converted ends the call
    there, with the instance unchanged. Otherwise it ticks the counter
    (by one, below 2^53), asks the engine to add the source and then the
    line layer, and returns the success envelope with the layer handle. The
    only other failures are the engine's rejections of those two calls,
    reported with the engine's message. *)
Theorem route_needs_no_minimum
  (args : Js) (l : list Js) (t : MapboxMapTools E) :
  JS.prop args "coordinates" = JArr l ->
  let source := route_source (JArr l) in
  let after (m : E) (cs : list Call) :=
    {| map := m; calls := calls t ++ cs;
       options := options t; layerCounter := next_counter (layerCounter t) |} in
  executeTool rt eng "add_route_to_map" args t
  = match to_string rt (requested_layer "add_route_to_map" args) with
    | Throw e => (error_envelope ("Error: " ++ message e), t)
    | Normal given =>
        let name := given ++ "-" ++ Str.dec (next_counter (layerCounter t)) in
        let layer :=
          route_layer name
            (JS.default (JS.prop args "color")
               (JS.lookup "defaultRouteColor" (options t)))
            (JS.default (JS.prop args "width")
               (JS.lookup "defaultRouteWidth" (options t))) in
        match MapAPI.addSource eng name source (map t) with
        | Throw e =>
            (error_envelope ("Error: " ++ message e),
             after (map t) [CallAddSource name source])
        | Normal m1 =>
            match MapAPI.addLayer eng layer m1 with
            | Throw e =>
                (error_envelope ("Error: " ++ message e),
                 after m1 [CallAddSource name source; CallAddLayer layer])
            | Normal m2 =>
                ({| content :=
                      text_content
                        ("Added route with " ++ length_text rt (List.length l)
                         ++ " points to map layer " ++ quoted name);
                    isError := false;
                    layerId := Some name;
                    sourceId := None;
                    data := None |},
                 after m2 [CallAddSource name source; CallAddLayer layer])
            end
        end
    end
  /\ ((layerCounter t < 2 ^ 53)%N ->
      next_counter (layerCounter t) = (layerCounter t + 1)%N).
Proof.
  intros Hc source after. split; [ | apply next_counter_below].
  assert (Hn : JS.nullish args = false).
  { apply prop_defined with (k := "coordinates"). rewrite Hc. discriminate. }
  unfold executeTool.
  change (dispatch rt eng "add_route_to_map" args t)
    with (addRouteToMap rt eng args t).
  unfold addRouteToMap. rewrite after_destructure, Hn.
  rewrite bind_this_options. cbv zeta. rewrite bind_unique_name.
  fold (requested_layer "add_route_to_map" args).
  change (JStr "route-layer") with (JStr (default_layer_name "add_route_to_map")).
  fold (requested_layer "add_route_to_map" args).
  destruct (to_string rt (requested_layer "add_route_to_map" args)) as [given | e];
    [ | reflexivity].
  rewrite Hc. subst source after.
  unfold route_source, route_layer, map_addSource, map_addLayer.
  rewrite bind_mutate. cbn [map ticked calls options layerCounter].
  match goal with
  | |- context [MapAPI.addSource ?a ?b ?c ?d] =>
      destruct (MapAPI.addSource a b c d) as [m1 | e]; [ | reflexivity]
  end.
  rewrite bind_mutate. cbn [map ticked calls options layerCounter].
  match goal with
  | |- context [MapAPI.addLayer ?a ?b ?c] =>
      destruct (MapAPI.addLayer a b c) as [m2 | e]
  end.
  - rewrite bind_lift. cbn [JS.get JS.nullish JS.prop String.eqb Ascii.eqb Bool.eqb].
    rewrite bind_lift. cbn [to_string JS.num]. unfold ret, length_text.
    cbn [calls]. rewrite log2. reflexivity.
  - unfold record. cbn [map calls options layerCounter]. rewrite log2. reflexivity.
Qed.

End AnyEngine.

(** ** Properties on the in-memory engine *)

Section Memory.

Variable rt : JsRuntime.


Lemma addLayer_sources (layer : Js) (st st' : MemMap.state) :
  MemMap.addLayer layer st = Normal st' -> MemMap.sources st' = MemMap.sources st.
Proof.
  unfold MemMap.addLayer.
  destruct (JS.prop layer "id"); try discriminate.
  destruct (MemMap.has_key s (MemMap.layers st)); try discriminate.
  destruct (JS.prop layer "source"); try (intros [= <-]; reflexivity).
  destruct (MemMap.has_key s0 (MemMap.sources st)); try discriminate.
  intros [= <-]; reflexivity.
Qed.




Lemma find_has_key (A : Type) (id : string) (l : list (string * A)) :
  MemMap.has_key id l
  = match find (fun kv => String.eqb id (fst kv)) l with
    | Some _ => true
    | None => false
    end.
Proof.
  unfold MemMap.has_key. induction l as [| [k w] l IH]; simpl.
  - reflexivity.
  - destruct (String.eqb id k); simpl; [reflexivity | exact IH].
Qed.

Lemma has_key_app (A : Type) (id : string) (l l' : list (string * A)) :
  MemMap.has_key id (l ++ l') = MemMap.has_key id l || MemMap.has_key id l'.
Proof. unfold MemMap.has_key. apply existsb_app. Qed.

Lemma added_sources_app (l l' : list Call) :
  added_sources (l ++ l') = (added_sources l ++ added_sources l')%list.
Proof. unfold added_sources. apply flat_map_app. Qed.

(** The identifier that the code derives is the one the amended claim
    describes. *)
Lemma generateSourceId_as_amended (url : string) :
  generateSourceId url = amended_source_id url.
Proof.
  unfold generateSourceId, amended_source_id, without_scheme, scheme_prefix.
  destruct (Str.startsWith url "mapbox://"); [reflexivity | ].
  destruct (Str.startsWith url "https://"); [reflexivity | ].
  destruct (Str.startsWith url "http://"); reflexivity.
Qed.

(** What the engine accepted when it accepted a layer. *)
Lemma addLayer_accepted (layer : Js) (st st' : MemMap.state) :
  MemMap.addLayer layer st = Normal st' ->
  exists id : string,
    JS.prop layer "id" = JStr id
    /\ MemMap.has_key id (MemMap.layers st) = false
    /\ MemMap.has_key id (MemMap.layers st') = true.
Proof.
  unfold MemMap.addLayer.
  destruct (JS.prop layer "id") as [ | | | | id | | ]; try discriminate.
  destruct (MemMap.has_key id (MemMap.layers st)) eqn:Hk; try discriminate.
  assert (Hin : MemMap.has_key id (MemMap.layers st ++ [(id, layer)]) = true).
  { rewrite has_key_app. cbn [MemMap.has_key existsb fst].
    rewrite String.eqb_refl. now rewrite orb_true_r. }
  destruct (JS.prop layer "source");
    try (intros [= <-]; exists id; repeat split; [exact Hk | exact Hin]).
  destruct (MemMap.has_key s (MemMap.sources st)); try discriminate.
  intros [= <-]. exists id. repeat split; [exact Hk | exact Hin].
Qed.

(** A successful [addVectorTilesetLayer] on the in-memory engine. *)
Lemma addVectorTilesetLayer_adds
  (args : Js) (url : string) (t t1 : MapboxMapTools MemMap.state) (env : Envelope) :
  JS.prop args "tilesetUrl" = JStr url ->
  executeTool rt MemMap.api "add_vector_tileset_layer" args t = (env, t1) ->
  isError env = false ->
  sourceId env = Some (generateSourceId url)
  /\ MemMap.has_key (generateSourceId url) (MemMap.sources (map t1)) = true
  /\ (exists h : string,
        layerId env = Some h
        /\ MemMap.has_key h (MemMap.layers (map t)) = false
        /\ MemMap.has_key h (MemMap.layers (map t1)) = true)
  /\ exists delta : list Call,
       calls t1 = (calls t ++ delta)%list
       /\ (List.length (added_sources delta) <= 1)%nat.
Proof.
  intros Hu.
  assert (Hn : JS.nullish args = false).
  { apply prop_defined with (k := "tilesetUrl"). rewrite Hu. discriminate. }
  unfold executeTool.
  change (dispatch rt MemMap.api "add_vector_tileset_layer" args t)
    with (addVectorTilesetLayer rt MemMap.api args t).
  unfold addVectorTilesetLayer. rewrite after_destructure, Hn. cbv zeta.
  rewrite Hu, bind_lift. unfold match_scheme.
  destruct (scheme_prefix url); [ | intros [= <- <-]; discriminate].
  rewrite bind_unique_name.
  destruct (to_string rt _) as [given | e]; [ | intros [= <- <-]; discriminate].
  unfold map_getSource, map_addSource, map_addLayer.
  rewrite bind_query. cbn [MapAPI.getSource MemMap.api MemMap.getSource map ticked].
  destruct (find _ (MemMap.sources (map t))) as [kv | ] eqn:Hfind.
  - cbn [JS.truthy negb when]. rewrite bind_ret, bind_lift.
    destruct (to_string rt (JS.prop args "layerType")) as [key | e];
      [ | intros [= <- <-]; discriminate].
    rewrite bind_mutate.
    cbn [MapAPI.addLayer MemMap.api map record ticked].
    match goal with
    | |- context [MemMap.addLayer ?l ?st] =>
        destruct (MemMap.addLayer l st) as [st1 | e] eqn:H1;
        [ | intros [= <- <-]; discriminate]
    end.
    rewrite bind_lift.
    destruct (to_string rt (JS.prop args "sourceLayer")) as [shown | e];
      [ | intros [= <- <-]; discriminate].
    unfold ret. intros [= <- <-] _. cbn [sourceId layerId layerCounter map calls].
    pose proof (addLayer_sources _ _ _ H1) as Hs1. cbn [map ticked record] in Hs1.
    rewrite Hs1, find_has_key, Hfind.
    destruct (addLayer_accepted _ _ _ H1) as (id & Hid & Hout & Hin).
    cbn [JS.prop] in Hid. rewrite !lookup_set_if in Hid by reflexivity.
    cbn [JS.lookup String.eqb Ascii.eqb Bool.eqb] in Hid. injection Hid as <-.
    repeat split.
    + eexists. repeat split; [exact Hout | exact Hin].
    + eexists. rewrite log2. split; [reflexivity | simpl; lia].
  - cbn [JS.truthy negb when]. rewrite bind_mutate.
    cbn [MapAPI.addSource MemMap.api map record ticked]. unfold MemMap.addSource at 1.
    cbn [map record ticked]. rewrite find_has_key, Hfind. rewrite bind_lift.
    destruct (to_string rt (JS.prop args "layerType")) as [key | e];
      [ | intros [= <- <-]; discriminate].
    rewrite bind_mutate.
    cbn [MapAPI.addLayer MemMap.api map ticked record].
    match goal with
    | |- context [MemMap.addLayer ?l ?st] =>
        destruct (MemMap.addLayer l st) as [st1 | e] eqn:H1;
        [ | intros [= <- <-]; discriminate]
    end.
    rewrite bind_lift.
    destruct (to_string rt (JS.prop args "sourceLayer")) as [shown | e];
      [ | intros [= <- <-]; discriminate].
    unfold ret. intros [= <- <-] _. cbn [sourceId layerId layerCounter map calls].
    pose proof (addLayer_sources _ _ _ H1) as Hs1. cbn [map ticked record] in Hs1.
    rewrite Hs1. cbn [MemMap.sources MemMap.with_sources].
    rewrite has_key_app. cbn [MemMap.has_key existsb fst]. rewrite String.eqb_refl.
    rewrite orb_true_r.
    destruct (addLayer_accepted _ _ _ H1) as (id & Hid & Hout & Hin).
    cbn [JS.prop] in Hid. rewrite !lookup_set_if in Hid by reflexivity.
    cbn [JS.lookup String.eqb Ascii.eqb Bool.eqb] in Hid. injection Hid as <-.
    cbn [MemMap.layers MemMap.with_sources] in Hout.
    repeat split.
    + eexists. repeat split; [exact Hout | exact Hin].
    + eexists. rewrite log3. split; [reflexivity | simpl; lia].
Qed.

(** An [addVectorTilesetLayer] whose source the engine already has asks
    for no source, whether or not it succeeds. *)
Lemma addVectorTilesetLayer_reuses
  (args : Js) (url : string) (t : MapboxMapTools MemMap.state) :
  JS.prop args "tilesetUrl" = JStr url ->
  MemMap.has_key (generateSourceId url) (MemMap.sources (map t)) = true ->
  added_sources
    (calls (snd (executeTool rt MemMap.api "add_vector_tileset_layer" args t)))
  = added_sources (calls t).
Proof.
  intros Hu Hk.
  assert (Hn : JS.nullish args = false).
  { apply prop_defined with (k := "tilesetUrl"). rewrite Hu. discriminate. }
  rewrite executeTool_snd.
  change (dispatch rt MemMap.api "add_vector_tileset_layer" args t)
    with (addVectorTilesetLayer rt MemMap.api args t).
  unfold addVectorTilesetLayer. rewrite after_destructure, Hn. cbv zeta.
  rewrite Hu, bind_lift. unfold match_scheme.
  destruct (scheme_prefix url); [ | reflexivity].
  rewrite bind_unique_name.
  destruct (to_string rt _) as [given | e]; [ | reflexivity].
  unfold map_getSource, map_addSource, map_addLayer.
  rewrite bind_query. cbn [MapAPI.getSource MemMap.api MemMap.getSource map ticked].
  rewrite find_has_key in Hk.
  destruct (find _ (MemMap.sources (map t))) as [kv | ]; [ | discriminate].
  cbn [JS.truthy negb when]. rewrite bind_ret, bind_lift.
  destruct (to_string rt (JS.prop args "layerType")) as [key | e].
  2:{ cbn [snd record calls ticked]. rewrite added_sources_app. apply List.app_nil_r. }
  rewrite bind_mutate.
  cbn [MapAPI.addLayer MemMap.api map record ticked].
  match goal with
  | |- context [MemMap.addLayer ?l ?st] =>
      destruct (MemMap.addLayer l st) as [st1 | e]
  end.
  - rewrite bind_lift.
    destruct (to_string rt (JS.prop args "sourceLayer")); unfold ret;
      cbn [snd calls record ticked]; rewrite log2, added_sources_app;
      apply List.app_nil_r.
  - cbn [snd record calls ticked]. rewrite log2, added_sources_app.
    apply List.app_nil_r.
Qed.

(** A call that succeeded had a URL with an accepted scheme. *)
Lemma added_with_a_scheme
  (args : Js) (url : string) (t : MapboxMapTools MemMap.state) :
  JS.prop args "tilesetUrl" = JStr url ->
  isError (fst (executeTool rt MemMap.api "add_vector_tileset_layer" args t)) = false ->
  exists p : string, scheme_prefix url = Some p.
Proof.
  intros Hu.
  assert (Hn : JS.nullish args = false).
  { apply prop_defined with (k := "tilesetUrl"). rewrite Hu. discriminate. }
  unfold executeTool.
  change (dispatch rt MemMap.api "add_vector_tileset_layer" args t)
    with (addVectorTilesetLayer rt MemMap.api args t).
  unfold addVectorTilesetLayer. rewrite after_destructure, Hn. cbv zeta.
  rewrite Hu, bind_lift. unfold match_scheme.
  destruct (scheme_prefix url) as [p | ]; [intros _; now exists p | discriminate].
Qed.

(** On the in-memory engine the handler succeeds when the URL has an
    accepted scheme, the name, the layer type and the source layer can be
    converted to text, and the handle it derives is not the identifier of
    a layer of the map. *)
Lemma addVectorTilesetLayer_succeeds
  (args : Js) (url p given : string) (t : MapboxMapTools MemMap.state) :
  JS.prop args "tilesetUrl" = JStr url ->
  scheme_prefix url = Some p ->
  to_string rt (requested_layer "add_vector_tileset_layer" args) = Normal given ->
  converts (to_string rt (JS.prop args "layerType")) = true ->
  converts (to_string rt (JS.prop args "sourceLayer")) = true ->
  MemMap.has_key (given ++ "-" ++ Str.dec (next_counter (layerCounter t)))
    (MemMap.layers (map t)) = false ->
  isError (fst (executeTool rt MemMap.api "add_vector_tileset_layer" args t)) = false.
Proof.
  intros Hu Hp Hg Ht Hl Hfree.
  assert (Hn : JS.nullish args = false).
  { apply prop_defined with (k := "tilesetUrl"). rewrite Hu. discriminate. }
  unfold executeTool.
  change (dispatch rt MemMap.api "add_vector_tileset_layer" args t)
    with (addVectorTilesetLayer rt MemMap.api args t).
  unfold addVectorTilesetLayer. rewrite after_destructure, Hn. cbv zeta.
  rewrite Hu, bind_lift. unfold match_scheme. rewrite Hp.
  rewrite bind_unique_name. unfold requested_layer in Hg. cbn in Hg. rewrite Hg.
  destruct (to_string rt (JS.prop args "layerType")) as [key | e];
    [ | discriminate Ht].
  destruct (to_string rt (JS.prop args "sourceLayer")) as [shown | e];
    [ | discriminate Hl].
  unfold map_getSource, map_addSource, map_addLayer.
  rewrite bind_query. cbn [MapAPI.getSource MemMap.api MemMap.getSource map ticked].
  destruct (find _ (MemMap.sources (map t))) as [kv | ] eqn:Hfind.
  - cbn [JS.truthy negb when]. rewrite bind_ret, bind_lift, bind_mutate.
    cbn [MapAPI.addLayer MemMap.api map record ticked]. unfold MemMap.addLayer.
    cbn [JS.prop]. rewrite !lookup_set_if by reflexivity.
    cbn [JS.lookup String.eqb Ascii.eqb Bool.eqb]. rewrite Hfree.
    rewrite find_has_key, Hfind. reflexivity.
  - cbn [JS.truthy negb when]. rewrite bind_mutate.
    cbn [MapAPI.addSource MemMap.api map record ticked]. unfold MemMap.addSource at 1.
    cbn [map record ticked]. rewrite find_has_key, Hfind.
    rewrite bind_lift, bind_mutate.
    cbn [MapAPI.addLayer MemMap.api map record ticked]. unfold MemMap.addLayer.
    cbn [JS.prop]. rewrite !lookup_set_if by reflexivity.
    cbn [JS.lookup String.eqb Ascii.eqb Bool.eqb MemMap.layers MemMap.sources
         MemMap.with_sources].
    rewrite Hfree, has_key_app. cbn [MemMap.has_key existsb fst].
    rewrite String.eqb_refl, orb_true_r. reflexivity.
Qed.

(** C5, as amended. The source identifier is a function of the URL, the
    one the amended claim describes: the scheme prefix is stripped, every
    character other than a letter, a digit, a hyphen, an underscore or a dot
    is replaced by a hyphen, and "-vector-source" is appended. On the
    in-memory engine, after a successful call, a second call with the same
    [tilesetUrl] asks the engine to add no source, whether or not it
    succeeds, and the first asked for at most one. The second call
    succeeds whenever its layer name, layer type and source layer can be
    converted to text and the handle it derives is not yet a layer of the
    map; and when it succeeds, both calls return that same identifier and
    two distinct layer handles. *)
Theorem tileset_source_is_shared (args1 args2 : Js) (url : string) (t : MapboxMapTools MemMap.state) :
  JS.prop args1 "tilesetUrl" = JStr url ->
  JS.prop args2 "tilesetUrl" = JStr url ->
  let r1 := executeTool rt MemMap.api "add_vector_tileset_layer" args1 t in
  let r2 := executeTool rt MemMap.api "add_vector_tileset_layer" args2 (snd r1) in
  isError (fst r1) = false ->
  generateSourceId url = amended_source_id url
  /\ sourceId (fst r1) = Some (generateSourceId url)
  /\ (List.length (added_sources (calls (snd r1)))
      <= S (List.length (added_sources (calls t))))%nat
  /\ added_sources (calls (snd r2)) = added_sources (calls (snd r1))
  /\ (forall given : string,
        to_string rt (requested_layer "add_vector_tileset_layer" args2) = Normal given ->
        converts (to_string rt (JS.prop args2 "layerType")) = true ->
        converts (to_string rt (JS.prop args2 "sourceLayer")) = true ->
        MemMap.has_key
          (given ++ "-" ++ Str.dec (next_counter (layerCounter (snd r1))))
          (MemMap.layers (map (snd r1))) = false ->
        isError (fst r2) = false)
  /\ (isError (fst r2) = false ->
      sourceId (fst r2) = Some (generateSourceId url)
      /\ exists h1 h2 : string,
           layerId (fst r1) = Some h1 /\ layerId (fst r2) = Some h2 /\ h1 <> h2).
Proof.
  intros Hu1 Hu2 r1 r2 He1.
  split; [apply generateSourceId_as_amended | ].
  destruct (added_with_a_scheme _ _ _ Hu1 He1) as (p & Hp).
  subst r2. destruct r1 as [env1 t1] eqn:H1. cbn [fst snd] in *.
  destruct (addVectorTilesetLayer_adds _ _ _ _ _ Hu1 H1 He1)
    as (Hs1 & Hk1 & (h1 & Hl1 & _ & Hin1) & d1 & Hd1 & Hn1).
  split; [exact Hs1 | ].
  split; [rewrite Hd1, added_sources_app, List.length_app; lia | ].
  split; [now apply addVectorTilesetLayer_reuses with (url := url) | ].
  split.
  - intros given Hg Ht Hl Hfree.
    now apply addVectorTilesetLayer_succeeds with (url := url) (p := p) (given := given).
  - intros H.
    destruct (executeTool rt MemMap.api "add_vector_tileset_layer" args2 t1)
      as [env2 t2] eqn:H2. cbn [fst] in *.
    destruct (addVectorTilesetLayer_adds _ _ _ _ _ Hu2 H2 H)
      as (Hs2 & _ & (h2 & Hl2 & Hout2 & _) & _).
    split; [exact Hs2 | ].
    exists h1, h2. repeat split; [exact Hl1 | exact Hl2 | ].
    intros ->. congruence.
Qed.

End Memory.

(** ** The properties at concrete inputs *)

Lemma executeTool_never_throws_witness :
  known_tool "nonexistent_tool" = false
  /\ Ex.exec "nonexistent_tool" (JObj []) Ex.fresh
     = (error_envelope "Error: Unknown tool: nonexistent_tool", Ex.fresh).
Proof.
  split; [reflexivity | ].
  exact (proj2 (proj2 (executeTool_never_throws MemMap.runtime MemMap.api
                         "nonexistent_tool" (JObj []) Ex.fresh))
           eq_refl).
Defined.

(** The constructor, given a map and no options, builds the fresh instance. *)
Example fresh_is_constructed :
  constructor (Some MemMap.empty) JUndefined = Normal Ex.fresh
  /\ constructor (Some MemMap.empty) (JObj []) = Normal Ex.fresh
  /\ constructor (@None MemMap.state) (JObj [])
     = Throw (Error "Mapbox GL JS map instance is required").
Proof. repeat split. Qed.

(** Two requests for the name "cities" on a fresh instance. *)
Lemma layer_handles_never_repeat_witness :
  List.map layerId
    (fst (Ex.runs [ ("add_points_to_map", Ex.cities);
                    ("add_points_to_map", Ex.cities) ] Ex.fresh))
  = [Some "cities-1"; Some "cities-2"]
  /\ NoDup (handles
              (fst (Ex.runs [ ("add_points_to_map", Ex.cities);
                              ("add_points_to_map", Ex.cities) ] Ex.fresh))).
Proof.
  split; [vm_compute; reflexivity | ].
  apply (layer_handles_never_repeat MemMap.runtime MemMap.api
           [ ("add_points_to_map", Ex.cities); ("add_points_to_map", Ex.cities) ]
           Ex.fresh).
  vm_compute. discriminate.
Defined.

(** C2, as stated, fails: at 2^53 the counter no longer advances. A layer
    added there under the name "cities", removed by its handle and added
    again gets the same handle twice. *)
Lemma handles_repeat_at_the_limit :
  layerCounter Cases.at_the_limit = (2 ^ 53)%N
  /\ List.map layerId
       (fst (Ex.runs
               [ ("add_points_to_map", Ex.cities);
                 ("clear_map_layers",
                  JObj [ ("layerNames", JArr [JStr "cities-9007199254740992"]) ]);
                 ("add_points_to_map", Ex.cities) ]
               Cases.at_the_limit))
     = [Some "cities-9007199254740992"; None; Some "cities-9007199254740992"]
  /\ List.map isError
       (fst (Ex.runs
               [ ("add_points_to_map", Ex.cities);
                 ("clear_map_layers",
                  JObj [ ("layerNames", JArr [JStr "cities-9007199254740992"]) ]);
                 ("add_points_to_map", Ex.cities) ]
               Cases.at_the_limit))
     = [false; false; false].
Proof. vm_compute. repeat split. Qed.

(** C4, as stated, fails: the vector tileset handler is one of the handlers
    that create a layer, yet an invocation with a rejected URL returns an
    error and the counter has not advanced. *)
Lemma rejected_tileset_url_takes_no_tick :
  creates_layer "add_vector_tileset_layer" = true
  /\ isError (fst (Ex.exec "add_vector_tileset_layer" Ex.ftp_tiles Ex.fresh)) = true
  /\ layerCounter (snd (Ex.exec "add_vector_tileset_layer" Ex.ftp_tiles Ex.fresh))
     = layerCounter Ex.fresh
  /\ layerCounter (snd (Ex.exec "add_vector_tileset_layer" Ex.ftp_tiles Ex.fresh))
     <> (layerCounter Ex.fresh + 1)%N.
Proof. vm_compute. repeat split; discriminate. Qed.

(** C5, as stated, fails: a dot is not alphanumeric and is not replaced, so
    the identifier differs from the one obtained by replacing every
    non-alphanumeric character. *)
Lemma dot_survives_in_source_id :
  generateSourceId Ex.streets = "mapbox.mapbox-streets-v8-vector-source"
  /\ source_id_replacing_non_alphanumerics Ex.streets
     = "mapbox-mapbox-streets-v8-vector-source"
  /\ generateSourceId Ex.streets <> source_id_replacing_non_alphanumerics Ex.streets.
Proof. vm_compute. repeat split; discriminate. Qed.

Lemma tileset_source_is_shared_witness :
  sourceId (fst (Ex.exec "add_vector_tileset_layer" Ex.roads Ex.fresh))
  = Some "mapbox.mapbox-streets-v8-vector-source"
  /\ isError (fst (Ex.exec "add_vector_tileset_layer" Ex.labels
                     (snd (Ex.exec "add_vector_tileset_layer" Ex.roads Ex.fresh))))
     = false
  /\ sourceId (fst (Ex.exec "add_vector_tileset_layer" Ex.labels
                      (snd (Ex.exec "add_vector_tileset_layer" Ex.roads Ex.fresh))))
     = Some "mapbox.mapbox-streets-v8-vector-source"
  /\ added_sources
       (calls (snd (Ex.exec "add_vector_tileset_layer" Ex.labels
                      (snd (Ex.exec "add_vector_tileset_layer" Ex.roads Ex.fresh)))))
     = added_sources (calls (snd (Ex.exec "add_vector_tileset_layer" Ex.roads Ex.fresh))).
Proof.
  destruct (tileset_source_is_shared MemMap.runtime Ex.roads Ex.labels Ex.streets
              Ex.fresh eq_refl eq_refl eq_refl)
    as (_ & H1 & _ & H4 & H5 & H6).
  pose proof (H5 _ eq_refl eq_refl eq_refl eq_refl) as Hok.
  exact (conj H1 (conj Hok (conj (proj1 (H6 Hok)) H4))).
Defined.

Lemma point_and_bbox_exclude_each_other_witness :
  Ex.exec "query_rendered_features" Ex.point_and_bbox Ex.fresh
  = (error_envelope
       "Error: Cannot specify both point and bbox parameters. Use one or the other.",
     Ex.fresh).
Proof.
  exact (proj2 (point_and_bbox_exclude_each_other MemMap.runtime MemMap.api
                  Ex.point_and_bbox Ex.fresh eq_refl eq_refl)).
Defined.

Lemma fit_to_bounds_witness :
  Ex.exec "fit_map_to_bounds" Ex.no_coordinates Ex.fresh
  = (error_envelope "Error: No coordinates provided", Ex.fresh)
  /\ calls (snd (Ex.exec "fit_map_to_bounds" Ex.two_corners Ex.fresh))
     = [ CallFitBounds (MemMap.bounds (-3) 2 1 5) (JObj [ ("padding", JS.num 50) ]) ].
Proof.
  split.
  - exact (proj1 (fit_to_bounds MemMap.runtime MemMap.api Ex.no_coordinates Ex.fresh)
             eq_refl).
  - unfold Ex.exec.
    rewrite (proj2 (fit_to_bounds MemMap.runtime MemMap.api Ex.two_corners Ex.fresh)
               (JArr [JNum 1; JNum 2]) [JArr [JNum (-3); JNum 5]] eq_refl).
    reflexivity.
Defined.

(** C7, as stated, fails: a non-empty array whose coordinate the bounds
    class rejects (a latitude of 100) gives the error envelope, and no call
    is made on the engine. *)
Lemma rejected_coordinate_is_not_fitted :
  Ex.exec "fit_map_to_bounds" Cases.beyond_the_pole Ex.fresh
  = (error_envelope
       "Error: Invalid LngLat latitude value: must be between -90 and 90",
     Ex.fresh).
Proof. vm_compute. reflexivity. Qed.


Lemma route_needs_no_minimum_witness :
  isError (fst (Ex.exec "add_route_to_map" Ex.no_coordinates Ex.fresh)) = false
  /\ layerId (fst (Ex.exec "add_route_to_map" Ex.no_coordinates Ex.fresh))
     = Some "route-layer-1"
  /\ layerId (fst (Ex.exec "add_route_to_map" Ex.lone_pair Ex.fresh))
     = Some "route-layer-1".
Proof.
  unfold Ex.exec.
  rewrite (proj1 (route_needs_no_minimum MemMap.runtime MemMap.api Ex.no_coordinates
                    [] Ex.fresh eq_refl)).
  rewrite (proj1 (route_needs_no_minimum MemMap.runtime MemMap.api Ex.lone_pair
                    [JArr [JNum 1; JNum 2]] Ex.fresh eq_refl)).
  repeat split.
Defined.

(** C10, as stated, fails: with a coordinates array and a layer name that
    cannot be converted to text, the call fails without any rejection by
    the engine, and before the tick: no call was made and the counter has
    not moved. *)
Lemma unconvertible_name_stops_the_route :
  JS.isArray (JS.prop Cases.unnamed_route "coordinates") = true
  /\ Ex.exec "add_route_to_map" Cases.unnamed_route Ex.fresh
     = (error_envelope "Error: Cannot convert object to primitive value", Ex.fresh).
Proof. vm_compute. split; reflexivity. Qed.

(** C3. The removal of "all custom layers" goes by identifier, not by what
    the library created. A layer added under the caller's name "cities"
    gets the handle "cities-1", which the sweep does not recognise: it
    reports 0 removed and the layer and its source stay. A layer of the host
    application named "parcels-fill" is recognised, and removed. A layer
    added under the default name is removed, and a second sweep then removes
    nothing and reports no error. *)
Theorem clear_all_goes_by_name :
  (Ex.texts (fst (Ex.runs [ ("add_points_to_map", Ex.cities);
                            ("clear_map_layers", JObj []) ] Ex.fresh))
   = [ "Added 1 points to map layer " ++ quoted "cities-1";
       "Removed 0 layers from the map" ]
   /\ Ex.layer_ids (snd (Ex.runs [ ("add_points_to_map", Ex.cities);
                                   ("clear_map_layers", JObj []) ] Ex.fresh))
      = ["cities-1"]
   /\ Ex.source_ids (snd (Ex.runs [ ("add_points_to_map", Ex.cities);
                                    ("clear_map_layers", JObj []) ] Ex.fresh))
      = ["cities-1"])
  /\ (Ex.layer_ids (MemMap.instance Ex.host_map) = ["parcels-fill"]
      /\ Ex.texts (fst (Ex.runs [ ("clear_map_layers", JObj []) ]
                          (MemMap.instance Ex.host_map)))
         = ["Removed 1 layers from the map"]
      /\ Ex.layer_ids (snd (Ex.runs [ ("clear_map_layers", JObj []) ]
                              (MemMap.instance Ex.host_map)))
         = [])
  /\ (Ex.texts (fst (Ex.runs [ ("add_points_to_map", Ex.default_points);
                               ("clear_map_layers", JObj []);
                               ("clear_map_layers", JObj []) ] Ex.fresh))
      = [ "Added 1 points to map layer " ++ quoted "points-layer-1";
          "Removed 1 layers from the map";
          "Removed 0 layers from the map" ]
      /\ List.map isError
           (fst (Ex.runs [ ("add_points_to_map", Ex.default_points);
                           ("clear_map_layers", JObj []);
                           ("clear_map_layers", JObj []) ] Ex.fresh))
         = [false; false; false]).
Proof. vm_compute. repeat split. Qed.

(** C9. Passing the handle that add_polygon_to_map returned to
    clear_map_layers removes neither of the polygon's layers: the handle
    names the source, the layers are the handle followed by "-fill" and
    "-stroke", and only the names given are looked up. No removeLayer call
    is made, 0 layers are reported removed, and the engine keeps the source
    because its two layers still use it. For a points layer the same two
    invocations remove the layer and its source. *)
Theorem clear_by_handle_misses_polygon :
  (List.map layerId
     (fst (Ex.runs [ ("add_polygon_to_map", Ex.polygon) ] Ex.fresh))
   = [Some "polygon-layer-1"]
   /\ Ex.texts
        (fst (Ex.runs
                [ ("add_polygon_to_map", Ex.polygon);
                  ("clear_map_layers",
                   JObj [ ("layerNames", JArr [JStr "polygon-layer-1"]) ]) ]
                Ex.fresh))
      = [ "Added polygon to map layer " ++ quoted "polygon-layer-1";
          "Removed 0 layers from the map" ]
   /\ Ex.layer_ids
        (snd (Ex.runs
                [ ("add_polygon_to_map", Ex.polygon);
                  ("clear_map_layers",
                   JObj [ ("layerNames", JArr [JStr "polygon-layer-1"]) ]) ]
                Ex.fresh))
      = ["polygon-layer-1-fill"; "polygon-layer-1-stroke"]
   /\ Ex.source_ids
        (snd (Ex.runs
                [ ("add_polygon_to_map", Ex.polygon);
                  ("clear_map_layers",
                   JObj [ ("layerNames", JArr [JStr "polygon-layer-1"]) ]) ]
                Ex.fresh))
      = ["polygon-layer-1"]
   /\ removed_layers
        (calls
           (snd (Ex.runs
                   [ ("add_polygon_to_map", Ex.polygon);
                     ("clear_map_layers",
                      JObj [ ("layerNames", JArr [JStr "polygon-layer-1"]) ]) ]
                   Ex.fresh)))
      = [])
  /\ (Ex.texts
        (fst (Ex.runs
                [ ("add_points_to_map", Ex.default_points);
                  ("clear_map_layers",
                   JObj [ ("layerNames", JArr [JStr "points-layer-1"]) ]) ]
                Ex.fresh))
      = [ "Added 1 points to map layer " ++ quoted "points-layer-1";
          "Removed 1 layers from the map" ]
      /\ Ex.layer_ids
           (snd (Ex.runs
                   [ ("add_points_to_map", Ex.default_points);
                     ("clear_map_layers",
                      JObj [ ("layerNames", JArr [JStr "points-layer-1"]) ]) ]
                   Ex.fresh))
         = []
      /\ Ex.source_ids
           (snd (Ex.runs
                   [ ("add_points_to_map", Ex.default_points);
                     ("clear_map_layers",
                      JObj [ ("layerNames", JArr [JStr "points-layer-1"]) ]) ]
                   Ex.fresh))
         = []).
Proof. vm_compute. repeat split. Qed.

(** ** Further properties of the handlers *)

(** *** The call log *)

Lemma logs_run {E A : Type} (P : Call -> Prop) (m : M E A) (t : MapboxMapTools E) :
  logs P m ->
  exists delta : list Call,
    calls (snd (m t)) = (calls t ++ delta)%list /\ Forall P delta.
Proof. intros H. apply H. Qed.

Lemma Forall_take (A : Type) (P : A -> Prop) (n : nat) (l : list A) :
  Forall P l -> Forall P (firstn n l).
Proof.
  intros H. revert n. induction H as [| x l Hx Hl IH]; intros [| n]; simpl;
    constructor; auto.
Qed.

(** Case analysis on the engine's answer to the next call in the goal. *)
Ltac engine_answers :=
  match goal with
  | |- context [MapAPI.addSource ?eng ?n ?s ?m] =>
      destruct (MapAPI.addSource eng n s m) as [? | ?]
  | |- context [MapAPI.addLayer ?eng ?l ?m] =>
      destruct (MapAPI.addLayer eng l m) as [? | ?]
  | |- context [MapAPI.getSource ?eng ?n ?m] =>
      destruct (MapAPI.getSource eng n m) as [? | ?]
  end.

Section Preserved.
Context {E X : Type}.
Variable proj : MapboxMapTools E -> X.

Lemma preserves_ret (A : Type) (a : A) : preserves proj (@ret E A a).
Proof. intro t. reflexivity. Qed.

Lemma preserves_throw (A : Type) (e : Exn) : preserves proj (@throw E A e).
Proof. intro t. reflexivity. Qed.

Lemma preserves_lift (A : Type) (c : Completion A) : preserves proj (@lift E A c).
Proof. intro t. reflexivity. Qed.

Lemma preserves_bind (A B : Type) (m : M E A) (k : A -> M E B) :
  preserves proj m -> (forall a, preserves proj (k a)) -> preserves proj (bind m k).
Proof.
  intros Hm Hk t. unfold bind.
  specialize (Hm t). destruct (m t) as [[a | e] t']; simpl in *.
  - rewrite Hk. exact Hm.
  - exact Hm.
Qed.

Lemma preserves_when (b : bool) (m : M E unit) :
  preserves proj m -> preserves proj (when b m).
Proof. intros Hm. destruct b; simpl; [exact Hm | apply preserves_ret]. Qed.

Lemma preserves_forEach (A : Type) (f : A -> M E unit) (l : list A) :
  (forall x, preserves proj (f x)) -> preserves proj (forEach f l).
Proof.
  intros Hf. induction l as [| x r IH]; simpl.
  - apply preserves_ret.
  - apply preserves_bind; [apply Hf | intros _; exact IH].
Qed.

Lemma preserves_foldM (A B : Type) (f : B -> A -> M E B) (acc : B) (l : list A) :
  (forall b x, preserves proj (f b x)) -> preserves proj (foldM f acc l).
Proof.
  intros Hf. revert acc. induction l as [| x r IH]; intros acc; simpl.
  - apply preserves_ret.
  - apply preserves_bind; [apply Hf | intros b; apply IH].
Qed.

Lemma preserves_this_options : preserves proj (@this_options E).
Proof. intro t. reflexivity. Qed.

End Preserved.

Lemma options_mutate (E : Type) (c : Call) (f : E -> Completion E) :
  preserves options (mutate c f).
Proof. intro t. unfold mutate. destruct (f (map t)); reflexivity. Qed.

Lemma options_query (E A : Type) (c : Call) (f : E -> Completion A) :
  preserves options (query c f).
Proof. intro t. reflexivity. Qed.

Lemma options_incr (E : Type) : preserves options (@incr_layerCounter E).
Proof. intro t. reflexivity. Qed.

Lemma map_query (E A : Type) (c : Call) (f : E -> Completion A) :
  preserves map (query c f).
Proof. intro t. reflexivity. Qed.

Ltac preserves_step :=
  lazymatch goal with
  | |- preserves _ (bind _ _) => apply preserves_bind; [ | intro ]
  | |- preserves _ (ret _) => apply preserves_ret
  | |- preserves _ (throw _) => apply preserves_throw
  | |- preserves _ (lift _) => apply preserves_lift
  | |- preserves _ (when _ _) => apply preserves_when
  | |- preserves _ (forEach _ _) => apply preserves_forEach; intro
  | |- preserves _ (foldM _ _ _) => apply preserves_foldM; intros
  | |- preserves options (mutate _ _) => apply options_mutate
  | |- preserves options (query _ _) => apply options_query
  | |- preserves options incr_layerCounter => apply options_incr
  | |- preserves map (query _ _) => apply map_query
  | |- preserves _ this_options => apply preserves_this_options
  | |- preserves _ (if ?b then _ else _) => destruct b
  | |- preserves _ (match ?x with _ => _ end) => destruct x
  | |- preserves _ _ => progress (cbv zeta; autounfold with tools)
  end.

Section Footprint.
Variable rt : JsRuntime.
Context {E : Type}.
Variable eng : MapAPI.t E.

Lemma dispatch_options (toolName : string) (args : Js) :
  preserves options (dispatch rt eng toolName args).
Proof.
  unfold dispatch, addPointsToMap, addRouteToMap, panMapToLocation,
    fitMapToBounds, addPolygonToMap, clearMapLayers, setMapStyle,
    addVectorTilesetLayer, queryRenderedFeatures, querySourceFeatures,
    unique_name.
  repeat preserves_step.
Qed.

Lemma executeTool_options (toolName : string) (args : Js) (t : MapboxMapTools E) :
  options (snd (executeTool rt eng toolName args t)) = options t.
Proof. rewrite executeTool_snd. apply dispatch_options. Qed.

(** X1. No sequence of tool invocations changes the options of the
    instance: they are read, never written, whatever the engine answers. *)
Theorem options_never_change
  (invocations : list (string * Js)) (t : MapboxMapTools E) :
  options (snd (run rt eng invocations t)) = options t.
Proof.
  revert t. induction invocations as [| [toolName args] rest IH]; intros t; simpl.
  - reflexivity.
  - pose proof (executeTool_options toolName args t) as H.
    destruct (executeTool rt eng toolName args t) as [env t1]. simpl in H.
    specialize (IH t1). destruct (run rt eng rest t1) as [envs t2]. simpl in *.
    now rewrite IH.
Qed.

Lemma queryRenderedFeatures_map (args : Js) :
  preserves map (queryRenderedFeatures rt eng args).
Proof. unfold queryRenderedFeatures. repeat preserves_step. Qed.

Lemma querySourceFeatures_map (args : Js) :
  preserves map (querySourceFeatures rt eng args).
Proof. unfold querySourceFeatures. repeat preserves_step. Qed.

(** X2. The two query tools leave the engine's state and the layer
    counter as they found them, whatever the arguments and whatever the
    engine answers. *)
Theorem queries_leave_the_map_alone (args : Js) (t : MapboxMapTools E) :
  (map (snd (executeTool rt eng "query_rendered_features" args t)) = map t
   /\ layerCounter (snd (executeTool rt eng "query_rendered_features" args t))
      = layerCounter t)
  /\ (map (snd (executeTool rt eng "query_source_features" args t)) = map t
      /\ layerCounter (snd (executeTool rt eng "query_source_features" args t))
         = layerCounter t).
Proof.
  rewrite !executeTool_snd.
  change (dispatch rt eng "query_rendered_features" args)
    with (queryRenderedFeatures rt eng args).
  change (dispatch rt eng "query_source_features" args)
    with (querySourceFeatures rt eng args).
  repeat split.
  - apply queryRenderedFeatures_map.
  - apply queryRenderedFeatures_keeps.
  - apply querySourceFeatures_map.
  - apply querySourceFeatures_keeps.
Qed.

(** X3. With [undefined] or [null] for its arguments, every tool of the
    catalog (and every other name) gives an error envelope, and the
    instance, the engine and the call log are unchanged. *)
Theorem missing_args_change_nothing
  (toolName : string) (args : Js) (t : MapboxMapTools E) :
  JS.nullish args = true ->
  isError (fst (executeTool rt eng toolName args t)) = true
  /\ snd (executeTool rt eng toolName args t) = t.
Proof.
  intros Hn. unfold executeTool.
  assert (H : exists e, dispatch rt eng toolName args t = (Throw e, t)).
  { tool_cases toolName;
      try (unfold addPointsToMap, addRouteToMap, panMapToLocation, fitMapToBounds,
             addPolygonToMap, clearMapLayers, setMapStyle, addVectorTilesetLayer,
             queryRenderedFeatures, querySourceFeatures;
           rewrite after_destructure, Hn);
      eexists; reflexivity. }
  destruct H as [e ->]. split; reflexivity.
Qed.

Ltac footprint_step :=
  lazymatch goal with
  | |- logs _ (bind _ _) => apply logs_bind; [ | intro ]
  | |- logs _ (ret _) => apply logs_ret
  | |- logs _ (throw _) => apply logs_throw
  | |- logs _ (lift _) => apply logs_lift
  | |- logs _ (when _ _) => apply logs_when
  | |- logs _ (forEach _ _) => apply logs_forEach; intros ? ?
  | |- logs _ (foldM _ _ _) => apply logs_foldM; intros ? ? ?
  | |- logs _ (mutate _ _) => apply logs_mutate; reflexivity
  | |- logs _ (query _ _) => apply logs_query; reflexivity
  | |- logs _ this_options => intro; exists []; split; [symmetry; apply List.app_nil_r | constructor]
  | |- logs _ incr_layerCounter => intro; exists []; split; [symmetry; apply List.app_nil_r | constructor]
  | |- logs _ (if ?b then _ else _) => destruct b
  | |- logs _ (match ?x with _ => _ end) => destruct x
  | |- logs _ _ => progress (cbv zeta; autounfold with tools)
  end.

Lemma dispatch_footprint (toolName : string) (args : Js) :
  logs (allowed toolName) (dispatch rt eng toolName args).
Proof.
  tool_cases toolName;
    unfold addPointsToMap, addRouteToMap, panMapToLocation, fitMapToBounds,
      addPolygonToMap, clearMapLayers, setMapStyle, addVectorTilesetLayer,
      queryRenderedFeatures, querySourceFeatures, unique_name;
    repeat footprint_step.
Qed.

(** X4. Each tool only calls the methods of the map that belong to it:
    the four add tools addSource and addLayer (add points also [on], the
    vector tool also getSource), pan the camera calls flyTo, setCenter and
    setZoom, fit bounds fitBounds, set style setStyle, clear the removals
    and the getters, and each query tool its own query (the source query
    also getSource and getStyle). An unknown name makes no call. *)
Theorem tools_keep_to_their_calls
  (toolName : string) (args : Js) (t : MapboxMapTools E) :
  exists delta : list Call,
    calls (snd (executeTool rt eng toolName args t)) = (calls t ++ delta)%list
    /\ Forall (allowed toolName) delta.
Proof. rewrite executeTool_snd. apply dispatch_footprint. Qed.

End Footprint.

Section CameraAndValidation.
Variable rt : JsRuntime.
Context {E : Type}.
Variable eng : MapAPI.t E.

Lemma truthy_defined (v : Js) (k : string) :
  JS.truthy (JS.prop v k) = true -> JS.nullish v = false.
Proof.
  intros H. apply prop_defined with (k := k). intros Hu. now rewrite Hu in H.
Qed.

(** X5. pan_map_to_location with numeric coordinates and [animate] left
    out or truthy makes one call, flyTo, with the center as
    [[longitude, latitude]], the zoom defaulting to 12 and a duration of
    2000 ms. When the engine accepts it, the result is the success text,
    or, for a zoom that cannot be converted to text, the error of the
    conversion, with the camera moved in either case; when the engine
    rejects it, the result is the engine's error. *)
Theorem pan_flies_by_default (args : Js) (lat lon : Q) (t : MapboxMapTools E) :
  JS.prop args "latitude" = JNum lat ->
  JS.prop args "longitude" = JNum lon ->
  JS.truthy (JS.default (JS.prop args "animate") (JBool true)) = true ->
  let zoom := JS.default (JS.prop args "zoom") (JS.num 12) in
  let camera :=
    JObj [ ("center", JArr [JNum lon; JNum lat]);
           ("zoom", zoom);
           ("duration", JS.num 2000) ] in
  executeTool rt eng "pan_map_to_location" args t
  = match MapAPI.flyTo eng camera (map t) with
    | Normal m =>
        (match to_string rt zoom with
         | Normal level =>
             envelope ("Map centered on " ++ number_toFixed rt lat 4 ++ ", "
                       ++ number_toFixed rt lon 4 ++ " at zoom level " ++ level)
         | Throw e => error_envelope ("Error: " ++ message e)
         end,
         {| map := m; calls := calls t ++ [CallFlyTo camera];
            options := options t; layerCounter := layerCounter t |})
    | Throw e =>
        (error_envelope ("Error: " ++ message e), record (CallFlyTo camera) t)
    end.
Proof.
  intros Hlat Hlon Ha zoom camera.
  assert (Hn : JS.nullish args = false).
  { apply prop_defined with (k := "latitude"). rewrite Hlat. discriminate. }
  unfold executeTool.
  change (dispatch rt eng "pan_map_to_location" args t)
    with (panMapToLocation rt eng args t).
  unfold panMapToLocation. rewrite after_destructure, Hn. cbv zeta.
  rewrite Ha, Hlat, Hlon. unfold map_flyTo. rewrite bind_mutate.
  fold zoom. fold camera.
  destruct (MapAPI.flyTo eng camera (map t)); [ | reflexivity].
  rewrite !bind_lift. cbn [toFixed]. rewrite bind_lift.
  destruct (to_string rt zoom); reflexivity.
Qed.

(** X6. pan_map_to_location with a falsy [animate] calls setCenter and then
    setZoom. When setZoom is rejected the center has already moved: the
    error envelope comes with the engine in the state after setCenter. When
    both are accepted the result is the success text, or, for a zoom that
    cannot be converted to text, the error of the conversion. *)
Theorem pan_jumps_when_asked (args : Js) (lat lon : Q) (t : MapboxMapTools E) :
  JS.prop args "latitude" = JNum lat ->
  JS.prop args "longitude" = JNum lon ->
  JS.truthy (JS.default (JS.prop args "animate") (JBool true)) = false ->
  let zoom := JS.default (JS.prop args "zoom") (JS.num 12) in
  let center := JArr [JNum lon; JNum lat] in
  executeTool rt eng "pan_map_to_location" args t
  = match MapAPI.setCenter eng center (map t) with
    | Throw e =>
        (error_envelope ("Error: " ++ message e), record (CallSetCenter center) t)
    | Normal m1 =>
        match MapAPI.setZoom eng zoom m1 with
        | Throw e =>
            (error_envelope ("Error: " ++ message e),
             {| map := m1; calls := calls t ++ [CallSetCenter center; CallSetZoom zoom];
                options := options t; layerCounter := layerCounter t |})
        | Normal m2 =>
            (match to_string rt zoom with
             | Normal level =>
                 envelope ("Map centered on " ++ number_toFixed rt lat 4 ++ ", "
                           ++ number_toFixed rt lon 4 ++ " at zoom level " ++ level)
             | Throw e => error_envelope ("Error: " ++ message e)
             end,
             {| map := m2; calls := calls t ++ [CallSetCenter center; CallSetZoom zoom];
                options := options t; layerCounter := layerCounter t |})
        end
    end.
Proof.
  intros Hlat Hlon Ha zoom center.
  assert (Hn : JS.nullish args = false).
  { apply prop_defined with (k := "latitude"). rewrite Hlat. discriminate. }
  unfold executeTool.
  change (dispatch rt eng "pan_map_to_location" args t)
    with (panMapToLocation rt eng args t).
  unfold panMapToLocation. rewrite after_destructure, Hn. cbv zeta.
  rewrite Ha, Hlat, Hlon. unfold map_setCenter, map_setZoom.
  rewrite bind_bind, bind_mutate. fold zoom. fold center.
  destruct (MapAPI.setCenter eng center (map t)) as [m1 | e]; [ | reflexivity].
  rewrite bind_mutate. cbn [map].
  destruct (MapAPI.setZoom eng zoom m1) as [m2 | e].
  - rewrite !bind_lift. cbn [toFixed]. rewrite bind_lift.
    cbn [map calls options layerCounter]. rewrite log2.
    destruct (to_string rt zoom); reflexivity.
  - unfold record. cbn [map calls options layerCounter]. rewrite log2. reflexivity.
Qed.

(** X7. pan_map_to_location moves the camera before it formats its
    answer: with a latitude that is not a number (a string, say) and an
    engine that accepts the flyTo, the result is an error envelope and yet
    the engine has received the flyTo. *)
Theorem pan_moves_before_it_fails (args : Js) (m : E) (t : MapboxMapTools E) :
  JS.nullish args = false ->
  JS.is_number (JS.prop args "latitude") = false ->
  JS.truthy (JS.default (JS.prop args "animate") (JBool true)) = true ->
  let camera :=
    JObj [ ("center", JArr [JS.prop args "longitude"; JS.prop args "latitude"]);
           ("zoom", JS.default (JS.prop args "zoom") (JS.num 12));
           ("duration", JS.num 2000) ] in
  MapAPI.flyTo eng camera (map t) = Normal m ->
  isError (fst (executeTool rt eng "pan_map_to_location" args t)) = true
  /\ snd (executeTool rt eng "pan_map_to_location" args t)
     = {| map := m; calls := calls t ++ [CallFlyTo camera];
          options := options t; layerCounter := layerCounter t |}.
Proof.
  intros Hn Hlat Ha camera Hfly.
  unfold executeTool.
  change (dispatch rt eng "pan_map_to_location" args t)
    with (panMapToLocation rt eng args t).
  unfold panMapToLocation. rewrite after_destructure, Hn. cbv zeta.
  rewrite Ha. unfold map_flyTo. rewrite bind_mutate. fold camera. rewrite Hfly.
  rewrite bind_lift.
  destruct (JS.prop args "latitude"); try discriminate; split; reflexivity.
Qed.

(** X8. set_map_style does not check the style against the list of its
    schema: for every arguments object whose style can be converted to
    text, the one call is setStyle on "mapbox://styles/mapbox/" followed by
    that text; a style that cannot be converted ends the call before the
    engine is asked. *)
Theorem style_is_passed_unchecked (args : Js) (t : MapboxMapTools E) :
  JS.nullish args = false ->
  executeTool rt eng "set_map_style" args t
  = match to_string rt (JS.prop args "style") with
    | Throw e => (error_envelope ("Error: " ++ message e), t)
    | Normal style =>
        let url := "mapbox://styles/mapbox/" ++ style in
        match MapAPI.setStyle eng url (map t) with
        | Normal m =>
            (envelope ("Changed map style to " ++ style),
             {| map := m; calls := calls t ++ [CallSetStyle url];
                options := options t; layerCounter := layerCounter t |})
        | Throw e =>
            (error_envelope ("Error: " ++ message e), record (CallSetStyle url) t)
        end
    end.
Proof.
  intros Hn. unfold executeTool.
  change (dispatch rt eng "set_map_style" args t) with (setMapStyle rt eng args t).
  unfold setMapStyle. rewrite after_destructure, Hn. cbv zeta.
  rewrite bind_lift.
  destruct (to_string rt (JS.prop args "style")) as [style | e] eqn:Hs;
    [ | reflexivity].
  unfold map_setStyle. rewrite bind_mutate.
  destruct (MapAPI.setStyle eng _ (map t)); [ | reflexivity].
  rewrite bind_lift. reflexivity.
Qed.

(** X9. query_rendered_features with a point whose [x] or [y] is not a
    number is refused before the engine is asked: the error envelope names
    the expected shape and the instance is unchanged. *)
Theorem bad_point_stops_the_query (args : Js) (t : MapboxMapTools E) :
  JS.truthy (JS.prop args "point") = true ->
  JS.truthy (JS.prop args "bbox") = false ->
  JS.is_number (JS.prop (JS.prop args "point") "x")
  && JS.is_number (JS.prop (JS.prop args "point") "y") = false ->
  executeTool rt eng "query_rendered_features" args t
  = (error_envelope "Error: Invalid point coordinates. Expected {x: number, y: number}.",
     t).
Proof.
  intros Hp Hb Hxy.
  pose proof (truthy_defined _ _ Hp) as Hn.
  unfold executeTool.
  change (dispatch rt eng "query_rendered_features" args t)
    with (queryRenderedFeatures rt eng args t).
  unfold queryRenderedFeatures. rewrite after_destructure, Hn. cbv zeta.
  rewrite Hp, Hb. cbn [andb]. rewrite bind_lift. unfold query_geometry.
  rewrite Hp. rewrite <- negb_andb, Hxy. reflexivity.
Qed.

(** X10. query_rendered_features with a [bbox] that is not an array of
    exactly four elements is refused before the engine is asked, and the
    instance is unchanged. *)
Theorem bad_bbox_stops_the_query (args : Js) (t : MapboxMapTools E) :
  JS.truthy (JS.prop args "point") = false ->
  JS.truthy (JS.prop args "bbox") = true ->
  four_elements (JS.prop args "bbox") = false ->
  executeTool rt eng "query_rendered_features" args t
  = (error_envelope "Error: Invalid bbox format. Expected [x1, y1, x2, y2].", t).
Proof.
  intros Hp Hb H4.
  pose proof (truthy_defined _ _ Hb) as Hn.
  unfold executeTool.
  change (dispatch rt eng "query_rendered_features" args t)
    with (queryRenderedFeatures rt eng args t).
  unfold queryRenderedFeatures. rewrite after_destructure, Hn. cbv zeta.
  rewrite Hp, Hb. cbn [andb]. rewrite bind_lift. unfold query_geometry.
  rewrite Hp, Hb.
  destruct (JS.prop args "bbox") as [| | | | | l |]; try reflexivity.
  destruct l as [| a [| b [| c [| d [| e l]]]]]; try reflexivity. discriminate.
Qed.

End CameraAndValidation.

Section Queries.
Variable rt : JsRuntime.
Context {E : Type}.
Variable eng : MapAPI.t E.

Lemma slice_num (A : Type) (l : list A) (n : N) :
  slice_to rt l (JS.num n) = Normal (firstn (N.to_nat n) l).
Proof.
  unfold slice_to, to_number, JS.num, inject_Z. cbn [Qnum Qden].
  rewrite Z.quot_1_r.
  replace (Z.of_N n <? 0)%Z with false by (symmetry; apply Z.ltb_ge; lia).
  do 2 f_equal. lia.
Qed.

Lemma logs_after_lift (P : Call -> Prop) (A B : Type) (x : A) (k : A -> M E B) :
  logs P (k x) -> logs P (bind (lift (Normal x)) k).
Proof. intros H t. exact (H t). Qed.

Lemma map_from_strip_source (l : list Js) (i : N) :
  Forall (fun f => JS.nullish f = false) l ->
  exists l', map_from (strip_source rt) i l = Normal l' /\ Forall2 stripped l l'.
Proof.
  intros H. revert i. induction H as [| f l Hf Hl IH]; intros i; simpl.
  - exists []. split; [reflexivity | constructor].
  - unfold strip_source at 1, JS.get. rewrite Hf.
    destruct (IH (N.succ i)) as (l' & -> & HF). eexists. split; [reflexivity | ].
    constructor; [ | exact HF]. repeat split.
Qed.

(** X13. query_source_features on a known source that is not a vector
    source, named by a string, with a source layer that can be converted
    to text, returns, with geometry included, the first [limit] features
    the engine found, in the engine's order; the limit defaults to 1000. *)
Theorem source_query_is_cut_at_the_limit
  (args src : Js) (id : string) (found : list Js) (n : N) (t : MapboxMapTools E) :
  JS.prop args "sourceId" = JStr id ->
  MapAPI.getSource eng (JStr id) (map t) = Normal src ->
  JS.truthy src = true ->
  JS.is_string "vector" (JS.prop src "type") = false ->
  JS.default (JS.prop args "limit") (JS.num 1000) = JS.num n ->
  JS.truthy (JS.default (JS.prop args "includeGeometry") (JBool true)) = true ->
  converts (to_string rt (JS.prop args "sourceLayer")) = true ->
  MapAPI.querySourceFeatures eng (JStr id)
    (JObj (set_if (JS.truthy (JS.prop args "filter")) "filter" (JS.prop args "filter")
             (set_if (JS.truthy (JS.prop args "sourceLayer")) "sourceLayer"
                (JS.prop args "sourceLayer") [])))
    (map t) = Normal found ->
  isError (fst (executeTool rt eng "query_source_features" args t)) = false
  /\ data (fst (executeTool rt eng "query_source_features" args t))
     = Some (feature_collection (firstn (N.to_nat n) found)).
Proof.
  intros Hid Hs Ht Hv Hl Hg Hc Hq.
  assert (Hn : JS.nullish args = false).
  { apply prop_defined with (k := "sourceId"). rewrite Hid. discriminate. }
  unfold executeTool.
  change (dispatch rt eng "query_source_features" args t)
    with (querySourceFeatures rt eng args t).
  unfold querySourceFeatures. rewrite after_destructure, Hn. cbv zeta.
  unfold map_getSource, map_querySourceFeatures.
  rewrite Hid, bind_query, Hs, Ht. cbn [negb]. rewrite Hv. cbn [andb].
  rewrite bind_query. cbn [map record]. rewrite Hq, Hl, bind_lift, slice_num, Hg.
  rewrite bind_ret, bind_lift. cbn [to_string].
  destruct (to_string rt (JS.prop args "sourceLayer")) as [shown | e];
    [ | discriminate Hc].
  destruct (JS.truthy (JS.prop args "sourceLayer"));
    rewrite ?bind_bind, ?bind_lift, ?bind_ret; split; reflexivity.
Qed.

(** X14. query_source_features with [includeGeometry] false, on a source
    named by a string and with a source layer that can be converted to
    text, returns one feature per feature found (up to the limit), each
    with the type, the properties, the source and the source layer of the
    original and without a geometry. *)
Theorem source_query_can_drop_geometry
  (args src : Js) (id : string) (found : list Js) (n : N) (t : MapboxMapTools E) :
  JS.prop args "sourceId" = JStr id ->
  MapAPI.getSource eng (JStr id) (map t) = Normal src ->
  JS.truthy src = true ->
  JS.is_string "vector" (JS.prop src "type") = false ->
  JS.default (JS.prop args "limit") (JS.num 1000) = JS.num n ->
  JS.truthy (JS.default (JS.prop args "includeGeometry") (JBool true)) = false ->
  converts (to_string rt (JS.prop args "sourceLayer")) = true ->
  MapAPI.querySourceFeatures eng (JStr id)
    (JObj (set_if (JS.truthy (JS.prop args "filter")) "filter" (JS.prop args "filter")
             (set_if (JS.truthy (JS.prop args "sourceLayer")) "sourceLayer"
                (JS.prop args "sourceLayer") [])))
    (map t) = Normal found ->
  Forall (fun f => JS.nullish f = false) found ->
  exists features : list Js,
    isError (fst (executeTool rt eng "query_source_features" args t)) = false
    /\ data (fst (executeTool rt eng "query_source_features" args t))
       = Some (feature_collection features)
    /\ Forall2 stripped (firstn (N.to_nat n) found) features.
Proof.
  intros Hid Hs Ht Hv Hl Hg Hc Hq Hf.
  assert (Hn : JS.nullish args = false).
  { apply prop_defined with (k := "sourceId"). rewrite Hid. discriminate. }
  unfold executeTool.
  change (dispatch rt eng "query_source_features" args t)
    with (querySourceFeatures rt eng args t).
  unfold querySourceFeatures. rewrite after_destructure, Hn. cbv zeta.
  unfold map_getSource, map_querySourceFeatures.
  rewrite Hid, bind_query, Hs, Ht. cbn [negb]. rewrite Hv. cbn [andb].
  rewrite bind_query. cbn [map record]. rewrite Hq, Hl, bind_lift, slice_num, Hg.
  destruct (map_from_strip_source (firstn (N.to_nat n) found) 0) as (l' & Hm & HF).
  { now apply Forall_take. }
  rewrite bind_lift, Hm, bind_lift. cbn [to_string].
  exists l'.
  destruct (to_string rt (JS.prop args "sourceLayer")) as [shown | e];
    [ | discriminate Hc].
  destruct (JS.truthy (JS.prop args "sourceLayer"));
    rewrite ?bind_bind, ?bind_lift, ?bind_ret; repeat split; exact HF.
Qed.

(** X15. query_source_features on a source the engine does not know asks
    the engine for its style and answers with an error envelope: the one
    that lists the sources available, after the text of the source id, or,
    for a source id that cannot be converted to text, the error of the
    conversion. The features are never queried. *)
Theorem unknown_source_is_reported
  (args src : Js) (style : Style) (t : MapboxMapTools E) :
  JS.nullish args = false ->
  MapAPI.getSource eng (JS.prop args "sourceId") (map t) = Normal src ->
  JS.truthy src = false ->
  MapAPI.getStyle eng (map t) = Normal style ->
  executeTool rt eng "query_source_features" args t
  = (error_envelope
       ("Error: "
        ++ match to_string rt (JS.prop args "sourceId") with
           | Normal idText => source_not_found idText (style_sources style)
           | Throw e => message e
           end),
     {| map := map t;
        calls := calls t ++ [CallGetSource (JS.prop args "sourceId"); CallGetStyle];
        options := options t; layerCounter := layerCounter t |}).
Proof.
  intros Hn Hs Ht Hst. unfold executeTool.
  change (dispatch rt eng "query_source_features" args t)
    with (querySourceFeatures rt eng args t).
  unfold querySourceFeatures. rewrite after_destructure, Hn. cbv zeta.
  unfold map_getSource, map_getStyle.
  rewrite bind_query, Hs, Ht. cbn [negb]. rewrite bind_query. cbn [map record].
  rewrite Hst, bind_lift.
  destruct (to_string rt (JS.prop args "sourceId")); unfold throw, record;
    cbn [calls map options layerCounter fst snd]; rewrite <- List.app_assoc;
    reflexivity.
Qed.

(** X16. query_source_features on a vector source without a [sourceLayer]
    is refused after the one getSource call, with the message that the
    parameter is required. *)
Theorem vector_source_needs_a_source_layer
  (args src : Js) (t : MapboxMapTools E) :
  JS.nullish args = false ->
  MapAPI.getSource eng (JS.prop args "sourceId") (map t) = Normal src ->
  JS.truthy src = true ->
  JS.prop src "type" = JStr "vector" ->
  JS.truthy (JS.prop args "sourceLayer") = false ->
  executeTool rt eng "query_source_features" args t
  = (error_envelope "Error: sourceLayer parameter is required for vector tile sources",
     record (CallGetSource (JS.prop args "sourceId")) t).
Proof.
  intros Hn Hs Ht Hv Hl. unfold executeTool.
  change (dispatch rt eng "query_source_features" args t)
    with (querySourceFeatures rt eng args t).
  unfold querySourceFeatures. rewrite after_destructure, Hn. cbv zeta.
  unfold map_getSource.
  rewrite bind_query, Hs, Ht, Hv, Hl. reflexivity.
Qed.

(** X11. The four elements of a [bbox] are not checked to be numbers. The
    handler first compares the length of [layers] with 0: when that
    comparison throws, the call ends with its error and the engine is not
    asked; otherwise any four values are passed to the engine as the two
    corners [[[x1, y1], [x2, y2]]], in one call, with the layers among
    the options when the list is not empty. *)
Theorem bbox_elements_are_not_checked
  (args x1 y1 x2 y2 : Js) (t : MapboxMapTools E) :
  JS.truthy (JS.prop args "point") = false ->
  JS.prop args "bbox" = JArr [x1; y1; x2; y2] ->
  match listed rt (JS.prop args "layers") with
  | Throw e =>
      executeTool rt eng "query_rendered_features" args t
      = (error_envelope ("Error: " ++ message e), t)
  | Normal withLayers =>
      calls (snd (executeTool rt eng "query_rendered_features" args t))
      = (calls t
         ++ [CallQueryRenderedFeatures
               (JArr [JArr [x1; y1]; JArr [x2; y2]])
               (JObj (set_if (JS.truthy (JS.prop args "filter")) "filter"
                        (JS.prop args "filter")
                        (set_if withLayers "layers" (JS.prop args "layers") [])))])%list
  end.
Proof.
  intros Hp Hb.
  assert (Hn : JS.nullish args = false).
  { apply prop_defined with (k := "bbox"). rewrite Hb. discriminate. }
  destruct (listed rt (JS.prop args "layers")) as [withLayers | e] eqn:Hl.
  - rewrite executeTool_snd.
    change (dispatch rt eng "query_rendered_features" args t)
      with (queryRenderedFeatures rt eng args t).
    unfold queryRenderedFeatures. rewrite after_destructure, Hn. cbv zeta.
    rewrite Hp, Hb. cbn [JS.truthy andb]. rewrite bind_lift. unfold query_geometry.
    rewrite Hp. cbn [JS.truthy]. rewrite bind_lift, Hl.
    unfold map_queryRenderedFeatures. rewrite bind_query.
    match goal with
    | |- context [MapAPI.queryRenderedFeatures eng ?g ?o (map t)] =>
        destruct (MapAPI.queryRenderedFeatures eng g o (map t)) as [found | e];
        [ | reflexivity]
    end.
    match goal with
    | |- calls (snd (?m ?s)) = _ =>
        assert (H : preserves calls m) by (repeat preserves_step); rewrite H
    end.
    reflexivity.
  - unfold executeTool.
    change (dispatch rt eng "query_rendered_features" args t)
      with (queryRenderedFeatures rt eng args t).
    unfold queryRenderedFeatures. rewrite after_destructure, Hn. cbv zeta.
    rewrite Hp, Hb. cbn [JS.truthy andb]. rewrite bind_lift. unfold query_geometry.
    rewrite Hp. cbn [JS.truthy]. rewrite bind_lift, Hl. reflexivity.
Qed.

(** X12. query_rendered_features with the empty list for [layers] does not
    pass a [layers] option to the engine, so the query is over all layers:
    the options hold at most the filter. *)
Theorem empty_layer_list_means_all_layers (args : Js) (t : MapboxMapTools E) :
  JS.prop args "layers" = JArr [] ->
  exists delta : list Call,
    calls (snd (executeTool rt eng "query_rendered_features" args t))
    = (calls t ++ delta)%list
    /\ Forall
         (queries_with
            (JObj (set_if (JS.truthy (JS.prop args "filter")) "filter"
                     (JS.prop args "filter") [])))
         delta.
Proof.
  intros Hl. rewrite executeTool_snd.
  change (dispatch rt eng "query_rendered_features" args t)
    with (queryRenderedFeatures rt eng args t).
  apply logs_run. unfold queryRenderedFeatures. rewrite Hl.
  change (listed rt (JArr [])) with (@Normal bool false).
  cbn [JS.truthy andb set_if]. unfold map_queryRenderedFeatures.
  repeat lazymatch goal with
         | |- logs _ (bind (lift (Normal _)) _) => apply logs_after_lift
         | |- _ => logs_step
         end; try exact I.
  reflexivity.
Qed.

End Queries.

(** X17. The constructor refuses a missing map, and otherwise starts the
    counter at 0 and lays the caller's options over the defaults key by
    key: an option the caller gave has the caller's value, every other one
    its default. *)
Theorem caller_options_win
  (E : Type) (m : E) (fs : list (string * Js)) (k : string) :
  constructor (@None E) (JObj fs)
  = Throw (Error "Mapbox GL JS map instance is required")
  /\ exists t : MapboxMapTools E,
       constructor (Some m) (JObj fs) = Normal t
       /\ map t = m
       /\ layerCounter t = 0%N
       /\ JS.lookup k (options t)
          = if binds k fs then JS.lookup k fs else JS.lookup k default_options.
Proof.
  split; [reflexivity | ]. eexists. split; [reflexivity | ].
  cbn [map layerCounter options]. repeat split. apply lookup_spread.
Qed.

(** ** The source identifier of a tileset *)

(** X18. The source identifier of a tileset does not depend on the scheme:
    the same address under mapbox://, https:// and http:// gives the same
    identifier, and so the same shared source. *)
Theorem source_id_forgets_the_scheme (rest : string) :
  generateSourceId ("mapbox://" ++ rest) = generateSourceId ("https://" ++ rest)
  /\ generateSourceId ("https://" ++ rest) = generateSourceId ("http://" ++ rest).
Proof. destruct rest; split; reflexivity. Qed.

Lemma lookup_spread_nil (k : string) (fs : list (string * Js)) :
  JS.lookup k (JS.spread [] (JObj fs)) = JS.lookup k fs.
Proof.
  rewrite lookup_spread. destruct (binds k fs) eqn:Hb; [reflexivity | ].
  symmetry. now apply lookup_unbound.
Qed.

Lemma default_paint_lookup (s k : string) :
  JS.lookup k (JS.spread [] (JS.lookup s defaultPaintByType))
  = JS.prop (JS.lookup s defaultPaintByType) k.
Proof.
  unfold defaultPaintByType. cbn [JS.lookup].
  repeat match goal with
         | |- context [String.eqb s ?x] => destruct (String.eqb s x)
         end;
    try apply lookup_spread_nil; reflexivity.
Qed.

Lemma map_from_point_feature
  (rt : JsRuntime) (opts : list (string * Js)) (l : list Js) (i : N) :
  Forall (fun p => JS.nullish p = false) l ->
  exists features : list Js,
    map_from (point_feature rt opts) i l = Normal features
    /\ List.length features = List.length l
    /\ forall (j : nat) (p : Js),
         nth_error l j = Some p ->
         exists f : Js,
           nth_error features j = Some f
           /\ is_point_feature opts (i + N.of_nat j) p f.
Proof.
  intros H. revert i. induction H as [| p l Hp Hl IH]; intros i.
  - exists []. repeat split. intros [| j] q Hq; discriminate.
  - destruct (IH (N.succ i)) as (fs & Hm & Hlen & Hnth).
    cbn [map_from]. unfold point_feature at 1, JS.get. rewrite Hp, Hm.
    eexists. split; [reflexivity | ]. split; [simpl; now rewrite Hlen | ].
    intros [| j] q Hq.
    + injection Hq as <-. eexists. split; [reflexivity | ].
      rewrite N.add_0_r. unfold JS.or. repeat split.
    + destruct (Hnth j q Hq) as (f & Hf & Hpf). exists f. split; [exact Hf | ].
      replace (i + N.of_nat (S j))%N with (N.succ i + N.of_nat j)%N by lia.
      exact Hpf.
Qed.

Lemma map_from_null_point
  (rt : JsRuntime) (opts : list (string * Js)) (before after : list Js)
  (p : Js) (i : N) :
  Forall (fun q => JS.nullish q = false) before ->
  JS.nullish p = true ->
  map_from (point_feature rt opts) i (before ++ p :: after)
  = Throw (TypeError (msg_read rt p "longitude")).
Proof.
  intros H Hp. revert i. induction H as [| q l Hq Hl IH]; intros i; cbn [map_from app].
  - unfold point_feature at 1, JS.get. now rewrite Hp.
  - unfold point_feature at 1, JS.get. rewrite Hq. now rewrite IH.
Qed.

Section Paint.
Variable rt : JsRuntime.
Context {E : Type}.
Variable eng : MapAPI.t E.

(** X19. add_vector_tileset_layer lays the caller's [paint] over the
    defaults of the layer type, property by property: in every layer it
    adds, a paint property the caller gave has the caller's value and every
    other one the default of the type (none for an unknown type); the layer
    is on the source derived from the URL; a call that succeeded did add a
    layer; and a layer type that cannot be converted to text, which is the
    key of the defaults, makes the call fail. *)
Theorem caller_paint_wins
  (args : Js) (url k : string) (ps : list (string * Js)) (t : MapboxMapTools E) :
  JS.prop args "tilesetUrl" = JStr url ->
  JS.default (JS.prop args "paint") (JObj []) = JObj ps ->
  exists delta : list Call,
    calls (snd (executeTool rt eng "add_vector_tileset_layer" args t))
    = (calls t ++ delta)%list
    /\ Forall
         (paints (generateSourceId url) k
            (if binds k ps then JS.lookup k ps
             else match to_string rt (JS.prop args "layerType") with
                  | Normal key => JS.prop (JS.lookup key defaultPaintByType) k
                  | Throw _ => JUndefined
                  end))
         delta
    /\ (isError (fst (executeTool rt eng "add_vector_tileset_layer" args t)) = false ->
        exists layer : Js, In (CallAddLayer layer) delta)
    /\ (converts (to_string rt (JS.prop args "layerType")) = false ->
        isError (fst (executeTool rt eng "add_vector_tileset_layer" args t)) = true).
Proof.
  intros Hu Hp.
  assert (Hn : JS.nullish args = false).
  { apply prop_defined with (k := "tilesetUrl"). rewrite Hu. discriminate. }
  unfold executeTool.
  change (dispatch rt eng "add_vector_tileset_layer" args t)
    with (addVectorTilesetLayer rt eng args t).
  unfold addVectorTilesetLayer. rewrite after_destructure, Hn. cbv zeta.
  rewrite bind_lift, Hu, Hp. cbn [match_scheme].
  destruct (scheme_prefix url) as [p | ].
  2:{ exists []. unfold throw, error_envelope. cbn [fst snd calls isError record].
      rewrite List.app_nil_r. repeat split; [constructor | discriminate]. }
  rewrite bind_unique_name.
  destruct (to_string rt (JS.default (JS.prop args "layerName")
                            (JStr "vector-tileset-layer"))) as [given | e].
  2:{ exists []. unfold error_envelope. cbn [fst snd calls isError record].
      rewrite List.app_nil_r. repeat split; [constructor | discriminate]. }
  unfold map_getSource, map_addSource, map_addLayer.
  rewrite bind_query. cbn [map ticked].
  match goal with
  | |- context [MapAPI.getSource eng ?n ?m] =>
      destruct (MapAPI.getSource eng n m) as [existing | e]
  end.
  2:{ eexists [_]. unfold error_envelope, record. cbn [fst snd calls isError record].
      repeat split; [repeat constructor | discriminate]. }
  destruct (to_string rt (JS.prop args "layerType")) as [key | x].
  - assert (Hpaint : forall c src cfg,
      paints (generateSourceId url) k
        (if binds k ps then JS.lookup k ps
         else JS.prop (JS.lookup key defaultPaintByType) k)
        (CallAddLayer
           (JObj
              (set_if (negb (JS.is_undefined (JS.prop args "maxzoom"))) "maxzoom"
                 (JS.prop args "maxzoom")
                 (set_if (negb (JS.is_undefined (JS.prop args "minzoom"))) "minzoom"
                    (JS.prop args "minzoom")
                    (set_if (JS.truthy (JS.prop args "filter")) "filter"
                       (JS.prop args "filter")
                       (set_if c "layout" cfg
                          [ ("id", JStr src);
                            ("type", JS.prop args "layerType");
                            ("source", JStr (generateSourceId url));
                            ("source-layer", JS.prop args "sourceLayer");
                            ("paint",
                             JObj (JS.spread
                                     (JS.spread []
                                        (JS.lookup key defaultPaintByType))
                                     (JObj ps))) ]))))))).
    { intros c src cfg. unfold paints. cbn [JS.prop].
      rewrite !lookup_set_if by reflexivity.
      cbn [JS.lookup String.eqb Ascii.eqb Bool.eqb].
      split; [reflexivity | ]. cbn [JS.prop].
      rewrite lookup_spread, default_paint_lookup. reflexivity. }
    destruct (JS.truthy existing); cbn [negb when].
    + rewrite bind_ret, bind_lift, bind_mutate.
      cbn [map record calls options layerCounter ticked].
      engine_answers; rewrite ?bind_lift;
        try destruct (to_string rt (JS.prop args "sourceLayer"));
        unfold error_envelope, ret; cbn [fst snd calls isError record];
        rewrite log2; eexists; (split; [reflexivity | ]);
        (split; [repeat constructor; apply Hpaint | ]);
        (split; [ | discriminate]);
        first [ discriminate
              | intros _; eexists; right; left; reflexivity ].
    + rewrite bind_mutate. cbn [map record calls options layerCounter ticked].
      engine_answers.
      * rewrite bind_lift, bind_mutate. cbn [map record calls options layerCounter].
        engine_answers; rewrite ?bind_lift;
          try destruct (to_string rt (JS.prop args "sourceLayer"));
          unfold error_envelope, ret; cbn [fst snd calls isError record];
          rewrite log3; eexists; (split; [reflexivity | ]);
          (split; [repeat constructor; apply Hpaint | ]);
          (split; [ | discriminate]);
          first [ discriminate
                | intros _; eexists; right; right; left; reflexivity ].
      * unfold error_envelope. cbn [fst snd calls isError record]. rewrite log2.
        eexists. split; [reflexivity | ].
        split; [repeat constructor | split; discriminate].
  - destruct (JS.truthy existing); cbn [negb when].
    + rewrite bind_ret, bind_lift. unfold error_envelope.
      cbn [fst snd calls isError record].
      eexists [_]. split; [reflexivity | ].
      split; [repeat constructor | split; [discriminate | reflexivity]].
    + rewrite bind_mutate. cbn [map record calls options layerCounter ticked].
      engine_answers; rewrite ?bind_lift; unfold error_envelope;
        cbn [fst snd calls isError record]; rewrite log2;
        eexists; (split; [reflexivity | ]);
        (split; [repeat constructor | split; [discriminate | reflexivity]]).
Qed.

End Paint.

Section Layers.
Variable rt : JsRuntime.
Context {E : Type}.
Variable eng : MapAPI.t E.

(** X20. add_polygon_to_map undoes nothing when it fails half way: for a
    layer name that can be converted to text, if the engine accepts the
    source and the fill layer and rejects the outline, the result is the
    engine's error, and the engine is left with the source and the fill
    layer, the counter ticked. *)
Theorem polygon_is_not_rolled_back
  (args : Js) (given : string) (m1 m2 : E) (e : Exn) (t : MapboxMapTools E) :
  JS.nullish args = false ->
  to_string rt (JS.default (JS.prop args "layerName") (JStr "polygon-layer"))
  = Normal given ->
  let name := given ++ "-" ++ Str.dec (next_counter (layerCounter t)) in
  let source :=
    JObj [ ("type", JStr "geojson");
           ("data", polygon_feature (JS.prop args "coordinates")) ] in
  let fill :=
    polygon_fill_layer name
      (JS.default (JS.prop args "fillColor")
         (JS.lookup "defaultPolygonFillColor" (options t)))
      (JS.default (JS.prop args "fillOpacity")
         (JS.lookup "defaultPolygonFillOpacity" (options t))) in
  let stroke :=
    polygon_stroke_layer name
      (JS.default (JS.prop args "strokeColor")
         (JS.lookup "defaultPolygonStrokeColor" (options t)))
      (JS.default (JS.prop args "strokeWidth")
         (JS.lookup "defaultPolygonStrokeWidth" (options t))) in
  MapAPI.addSource eng name source (map t) = Normal m1 ->
  MapAPI.addLayer eng fill m1 = Normal m2 ->
  MapAPI.addLayer eng stroke m2 = Throw e ->
  executeTool rt eng "add_polygon_to_map" args t
  = (error_envelope ("Error: " ++ message e),
     {| map := m2;
        calls := calls t
                 ++ [CallAddSource name source; CallAddLayer fill; CallAddLayer stroke];
        options := options t;
        layerCounter := next_counter (layerCounter t) |}).
Proof.
  intros Hn Hg name source fill stroke H1 H2 H3. unfold executeTool.
  change (dispatch rt eng "add_polygon_to_map" args t)
    with (addPolygonToMap rt eng args t).
  unfold addPolygonToMap. rewrite after_destructure, Hn.
  rewrite bind_this_options. cbv zeta. rewrite bind_unique_name, Hg.
  unfold map_addSource, map_addLayer.
  rewrite bind_mutate. cbn [map ticked calls options layerCounter].
  fold (polygon_feature (JS.prop args "coordinates")). fold name. fold source.
  rewrite H1, bind_mutate. cbn [map calls options layerCounter].
  match goal with
  | |- context [MapAPI.addLayer eng ?l m1] => change l with fill
  end.
  rewrite H2, bind_mutate. cbn [map calls options layerCounter].
  match goal with
  | |- context [MapAPI.addLayer eng ?l m2] => change l with stroke
  end.
  rewrite H3. unfold record. cbn [map calls options layerCounter].
  rewrite log3. reflexivity.
Qed.

(** X21. add_points_to_map, for a layer name that can be converted to
    text, turns every point into one feature, in order: the source it adds
    is a FeatureCollection with as many features as points, and the feature
    at position [j] has the coordinates [[longitude, latitude]] of point
    [j], its title or "Point j+1", its description or the empty text, and
    its color or the default point color. *)
Theorem every_point_becomes_a_feature
  (args : Js) (l : list Js) (given : string) (t : MapboxMapTools E) :
  JS.prop args "points" = JArr l ->
  Forall (fun p => JS.nullish p = false) l ->
  to_string rt (JS.default (JS.prop args "layerName") (JStr "points-layer"))
  = Normal given ->
  exists (features : list Js) (rest : list Call),
    calls (snd (executeTool rt eng "add_points_to_map" args t))
    = (calls t
       ++ CallAddSource
            (given ++ "-" ++ Str.dec (next_counter (layerCounter t)))
            (JObj [ ("type", JStr "geojson");
                    ("data", feature_collection features) ])
          :: rest)%list
    /\ List.length features = List.length l
    /\ forall (j : nat) (p : Js),
         nth_error l j = Some p ->
         exists f : Js,
           nth_error features j = Some f
           /\ is_point_feature (options t) (N.of_nat j) p f.
Proof.
  intros Hp Hl Hg.
  assert (Hn : JS.nullish args = false).
  { apply prop_defined with (k := "points"). rewrite Hp. discriminate. }
  rewrite executeTool_snd.
  change (dispatch rt eng "add_points_to_map" args t)
    with (addPointsToMap rt eng args t).
  unfold addPointsToMap. rewrite after_destructure, Hn. cbv zeta.
  rewrite bind_unique_name, Hg, bind_this_options, bind_lift, Hp.
  cbn [array_map options ticked].
  destruct (map_from_point_feature rt (options t) l 0 Hl)
    as (features & -> & Hlen & Hnth).
  exists features.
  unfold map_addSource. fold (feature_collection features).
  match goal with
  | |- context [bind (mutate ?c ?f) ?k] =>
      destruct (logs_run (fun _ => True) (bind (mutate c f) k) (ticked t))
        as (delta & Hd & _)
  end.
  { apply logs_bind; [apply logs_mutate; exact I | intros _].
    repeat logs_step; exact I. }
  revert Hd. rewrite bind_mutate. cbn [map ticked calls options layerCounter].
  engine_answers; intros Hd.
  - destruct delta as [| c rest].
    + exfalso. revert Hd.
      match goal with
      | |- calls (snd (?k ?s)) = _ -> _ =>
          destruct (logs_run (fun _ => True) k s) as (d' & Hd' & _)
      end.
      { repeat logs_step; exact I. }
      rewrite Hd'. cbn [calls]. rewrite List.app_nil_r, <- List.app_assoc.
      intros H. apply (f_equal (@List.length Call)) in H.
      rewrite !List.length_app in H. simpl in H. lia.
    + exists rest. split; [ | split; [exact Hlen | exact Hnth]].
      rewrite Hd. f_equal. f_equal.
      match type of Hd with
      | calls (snd (?k ?s)) = _ =>
          destruct (logs_run (fun _ => True) k s) as (d' & Hd' & _)
      end.
      { repeat logs_step; exact I. }
      rewrite Hd' in Hd. cbn [calls] in Hd. rewrite <- List.app_assoc in Hd.
      apply List.app_inv_head in Hd. simpl in Hd. now injection Hd.
  - exists []. split; [ | split; [exact Hlen | exact Hnth]]. reflexivity.
Qed.

(** X22. add_points_to_map with a [null] or [undefined] among the points
    fails before the engine is asked anything. The layer name is converted
    to text first: when that fails, the result is its error and the
    counter has not moved; otherwise the error envelope reports the read of
    [longitude] on the first such point, no call is made, and the counter
    has ticked. *)
Theorem null_point_costs_a_tick
  (args p : Js) (before after : list Js) (t : MapboxMapTools E) :
  JS.prop args "points" = JArr (before ++ p :: after) ->
  Forall (fun q => JS.nullish q = false) before ->
  JS.nullish p = true ->
  executeTool rt eng "add_points_to_map" args t
  = match to_string rt (JS.default (JS.prop args "layerName")
                          (JStr "points-layer")) with
    | Throw e => (error_envelope ("Error: " ++ message e), t)
    | Normal _ =>
        (error_envelope ("Error: " ++ msg_read rt p "longitude"), ticked t)
    end.
Proof.
  intros Hp Hb Hq.
  assert (Hn : JS.nullish args = false).
  { apply prop_defined with (k := "points"). rewrite Hp. discriminate. }
  unfold executeTool.
  change (dispatch rt eng "add_points_to_map" args t)
    with (addPointsToMap rt eng args t).
  unfold addPointsToMap. rewrite after_destructure, Hn. cbv zeta.
  rewrite bind_unique_name.
  destruct (to_string rt (JS.default (JS.prop args "layerName")
                            (JStr "points-layer"))); [ | reflexivity].
  rewrite bind_this_options, bind_lift, Hp.
  cbn [array_map]. rewrite (map_from_null_point rt _ _ _ _ _ Hb Hq). reflexivity.
Qed.

(** X23. add_points_to_map registers a click listener only when
    [enablePopups] is truthy in the options, and the two hover listeners
    only when [enableHoverEffects] is. *)
Theorem listeners_follow_the_options (args : Js) (t : MapboxMapTools E) :
  exists delta : list Call,
    calls (snd (executeTool rt eng "add_points_to_map" args t))
    = (calls t ++ delta)%list
    /\ Forall (fun c => listener_allowed (options t) c = true) delta.
Proof.
  rewrite executeTool_snd.
  change (dispatch rt eng "add_points_to_map" args t)
    with (addPointsToMap rt eng args t).
  unfold addPointsToMap. rewrite after_destructure.
  destruct (JS.nullish args).
  { exists []. split; [symmetry; apply List.app_nil_r | constructor]. }
  cbv zeta. rewrite bind_unique_name.
  destruct (to_string rt (JS.default (JS.prop args "layerName")
                            (JStr "points-layer"))) as [given | e].
  2:{ exists []. split; [symmetry; apply List.app_nil_r | constructor]. }
  rewrite bind_this_options. cbn [options ticked].
  match goal with
  | |- context [snd (?m (ticked t))] =>
      apply (logs_run (fun c => listener_allowed (options t) c = true) m (ticked t))
  end.
  apply logs_bind; [apply logs_lift | intros features].
  unfold map_addSource, map_addLayer, map_on.
  apply logs_bind; [apply logs_mutate; reflexivity | intros _].
  apply logs_bind; [apply logs_mutate; reflexivity | intros _].
  apply logs_bind.
  { destruct (JS.truthy (JS.lookup "enablePopups" (options t))) eqn:Hb; cbn [when].
    - apply logs_mutate. cbn. exact Hb.
    - apply logs_ret. }
  intros _.
  apply logs_bind;
    [ | intros _; apply logs_bind; [apply logs_lift | intros count; apply logs_ret]].
  destruct (JS.truthy (JS.lookup "enableHoverEffects" (options t))) eqn:Hb; cbn [when].
  - apply logs_bind; [ | intros _]; apply logs_mutate; cbn; exact Hb.
  - apply logs_ret.
Qed.

(** X24. fit_map_to_bounds does not touch the camera when the bounds class
    rejects a coordinate, at the construction or at an extension: the
    result is the error and the instance, the engine and the call log are
    unchanged. *)
Theorem rejected_bounds_move_nothing
  (args first : Js) (rest : list Js) (e : Exn) (t : MapboxMapTools E) :
  JS.prop args "coordinates" = JArr (first :: rest) ->
  match MapAPI.LngLatBounds eng first first with
  | Throw x => x = e
  | Normal init => reduce (MapAPI.extend eng) init (first :: rest) = Throw e
  end ->
  executeTool rt eng "fit_map_to_bounds" args t
  = (error_envelope ("Error: " ++ message e), t).
Proof.
  intros Hc Hb.
  assert (Hn : JS.nullish args = false).
  { apply prop_defined with (k := "coordinates"). rewrite Hc. discriminate. }
  unfold executeTool.
  change (dispatch rt eng "fit_map_to_bounds" args t)
    with (fitMapToBounds rt eng args t).
  unfold fitMapToBounds. rewrite after_destructure, Hn. cbv zeta.
  rewrite Hc, bind_lift.
  change (JS.get rt (JArr (first :: rest)) "length")
    with (Normal (JS.num (N.of_nat (S (List.length rest))))).
  cbv iota beta. rewrite is_zero_num.
  change (JS.prop (JArr (first :: rest)) "0") with first.
  replace (N.of_nat (S (List.length rest)) =? 0)%N with false
    by (symmetry; apply N.eqb_neq; lia).
  rewrite bind_lift.
  destruct (MapAPI.LngLatBounds eng first first) as [init | x].
  - rewrite bind_lift. cbn [array_reduce]. rewrite Hb. reflexivity.
  - subst x. reflexivity.
Qed.

End Layers.

(** ** Clearing *)

Lemma removals_app (a b : list Call) :
  removals (a ++ b) = (removals a + removals b)%nat.
Proof. unfold removals. now rewrite filter_app, List.length_app. Qed.

Lemma removals_quiet (l : list Call) : Forall removes_no_layer l -> removals l = 0%nat.
Proof.
  induction 1 as [| c l Hc Hl IH]; [reflexivity | ].
  unfold removals in *. destruct c; simpl in *; try exact IH. contradiction.
Qed.

Section Counting.
Context {E : Type}.

Lemma counts_ret (n : N) : counts n (@ret E N n).
Proof.
  intro t. exists []. split; [symmetry; apply List.app_nil_r | ].
  intros n' H. injection H as <-. simpl. lia.
Qed.

Lemma counts_throw (n : N) (e : Exn) : counts n (@throw E N e).
Proof.
  intro t. exists []. split; [symmetry; apply List.app_nil_r | discriminate].
Qed.

Lemma counts_bind (n0 : N) (m : M E N) (k : N -> M E N) :
  counts n0 m -> (forall a, counts a (k a)) -> counts n0 (bind m k).
Proof.
  intros Hm Hk t. unfold bind. destruct (Hm t) as (d & Hd & Hn).
  destruct (m t) as [[a | e] t']; simpl in *.
  - destruct (Hk a t') as (d' & Hd' & Hn'). exists (d ++ d')%list. split.
    + rewrite Hd', Hd. symmetry. apply List.app_assoc.
    + intros n H. rewrite removals_app, (Hn' n H), (Hn a eq_refl). lia.
  - exists d. split; [exact Hd | discriminate].
Qed.

Lemma counts_after (A : Type) (n0 : N) (m : M E A) (k : A -> M E N) :
  logs removes_no_layer m -> (forall a, counts n0 (k a)) -> counts n0 (bind m k).
Proof.
  intros Hm Hk t. unfold bind. destruct (Hm t) as (d & Hd & Hq).
  destruct (m t) as [[a | e] t']; simpl in *.
  - destruct (Hk a t') as (d' & Hd' & Hn'). exists (d ++ d')%list. split.
    + rewrite Hd', Hd. symmetry. apply List.app_assoc.
    + intros n H. rewrite removals_app, (removals_quiet _ Hq), (Hn' n H). lia.
  - exists d. split; [exact Hd | discriminate].
Qed.

Lemma counts_foldM (A : Type) (f : N -> A -> M E N) (acc : N) (l : list A) :
  (forall b x, counts b (f b x)) -> counts acc (foldM f acc l).
Proof.
  intros Hf. revert acc. induction l as [| x r IH]; intros acc; simpl.
  - apply counts_ret.
  - apply counts_bind; [apply Hf | intros b; apply IH].
Qed.

Variable eng : MapAPI.t E.

Lemma remove_layer_if_present_counts (n : N) (id : Js) :
  counts n (remove_layer_if_present eng n id).
Proof.
  intro t. unfold remove_layer_if_present, map_getLayer, map_removeLayer.
  rewrite bind_query.
  destruct (MapAPI.getLayer eng id (map t)) as [layer | e].
  - destruct (JS.truthy layer).
    + rewrite bind_mutate. cbn [map record calls options layerCounter].
      destruct (MapAPI.removeLayer eng id (map t)) as [m | e].
      * exists [CallGetLayer id; CallRemoveLayer id]. unfold ret. cbn [fst snd calls].
        rewrite log2. split; [reflexivity | ].
        intros n' H. injection H as <-. cbn. lia.
      * exists [CallGetLayer id; CallRemoveLayer id]. cbn [fst snd calls record].
        rewrite log2. split; [reflexivity | discriminate].
    + exists [CallGetLayer id]. unfold ret, record. cbn [fst snd calls].
      split; [reflexivity | ]. intros n' H. injection H as <-. cbn. lia.
  - exists [CallGetLayer id]. unfold record. cbn [fst snd calls].
    split; [reflexivity | discriminate].
Qed.

Lemma clear_all_custom_counts : counts 0 (clear_all_custom eng).
Proof.
  unfold clear_all_custom.
  apply counts_after; [apply logs_query; exact I | intro style]. cbv zeta.
  apply counts_bind.
  - apply counts_foldM. intros. apply remove_layer_if_present_counts.
  - intro n. apply counts_after; [apply logs_query; exact I | intro style'].
    apply counts_after.
    { repeat logs_step; exact I. }
    intros _. apply counts_after; [apply logs_query; exact I | intro remaining].
    apply counts_after; [ | intros _; apply counts_ret].
    repeat logs_step; exact I.
Qed.

Lemma clear_named_counts (names : list Js) : counts 0 (clear_named eng names).
Proof.
  unfold clear_named. apply counts_bind.
  - apply counts_foldM. intros n name.
    apply counts_bind; [apply remove_layer_if_present_counts | intro n'].
    apply counts_after; [apply logs_query; exact I | intro source].
    apply counts_after; [ | intros _; apply counts_ret].
    repeat logs_step; exact I.
  - intro n. apply counts_after; [apply logs_query; exact I | intro remaining].
    apply counts_after; [apply logs_query; exact I | intro style].
    apply counts_after; [ | intros _; apply counts_ret].
    repeat logs_step; exact I.
Qed.

Lemma remove_orphaned_sources (names : list Js) (used : list string) (s : string) :
  logs (removes_sources_of names) (remove_orphaned eng used s).
Proof.
  unfold remove_orphaned.
  destruct (Str.endsWith s "-vector-source") eqn:Hs; cbn [andb].
  - destruct (negb (has used s)).
    + unfold map_getSource, map_removeSource.
      apply logs_bind; [apply logs_query; exact I | intro source].
      apply logs_when, logs_mutate. right. exists s. split; [reflexivity | ].
      rewrite Hs. apply orb_true_r.
    + apply logs_ret.
  - apply logs_ret.
Qed.

Lemma clear_all_custom_sources (names : list Js) :
  logs (removes_sources_of names) (clear_all_custom eng).
Proof.
  unfold clear_all_custom.
  apply logs_bind; [apply logs_query; exact I | intro style]. cbv zeta.
  apply logs_bind.
  - apply logs_foldM. intros n l _.
    unfold remove_layer_if_present, map_getLayer, map_removeLayer.
    repeat logs_step; exact I.
  - intro n. apply logs_bind; [apply logs_query; exact I | intro style'].
    apply logs_bind.
    + apply logs_forEach. intros s _.
      destruct (Str.includes s "-layer-") eqn:Hs; cbn [when]; [ | apply logs_ret].
      apply logs_mutate. right. exists s. split; [reflexivity | ]. now rewrite Hs.
    + intros _. apply logs_bind; [apply logs_query; exact I | intro remaining].
      apply logs_bind; [ | intros _; apply logs_ret].
      apply logs_forEach. intros s _. apply remove_orphaned_sources.
Qed.

Lemma clear_named_sources (names : list Js) :
  logs (removes_sources_of names) (clear_named eng names).
Proof.
  unfold clear_named. apply logs_bind.
  - apply logs_foldM. intros n name Hin.
    apply logs_bind.
    { unfold remove_layer_if_present, map_getLayer, map_removeLayer.
      repeat logs_step; exact I. }
    intro n'. unfold map_getSource, map_removeSource.
    apply logs_bind; [apply logs_query; exact I | intro source].
    apply logs_bind; [ | intros _; apply logs_ret].
    apply logs_when, logs_mutate. left. exact Hin.
  - intro n. apply logs_bind; [apply logs_query; exact I | intro remaining].
    apply logs_bind; [apply logs_query; exact I | intro style].
    apply logs_bind; [ | intros _; apply logs_ret].
    apply logs_forEach. intros s _. apply remove_orphaned_sources.
Qed.

Lemma clear_all_custom_listed (style : Style) (t : MapboxMapTools E) :
  MapAPI.getStyle eng (map t) = Normal style ->
  exists delta : list Call,
    calls (snd (clear_all_custom eng t)) = (calls t ++ delta)%list
    /\ Forall
         (removes_only
            (List.map JStr
               (List.map layer_id
                  (filter (fun l => is_custom_layer_id (layer_id l))
                     (style_layers style)))))
         delta.
Proof.
  intros Hs. unfold clear_all_custom, map_getStyle at 1.
  rewrite bind_query, Hs. cbv zeta.
  match goal with
  | |- context [snd (?m (record CallGetStyle t))] =>
      destruct (logs_run
                  (removes_only
                     (List.map JStr
                        (List.map layer_id
                           (filter (fun l => is_custom_layer_id (layer_id l))
                              (style_layers style)))))
                  m (record CallGetStyle t)) as (d & Hd & HP)
  end.
  - apply logs_bind.
    + apply logs_foldM. intros n l Hl.
      unfold remove_layer_if_present, map_getLayer, map_removeLayer.
      repeat logs_step; try exact I.
      simpl. apply in_map, in_map, Hl.
    + intro n. repeat logs_step; exact I.
  - exists (CallGetStyle :: d). rewrite Hd. unfold record. cbn [calls].
    rewrite <- List.app_assoc. split; [reflexivity | ].
    constructor; [exact I | exact HP].
Qed.

End Counting.

Section Sweeps.
Variable rt : JsRuntime.
Context {E : Type}.
Variable eng : MapAPI.t E.

(** X25. [destroy] runs the sweep of clear_map_layers without the shield
    of [executeTool]: when the engine cannot give its style, [destroy]
    throws the engine's error after that one call, where the tool, from
    the same state, returns the error envelope of the same error. *)
Theorem destroy_is_not_shielded (e : Exn) (t : MapboxMapTools E) :
  MapAPI.getStyle eng (map t) = Throw e ->
  destroy rt eng t = (Throw e, record CallGetStyle t)
  /\ executeTool rt eng "clear_map_layers" (JObj []) t
     = (error_envelope ("Error: " ++ message e), record CallGetStyle t).
Proof.
  intros Hs. unfold destroy, executeTool.
  change (dispatch rt eng "clear_map_layers" (JObj []) t)
    with (clearMapLayers rt eng (JObj []) t).
  assert (H : clearMapLayers rt eng (JObj []) t = (Throw e, record CallGetStyle t)).
  { unfold clearMapLayers. rewrite after_destructure. cbn [JS.nullish]. cbv zeta.
    rewrite bind_lift.
    cbn [JS.default JS.prop JS.lookup JS.get JS.nullish String.eqb Ascii.eqb
         Bool.eqb List.length N.of_nat].
    rewrite is_zero_num. cbn [N.eqb].
    unfold clear_all_custom, map_getStyle. rewrite bind_bind, bind_query, Hs.
    reflexivity. }
  unfold bind at 1. rewrite H. split; reflexivity.
Qed.

(** X26. The sweep of clear_map_layers with no names asks the engine to
    remove only layers that [getCustomLayerIds] lists on the same state. *)
Theorem sweep_removes_what_is_listed
  (args : Js) (ids : list string) (t : MapboxMapTools E) :
  JS.prop args "layerNames" = JUndefined \/ JS.prop args "layerNames" = JArr [] ->
  fst (getCustomLayerIds eng t) = Normal ids ->
  exists delta : list Call,
    calls (snd (executeTool rt eng "clear_map_layers" args t))
    = (calls t ++ delta)%list
    /\ Forall (removes_only (List.map JStr ids)) delta.
Proof.
  intros Hl Hids. rewrite executeTool_snd.
  change (dispatch rt eng "clear_map_layers" args t)
    with (clearMapLayers rt eng args t).
  unfold clearMapLayers. rewrite after_destructure.
  destruct (JS.nullish args).
  { exists []. split; [symmetry; apply List.app_nil_r | constructor]. }
  cbv zeta.
  assert (Hd : JS.default (JS.prop args "layerNames") (JArr []) = JArr []).
  { destruct Hl as [-> | ->]; reflexivity. }
  rewrite Hd, bind_lift. cbn [JS.get JS.nullish JS.prop String.eqb Ascii.eqb Bool.eqb
                                       List.length N.of_nat].
  rewrite is_zero_num. cbn [N.eqb].
  unfold getCustomLayerIds, map_getStyle in Hids. rewrite bind_query in Hids.
  destruct (MapAPI.getStyle eng (map t)) as [style | e] eqn:Hs; [ | discriminate].
  cbn in Hids. injection Hids as <-.
  destruct (clear_all_custom_listed eng style t Hs) as (d & Hc & HP).
  exists d. split; [ | exact HP].
  unfold bind. destruct (clear_all_custom eng t) as [[n | e] t']; exact Hc.
Qed.

(** X27. When clear_map_layers succeeds, the number in its text is the
    number of removeLayer calls it made. *)
Theorem count_is_the_number_of_removals (args : Js) (t : MapboxMapTools E) :
  isError (fst (executeTool rt eng "clear_map_layers" args t)) = false ->
  exists delta : list Call,
    calls (snd (executeTool rt eng "clear_map_layers" args t))
    = (calls t ++ delta)%list
    /\ content (fst (executeTool rt eng "clear_map_layers" args t))
       = text_content ("Removed " ++ Str.dec (N.of_nat (removals delta))
                       ++ " layers from the map").
Proof.
  unfold executeTool.
  change (dispatch rt eng "clear_map_layers" args t)
    with (clearMapLayers rt eng args t).
  unfold clearMapLayers. rewrite after_destructure.
  destruct (JS.nullish args); [discriminate | ]. cbv zeta.
  rewrite bind_lift.
  destruct (JS.get rt (JS.default (JS.prop args "layerNames") (JArr [])) "length")
    as [len | e]; [ | discriminate].
  match goal with
  | |- context [bind ?m _ t] =>
      assert (Hm : counts 0 m)
  end.
  { destruct (JS.is_zero len); [apply clear_all_custom_counts | ].
    destruct (JS.default (JS.prop args "layerNames") (JArr []));
      try apply counts_throw.
    apply clear_named_counts. }
  unfold bind. destruct (Hm t) as (d & Hd & Hn).
  match goal with
  | |- context [?m t] =>
      match type of Hd with
      | calls (snd (m t)) = _ => destruct (m t) as [[n | e] t']
      end
  end; cbn [fst snd] in *; [ | discriminate].
  intros _. exists d. split; [exact Hd | ].
  rewrite (Hn n eq_refl). reflexivity.
Qed.

(** X28. clear_map_layers asks the engine to remove a source only if the
    caller named it, or its identifier contains "-layer-", or it ends with
    "-vector-source". *)
Theorem sources_go_by_name_or_convention (args : Js) (t : MapboxMapTools E) :
  exists delta : list Call,
    calls (snd (executeTool rt eng "clear_map_layers" args t))
    = (calls t ++ delta)%list
    /\ Forall (removes_sources_of (given_names args)) delta.
Proof.
  rewrite executeTool_snd.
  change (dispatch rt eng "clear_map_layers" args t)
    with (clearMapLayers rt eng args t).
  apply logs_run. unfold clearMapLayers, given_names.
  apply logs_bind; [apply logs_lift | intros _]. cbv zeta.
  apply logs_bind; [apply logs_lift | intros len].
  apply logs_bind; [ | intros n; apply logs_ret].
  destruct (JS.is_zero len); [apply clear_all_custom_sources | ].
  destruct (JS.default (JS.prop args "layerNames") (JArr []));
    try apply logs_throw.
  apply clear_named_sources.
Qed.

End Sweeps.

(** ** The further statements on the in-memory map *)

Lemma missing_args_change_nothing_witness :
  isError (fst (Ex.exec "add_route_to_map" JUndefined Ex.fresh)) = true
  /\ snd (Ex.exec "add_route_to_map" JUndefined Ex.fresh) = Ex.fresh.
Proof.
  exact (missing_args_change_nothing MemMap.runtime MemMap.api
           "add_route_to_map" JUndefined Ex.fresh eq_refl).
Defined.

Lemma pan_flies_by_default_witness :
  calls (snd (Ex.exec "pan_map_to_location" Cases.berlin Ex.fresh))
  = [ CallFlyTo (JObj [ ("center", JArr [JNum 13.4; JNum 52.5]);
                        ("zoom", JS.num 12);
                        ("duration", JS.num 2000) ]) ].
Proof.
  unfold Ex.exec.
  rewrite (pan_flies_by_default MemMap.runtime MemMap.api Cases.berlin 52.5 13.4
             Ex.fresh eq_refl eq_refl eq_refl).
  reflexivity.
Defined.

Lemma pan_jumps_when_asked_witness :
  calls (snd (Ex.exec "pan_map_to_location" Cases.berlin_at_once Ex.fresh))
  = [ CallSetCenter (JArr [JNum 13.4; JNum 52.5]); CallSetZoom (JS.num 9) ].
Proof.
  unfold Ex.exec.
  rewrite (pan_jumps_when_asked MemMap.runtime MemMap.api Cases.berlin_at_once
             52.5 13.4 Ex.fresh eq_refl eq_refl eq_refl).
  reflexivity.
Defined.

Lemma pan_moves_before_it_fails_witness :
  isError (fst (Ex.exec "pan_map_to_location" Cases.berlin_as_text Ex.fresh)) = true
  /\ MemMap.camera (map (snd (Ex.exec "pan_map_to_location" Cases.berlin_as_text
                                Ex.fresh)))
     = [ CallFlyTo (JObj [ ("center", JArr [JNum 13.4; JStr "52.5"]);
                           ("zoom", JS.num 12);
                           ("duration", JS.num 2000) ]) ].
Proof.
  destruct (pan_moves_before_it_fails MemMap.runtime MemMap.api Cases.berlin_as_text
              _ Ex.fresh eq_refl eq_refl eq_refl eq_refl) as [H1 H2].
  unfold Ex.exec. rewrite H1, H2. split; reflexivity.
Defined.

Lemma style_is_passed_unchecked_witness :
  calls (snd (Ex.exec "set_map_style" Cases.own_style Ex.fresh))
  = [ CallSetStyle "mapbox://styles/mapbox/someone/custom" ].
Proof.
  unfold Ex.exec.
  rewrite (style_is_passed_unchecked MemMap.runtime MemMap.api Cases.own_style
             Ex.fresh eq_refl).
  reflexivity.
Defined.

Lemma bad_point_stops_the_query_witness :
  Ex.exec "query_rendered_features" Cases.half_point Ex.fresh
  = (error_envelope
       "Error: Invalid point coordinates. Expected {x: number, y: number}.",
     Ex.fresh).
Proof.
  exact (bad_point_stops_the_query MemMap.runtime MemMap.api Cases.half_point
           Ex.fresh eq_refl eq_refl eq_refl).
Defined.

Lemma bad_bbox_stops_the_query_witness :
  Ex.exec "query_rendered_features" Cases.short_bbox Ex.fresh
  = (error_envelope "Error: Invalid bbox format. Expected [x1, y1, x2, y2].",
     Ex.fresh).
Proof.
  exact (bad_bbox_stops_the_query MemMap.runtime MemMap.api Cases.short_bbox
           Ex.fresh eq_refl eq_refl eq_refl).
Defined.

Lemma source_query_is_cut_at_the_limit_witness :
  List.length Cases.stored_points = 3%nat
  /\ data (fst (Ex.exec "query_source_features" Cases.first_two Cases.with_points))
     = Some (feature_collection (firstn 2 Cases.stored_points)).
Proof.
  split; [reflexivity | ].
  exact (proj2 (source_query_is_cut_at_the_limit MemMap.runtime MemMap.api
                  Cases.first_two
                  (JObj [ ("id", JStr "points-layer-1"); ("type", JStr "geojson") ])
                  "points-layer-1" Cases.stored_points 2 Cases.with_points
                  eq_refl eq_refl eq_refl eq_refl eq_refl eq_refl eq_refl
                  eq_refl)).
Defined.

Lemma source_query_can_drop_geometry_witness :
  exists features : list Js,
    isError (fst (Ex.exec "query_source_features" Cases.properties_only
                    Cases.with_points)) = false
    /\ data (fst (Ex.exec "query_source_features" Cases.properties_only
                    Cases.with_points))
       = Some (feature_collection features)
    /\ Forall2 stripped Cases.stored_points features.
Proof.
  apply (source_query_can_drop_geometry MemMap.runtime MemMap.api
           Cases.properties_only
           (JObj [ ("id", JStr "points-layer-1"); ("type", JStr "geojson") ])
           "points-layer-1" Cases.stored_points 1000 Cases.with_points
           eq_refl eq_refl eq_refl eq_refl eq_refl eq_refl eq_refl eq_refl).
  repeat constructor.
Defined.

Lemma unknown_source_is_reported_witness :
  Ex.texts [fst (Ex.exec "query_source_features" Cases.nowhere Ex.fresh)]
  = [ "Error: Source " ++ quoted "nowhere"
      ++ " not found. Available sources: none. Make sure you're using the correct source ID from layer creation." ].
Proof.
  unfold Ex.exec.
  rewrite (unknown_source_is_reported MemMap.runtime MemMap.api Cases.nowhere
             JUndefined {| style_layers := []; style_sources := [] |} Ex.fresh
             eq_refl eq_refl eq_refl eq_refl).
  reflexivity.
Defined.

Lemma vector_source_needs_a_source_layer_witness :
  fst (Ex.exec "query_source_features" Cases.all_of_streets Cases.with_roads)
  = error_envelope "Error: sourceLayer parameter is required for vector tile sources".
Proof.
  unfold Ex.exec.
  rewrite (vector_source_needs_a_source_layer MemMap.runtime MemMap.api
             Cases.all_of_streets
             (JObj [ ("id", JStr "mapbox.mapbox-streets-v8-vector-source");
                     ("type", JStr "vector") ])
             Cases.with_roads eq_refl eq_refl eq_refl eq_refl eq_refl).
  reflexivity.
Defined.

Lemma bbox_elements_are_not_checked_witness :
  calls (snd (Ex.exec "query_rendered_features" Cases.text_bbox Ex.fresh))
  = [ CallQueryRenderedFeatures
        (JArr [ JArr [JStr "a"; JStr "b"]; JArr [JStr "c"; JStr "d"] ])
        (JObj []) ].
Proof.
  exact (bbox_elements_are_not_checked MemMap.runtime MemMap.api Cases.text_bbox
           (JStr "a") (JStr "b") (JStr "c") (JStr "d") Ex.fresh eq_refl eq_refl).
Defined.

Lemma caller_paint_wins_witness :
  (exists delta : list Call,
     calls (snd (Ex.exec "add_vector_tileset_layer" Cases.green_roads Ex.fresh)) = delta
     /\ Forall (paints "mapbox.mapbox-streets-v8-vector-source" "line-color"
                  (JStr "#00FF00")) delta
     /\ (isError (fst (Ex.exec "add_vector_tileset_layer" Cases.green_roads Ex.fresh))
         = false ->
         exists layer : Js, In (CallAddLayer layer) delta))
  /\ (exists delta : list Call,
        calls (snd (Ex.exec "add_vector_tileset_layer" Cases.green_roads Ex.fresh))
        = delta
        /\ Forall (paints "mapbox.mapbox-streets-v8-vector-source" "line-width"
                     (JS.num 2)) delta
        /\ (isError (fst (Ex.exec "add_vector_tileset_layer" Cases.green_roads
                            Ex.fresh)) = false ->
            exists layer : Js, In (CallAddLayer layer) delta)).
Proof.
  split.
  - destruct (caller_paint_wins MemMap.runtime MemMap.api Cases.green_roads
                Ex.streets "line-color" [ ("line-color", JStr "#00FF00") ] Ex.fresh
                eq_refl eq_refl) as (delta & H1 & H2 & H3 & _).
    exists delta. repeat split; assumption.
  - destruct (caller_paint_wins MemMap.runtime MemMap.api Cases.green_roads
                Ex.streets "line-width" [ ("line-color", JStr "#00FF00") ] Ex.fresh
                eq_refl eq_refl) as (delta & H1 & H2 & H3 & _).
    exists delta. repeat split; assumption.
Defined.

Lemma polygon_is_not_rolled_back_witness :
  isError (fst (Ex.exec "add_polygon_to_map" Ex.polygon (MemMap.instance Cases.taken)))
  = true
  /\ Ex.layer_ids (snd (Ex.exec "add_polygon_to_map" Ex.polygon
                          (MemMap.instance Cases.taken)))
     = [ "polygon-layer-1-stroke"; "polygon-layer-1-fill" ]
  /\ Ex.source_ids (snd (Ex.exec "add_polygon_to_map" Ex.polygon
                           (MemMap.instance Cases.taken)))
     = [ "border"; "polygon-layer-1" ].
Proof.
  unfold Ex.exec.
  erewrite (polygon_is_not_rolled_back MemMap.runtime MemMap.api Ex.polygon
              "polygon-layer" _ _ _ (MemMap.instance Cases.taken) eq_refl eq_refl);
    [ | reflexivity | reflexivity | reflexivity ].
  repeat split.
Defined.

Lemma every_point_becomes_a_feature_witness :
  exists (features : list Js) (rest : list Call),
    calls (snd (Ex.exec "add_points_to_map" Cases.three_points Ex.fresh))
    = CallAddSource "points-layer-1"
        (JObj [ ("type", JStr "geojson"); ("data", feature_collection features) ])
      :: rest
    /\ List.length features = 3%nat
    /\ forall (j : nat) (p : Js),
         nth_error
           (match JS.prop Cases.three_points "points" with
            | JArr l => l
            | _ => []
            end) j = Some p ->
         exists f : Js,
           nth_error features j = Some f
           /\ is_point_feature default_options (N.of_nat j) p f.
Proof.
  apply (every_point_becomes_a_feature MemMap.runtime MemMap.api Cases.three_points
           _ "points-layer" Ex.fresh eq_refl); [ | reflexivity].
  repeat constructor.
Defined.

Lemma null_point_costs_a_tick_witness :
  Ex.exec "add_points_to_map" Cases.points_with_a_gap Ex.fresh
  = (error_envelope "Error: Cannot read properties of null (reading 'longitude')",
     ticked Ex.fresh).
Proof.
  apply (null_point_costs_a_tick MemMap.runtime MemMap.api Cases.points_with_a_gap
           JNull
           [ JObj [ ("longitude", JNum 13.4); ("latitude", JNum 52.5) ] ] []
           Ex.fresh eq_refl).
  - repeat constructor.
  - reflexivity.
Defined.

Lemma rejected_bounds_move_nothing_witness :
  Ex.exec "fit_map_to_bounds" Cases.corner_and_pole Ex.fresh
  = (error_envelope
       "Error: Invalid LngLat latitude value: must be between -90 and 90",
     Ex.fresh).
Proof.
  exact (rejected_bounds_move_nothing MemMap.runtime MemMap.api Cases.corner_and_pole
           (JArr [JNum 1; JNum 2]) [JArr [JNum 0; JNum 100]]
           (Error "Invalid LngLat latitude value: must be between -90 and 90")
           Ex.fresh eq_refl eq_refl).
Defined.

Lemma destroy_is_not_shielded_witness :
  destroy MemMap.runtime Cases.unloaded Ex.fresh
  = (Throw (TypeError "Cannot read properties of undefined (reading 'layers')"),
     record CallGetStyle Ex.fresh)
  /\ executeTool MemMap.runtime Cases.unloaded "clear_map_layers" (JObj []) Ex.fresh
     = (error_envelope
          "Error: Cannot read properties of undefined (reading 'layers')",
        record CallGetStyle Ex.fresh).
Proof.
  exact (destroy_is_not_shielded MemMap.runtime Cases.unloaded
           (TypeError "Cannot read properties of undefined (reading 'layers')")
           Ex.fresh eq_refl).
Defined.

Lemma sweep_removes_what_is_listed_witness :
  exists delta : list Call,
    calls (snd (Ex.exec "clear_map_layers" (JObj []) Cases.with_default_points))
    = (calls Cases.with_default_points ++ delta)%list
    /\ Forall (removes_only [JStr "points-layer-1"]) delta.
Proof.
  exact (sweep_removes_what_is_listed MemMap.runtime MemMap.api (JObj [])
           ["points-layer-1"] Cases.with_default_points (or_introl eq_refl) eq_refl).
Defined.

Lemma count_is_the_number_of_removals_witness :
  exists delta : list Call,
    calls (snd (Ex.exec "clear_map_layers" (JObj []) Cases.with_default_points))
    = (calls Cases.with_default_points ++ delta)%list
    /\ content (fst (Ex.exec "clear_map_layers" (JObj []) Cases.with_default_points))
       = text_content ("Removed " ++ Str.dec (N.of_nat (removals delta))
                       ++ " layers from the map").
Proof.
  exact (count_is_the_number_of_removals MemMap.runtime MemMap.api (JObj [])
           Cases.with_default_points eq_refl).
Defined.

Lemma empty_layer_list_means_all_layers_witness :
  exists delta : list Call,
    calls (snd (Ex.exec "query_rendered_features" (JObj [ ("layers", JArr []) ])
                  Ex.fresh))
    = delta
    /\ Forall (queries_with (JObj [])) delta.
Proof.
  exact (empty_layer_list_means_all_layers MemMap.runtime MemMap.api
           (JObj [ ("layers", JArr []) ]) Ex.fresh eq_refl).
Defined.
